(** * Retrieval engine of Styling-GenAI (src/app/rag.py, src/config.py)

    A shallow embedding of [VectorStore] and [RAGSystem] and the proofs
    of the properties the specification states about them.

    Conventions.  An embedding component is a [Z] counting thousandths,
    so an exact inner product is a [Z] counting millionths, and the
    configured threshold 0.7 is [700000] millionths.  A similarity score
    is a single-precision float, modelled by the whole number of units of
    2^-150 it is worth (see [float32]).  Python exceptions are values
    of [exn]; a method that mutates [self] returns the new object next to
    its outcome, also when it raises, so that a caller that catches the
    exception observes the mutations made before it. *)

From stdpp Require Import base gmap strings list sorting pretty.
From Stdlib Require Import ZArith Lia Ascii QArith.

Local Open Scope Z_scope.

(** ** Python values *)

Inductive exn : Type :=
  | IndexError
  | AssertionError
  | TypeError
  | FileNotFoundError.

Inductive result (A : Type) : Type :=
  | Ok (a : A)
  | Raise (e : exn).
Arguments Ok {A} a.
Arguments Raise {A} e.

(** [x or default] on an optional integer: [None] and [0] are falsy. *)
Definition py_or (x : option Z) (default : Z) : Z :=
  match x with
  | None => default
  | Some v => if v =? 0 then default else v
  end.

(** [l[i]] on a Python list: a negative index counts from the end, an
    index outside [-len, len) raises IndexError ([None] here). *)
Definition py_getitem {A} (l : list A) (i : Z) : option A :=
  let n := Z.of_nat (length l) in
  if (0 <=? i) && (i <? n) then l !! Z.to_nat i
  else if (- n <=? i) && (i <? 0) then l !! Z.to_nat (n + i)
  else None.
Arguments py_getitem {A} l i : simpl never.

(** A Python [str] is modelled by the bytes of its UTF-8 encoding.  A
    byte 10xxxxxx continues the character begun before it. *)
Definition is_continuation (c : ascii) : bool :=
  (128 <=? nat_of_ascii c)%nat && (nat_of_ascii c <? 192)%nat.

Fixpoint characters (s : string) : nat :=
  match s with
  | EmptyString => 0%nat
  | String c rest => ((if is_continuation c then 0 else 1) + characters rest)%nat
  end.

(** [len(s)]: the number of characters. *)
Definition len (s : string) : Z := Z.of_nat (characters s).

(** [sep.join(parts)] *)
Fixpoint join (sep : string) (parts : list string) : string :=
  match parts with
  | [] => ""
  | [p] => p
  | p :: rest => p +:+ sep +:+ join sep rest
  end.

Definition newline : string := String "010"%char EmptyString.

(** ** src/config.py *)

Record ModelConfig : Type := {
  chunk_size : Z;
  chunk_overlap : Z;
  top_k_results : Z;
  similarity_threshold : Z
}.

(** The global [config = ModelConfig()]; 0.7 is 700000 millionths. *)
Definition config : ModelConfig := {|
  chunk_size := 500;
  chunk_overlap := 50;
  top_k_results := 3;
  similarity_threshold := 700000
|}.

(** ** Documents *)

(** A metadata value.  [MOther] carries the [str()] rendering of a value
    that is neither a string, an integer nor [None] (a float price). *)
Inductive MetaValue : Type :=
  | MStr (s : string)
  | MInt (z : Z)
  | MNone
  | MOther (repr : string).

#[global] Instance MetaValue_eq_dec : EqDecision MetaValue.
Proof. solve_decision. Defined.

Record Document : Type := {
  page_content : string;
  metadata : gmap string MetaValue
}.

(** [str(v)], as an f-string renders it. *)
Definition py_str (v : MetaValue) : string :=
  match v with
  | MStr s => s
  | MInt z => pretty z
  | MNone => "None"
  | MOther r => r
  end.

(** [metadata.get(key, default)] *)
Definition metadata_get (doc : Document) (key : string) (default : MetaValue) : MetaValue :=
  from_option id default (metadata doc !! key).

(** ** Floats

    A finite float is modelled by the whole number of units of 2^-150 it
    is worth.  Every finite [numpy.float32] is such a number (its
    smallest step is 2^-149), and so is every Python float (a double)
    whose last place is worth at least one unit. *)
Definition float_unit : Z := 2 ^ 150.

(** The float with [precision] significant bits that is nearest to the
    rational [n / d] (for [0 < d]), ties to even.  The last place is worth
    at least 2^-149, the smallest step of a float32; overflow to an
    infinity is not modelled. *)
Definition nearest_float (precision n d : Z) : Z :=
  let magnitude := Z.abs n * float_unit in
  let ulp := 2 ^ Z.max (Z.log2 (magnitude / d) - (precision - 1)) 1 in
  let q := magnitude / (d * ulp) in
  let r := magnitude - q * (d * ulp) in
  let mantissa :=
    if 2 * r <? d * ulp then q
    else if d * ulp <? 2 * r then q + 1
    else if Z.even q then q else q + 1 in
  Z.sgn n * (mantissa * ulp).

(** [numpy.float32(n / d)] *)
Definition float32 (n d : Z) : Z := nearest_float 24 n d.

(** The Python float [n / d] *)
Definition float64 (n d : Z) : Z := nearest_float 53 n d.

Arguments nearest_float : simpl never.
Arguments float32 : simpl never.
Arguments float64 : simpl never.

(** The Python float [config.similarity_threshold]. *)
Definition config_threshold : Z := float64 (similarity_threshold config) 1000000.

(** The threshold as the test [score >= config.similarity_threshold] of
    [similarity_search] sees it.  [score] is a [numpy.float32]; NumPy
    (promotion rules of NumPy 2) converts the Python float to the type of
    the score and compares in single precision. *)
Definition score_threshold : Z := float32 config_threshold float_unit.

#[global] Opaque config_threshold score_threshold.

(** ** Vectors and the flat inner-product index

    The index is the external FAISS library's [IndexFlatIP]: it keeps the
    rows it is given and answers a query with the [k] best rows. *)

Definition vector : Type := list Z.

Definition inner_product (u v : vector) : Z :=
  foldr Z.add 0 (zip_with Z.mul u v).

(** [faiss.normalize_L2] on one row, in fixed point: the row is divided
    by its Euclidean norm; a zero row is left as it is. *)
Definition normalize_row (v : vector) : vector :=
  let norm := Z.sqrt (inner_product v v) in
  if norm =? 0 then v else map (fun x => x * 1000 / norm) v.

Definition normalize_L2 (m : list vector) : list vector := map normalize_row m.

(** [array.shape[1]]: an array built from no rows has one axis only, so
    its shape is [(0,)] and [shape[1]] raises IndexError. *)
Definition shape1 (m : list vector) : option nat :=
  match m with
  | [] => None
  | row :: _ => Some (length row)
  end.

(** [faiss.IndexFlatIP]: the dimension and the stored rows, in the order
    they were added. *)
Record Index : Type := {
  dim : nat;
  xb : list vector
}.

Definition IndexFlatIP (dimension : nat) : Index := {| dim := dimension; xb := [] |}.

Definition index_add (idx : Index) (rows : list vector) : Index :=
  {| dim := dim idx; xb := xb idx ++ rows |}.

Definition ntotal (idx : Index) : nat := length (xb idx).

(** A hit is a pair (score, position in the index). *)
Definition hit : Type := Z * Z.

(** [a] scores at least as much as [b]. *)
Definition score_ge (a b : hit) : Prop := b.1 <= a.1.

(** The score of the rows the library returns when the index holds fewer
    than [k] rows: the lowest float32, with position [-1]. *)
Definition lowest_score : Z := - (340282346638528859811704183484516925440 * float_unit).

(** The score of a row against [q]: the inner product, a float32.  The
    library rounds as it adds; here the exact product is rounded once. *)
Definition score_of (q row : vector) : Z := float32 (inner_product q row) 1000000.

(** Every stored row with its score against [q] and its position. *)
Definition all_hits (idx : Index) (q : vector) : list hit :=
  zip (score_of q <$> xb idx) (Z.of_nat <$> seq 0 (ntotal idx)).

(** ** Persisted artifacts *)

(** What a file of the persisted index can hold.  [FaissNullFile] is what
    [faiss.write_index] writes for [None] (the library's mark of a missing
    index, which [faiss.read_index] reads back as [None]); [NpyObjectFile]
    is what [np.save] writes for a value that is not a numeric array (such
    a file is refused by [np.load]); [Corrupt] is any unreadable content. *)
Inductive File : Type :=
  | FaissFile (i : Index)
  | FaissNullFile
  | PickleFile (ds : list Document)
  | NpyFile (m : list vector)
  | NpyObjectFile
  | Corrupt.

(** [faiss.read_index], [pickle.load] and [np.load]: [None] when the
    call raises (file missing or not of the expected format). *)
Definition read_index (fs : gmap string File) (p : string) : option (option Index) :=
  match fs !! p with
  | Some (FaissFile i) => Some (Some i)
  | Some FaissNullFile => Some None
  | _ => None
  end.

Definition pickle_load (fs : gmap string File) (p : string) : option (list Document) :=
  match fs !! p with
  | Some (PickleFile ds) => Some ds
  | _ => None
  end.

Definition np_load (fs : gmap string File) (p : string) : option (list vector) :=
  match fs !! p with
  | Some (NpyFile m) => Some m
  | _ => None
  end.

(** [os.path.dirname(p)]: the part of [p] before its last "/", without
    the slashes that end it unless it is made of slashes only; empty when
    [p] has no "/". *)
Fixpoint has_slash (p : string) : bool :=
  match p with
  | EmptyString => false
  | String c rest => Ascii.eqb c "/" || has_slash rest
  end.

Fixpoint path_head (p : string) : string :=
  match p with
  | EmptyString => EmptyString
  | String c rest => if has_slash p then String c (path_head rest) else EmptyString
  end.

Fixpoint rstrip_slash (s : string) : string :=
  match s with
  | EmptyString => EmptyString
  | String c rest =>
      match rstrip_slash rest with
      | EmptyString => if Ascii.eqb c "/" then EmptyString else String c EmptyString
      | rest' => String c rest'
      end
  end.

Definition os_path_dirname (p : string) : string :=
  let head := path_head p in
  if bool_decide (rstrip_slash head = "") then head else rstrip_slash head.

(** [np.save(p, a)] appends ".npy" to [p]. *)
Definition np_save (fs : gmap string File) (p : string) (a : option (list vector)) : gmap string File :=
  <[p +:+ ".npy" := match a with Some m => NpyFile m | None => NpyObjectFile end]> fs.

(** ** VectorStore *)

Record VectorStore : Type := {
  index : option Index;
  documents : list Document;
  embeddings : option (list vector)
}.

Record SearchResult : Type := {
  document : Document;
  score : Z;
  rank : Z
}.

(** [RAGSystem.search_products] returns dictionaries with these keys. *)
Record ProductResult : Type := {
  product_id : MetaValue;
  content : string;
  product_score : Z
}.

Record RAGSystem : Type := {
  kb_path : string;
  vector_store : VectorStore;
  is_initialized : bool
}.

(** ** External components

    [encode] is [SentenceTransformer(config.embedding_model).encode] on
    one text.  The three next fields are the Record Loader and the
    Chunker ([DocumentProcessor]); no property below depends on what they
    produce.

    [top_rows idx q k] is what [index.search] of the FAISS library finds
    in an [IndexFlatIP] for a positive [k]: [k] rows of the index, or all
    of them when there are fewer, each with its score and its position
    and none twice, in the order of non-increasing score.  Which of
    several rows of equal score comes first, and which of them is left
    out when [k] cuts among them, is the library's choice and is left
    open. *)
Class Environment : Type := {
  encode : string -> vector;
  load_markdown_files : gmap string File -> string -> list Document;
  load_json_files : gmap string File -> string -> list Document;
  split_documents : list Document -> list Document;
  top_rows : Index -> vector -> Z -> list hit;
  top_rows_length : forall (idx : Index) (q : vector) (k : Z),
    0 < k -> length (top_rows idx q k) = Nat.min (Z.to_nat k) (ntotal idx);
  top_rows_stored : forall (idx : Index) (q : vector) (k : Z),
    top_rows idx q k ⊆+ all_hits idx q;
  top_rows_sorted : forall (idx : Index) (q : vector) (k : Z),
    StronglySorted score_ge (top_rows idx q k)
}.

Section Engine.

Context `{Environment}.

(** [index.search(x, k)]: the library refuses [k <= 0] with an assertion;
    otherwise it returns [k] rows, those it found followed, when the index
    holds fewer than [k], by rows of position [-1] and the lowest score. *)
Definition index_search (idx : Index) (q : vector) (k : Z) : result (list hit) :=
  if k <=? 0 then Raise AssertionError
  else
    let found := top_rows idx q k in
    Ok (found ++ replicate (Z.to_nat k - length found) (lowest_score, -1)).

(** [VectorStore.__init__] *)
Definition VectorStore_init : VectorStore :=
  {| index := None; documents := []; embeddings := None |}.

(** [VectorStore.build_index] *)
Definition build_index (self : VectorStore) (docs : list Document)
  : result unit * VectorStore :=
  let texts := map page_content docs in
  let emb := map encode texts in
  match shape1 emb with
  | None =>
      (Raise IndexError,
       {| index := index self; documents := docs; embeddings := Some emb |})
  | Some dimension =>
      let emb' := normalize_L2 emb in
      (Ok tt,
       {| index := Some (index_add (IndexFlatIP dimension) emb');
          documents := docs;
          embeddings := Some emb' |})
  end.

(** The loop of [similarity_search] over [zip(scores[0], indices[0])];
    [i] is the loop counter of [enumerate].  The test compares in single
    precision (see [score_threshold]); [float(score)] is the same
    number. *)
Fixpoint collect_results (docs : list Document) (i : Z) (hits : list hit)
  : result (list SearchResult) :=
  match hits with
  | [] => Ok []
  | (s, pos) :: rest =>
      if score_threshold <=? s then
        match py_getitem docs pos with
        | None => Raise IndexError
        | Some doc =>
            match collect_results docs (i + 1) rest with
            | Raise e => Raise e
            | Ok rs => Ok ({| document := doc; score := s; rank := i + 1 |} :: rs)
            end
        end
      else collect_results docs (i + 1) rest
  end.

(** [VectorStore.similarity_search] *)
Definition similarity_search (self : VectorStore) (query : string) (k : option Z)
  : result (list SearchResult) :=
  match index self with
  | None => Ok []
  | Some idx =>
      let k := py_or k (top_k_results config) in
      let query_embedding := normalize_row (encode query) in
      match index_search idx query_embedding k with
      | Raise e => Raise e
      | Ok hits => collect_results (documents self) 0 hits
      end
  end.

(** [VectorStore.save_index].  [os.makedirs(os.path.dirname(path),
    exist_ok=True)] raises FileNotFoundError when [path] has no directory
    part; directories are not modelled otherwise, and the files are taken
    to be writable. *)
Definition save_index (self : VectorStore) (path : string) (fs : gmap string File)
  : result unit * gmap string File :=
  if bool_decide (os_path_dirname path = "") then (Raise FileNotFoundError, fs)
  else
    let written :=
      match index self with
      | Some idx => FaissFile idx
      | None => FaissNullFile
      end in
    let fs1 := <[path +:+ ".index" := written]> fs in
    let fs2 := <[path +:+ ".docs" := PickleFile (documents self)]> fs1 in
    (Ok tt, np_save fs2 (path +:+ ".embeddings") (embeddings self)).

(** [VectorStore.load_index]: each attribute is assigned as soon as its
    file is read; any exception is caught and turned into [False]. *)
Definition load_index (self : VectorStore) (path : string) (fs : gmap string File)
  : bool * VectorStore :=
  match read_index fs (path +:+ ".index") with
  | None => (false, self)
  | Some idx =>
      let self1 := {| index := idx; documents := documents self;
                      embeddings := embeddings self |} in
      match pickle_load fs (path +:+ ".docs") with
      | None => (false, self1)
      | Some ds =>
          let self2 := {| index := idx; documents := ds;
                          embeddings := embeddings self |} in
          match np_load fs (path +:+ ".embeddings.npy") with
          | None => (false, self2)
          | Some m =>
              (true, {| index := idx; documents := ds; embeddings := Some m |})
          end
      end
  end.

(** [RAGSystem.__init__] *)
Definition RAGSystem_init (knowledge_base_path : string) : RAGSystem :=
  {| kb_path := knowledge_base_path;
     vector_store := VectorStore_init;
     is_initialized := false |}.

Definition index_path : string := "data/vector_index".

Definition with_store (self : RAGSystem) (vs : VectorStore) (init : bool) : RAGSystem :=
  {| kb_path := kb_path self; vector_store := vs; is_initialized := init |}.

(** [RAGSystem.initialize] *)
Definition initialize (force_rebuild : bool) (fs : gmap string File) (self : RAGSystem)
  : result unit * (gmap string File * RAGSystem) :=
  let loaded :=
    if force_rebuild then (false, vector_store self)
    else load_index (vector_store self) index_path fs in
  match loaded with
  | (true, vs) => (Ok tt, (fs, with_store self vs true))
  | (false, vs) =>
      let md_docs := load_markdown_files fs (kb_path self) in
      let json_docs := load_json_files fs (kb_path self) in
      let all_docs := md_docs ++ json_docs in
      let chunked_docs := split_documents all_docs in
      match build_index vs chunked_docs with
      | (Raise e, vs') => (Raise e, (fs, with_store self vs' (is_initialized self)))
      | (Ok _, vs') =>
          match save_index vs' index_path fs with
          | (Raise e, fs') => (Raise e, (fs', with_store self vs' (is_initialized self)))
          | (Ok _, fs') => (Ok tt, (fs', with_store self vs' true))
          end
      end
  end.

(** [if not self.is_initialized: self.initialize()] *)
Definition ensure_initialized (fs : gmap string File) (self : RAGSystem)
  : result unit * (gmap string File * RAGSystem) :=
  if is_initialized self then (Ok tt, (fs, self)) else initialize false fs self.

Definition no_information : string :=
  "No relevant information found in the knowledge base.".

Definition separator : string := newline +:+ "---" +:+ newline.

(** [content_with_source] for the document of one result. *)
Definition content_with_source (doc : Document) : string :=
  let source_info :=
    "[Source: " +:+ py_str (metadata_get doc "filename" (MStr "unknown")) +:+ "]" in
  source_info +:+ newline +:+ page_content doc +:+ newline.

(** The loop of [get_relevant_context] that fills [context_parts]. *)
Fixpoint context_parts (results : list SearchResult) (total_length max_context_length : Z)
  : list string :=
  match results with
  | [] => []
  | r :: rest =>
      let block := content_with_source (document r) in
      if total_length + len block >? max_context_length then []
      else block :: context_parts rest (total_length + len block) max_context_length
  end.

(** [RAGSystem.get_relevant_context] *)
Definition get_relevant_context (query : string) (max_context_length : Z)
    (fs : gmap string File) (self : RAGSystem)
  : result string * (gmap string File * RAGSystem) :=
  match ensure_initialized fs self with
  | (Raise e, st) => (Raise e, st)
  | (Ok _, (fs', self')) =>
      match similarity_search (vector_store self') query None with
      | Raise e => (Raise e, (fs', self'))
      | Ok [] => (Ok no_information, (fs', self'))
      | Ok results =>
          (Ok (join separator (context_parts results 0 max_context_length)),
           (fs', self'))
      end
  end.

(** The test [metadata.get("type") == "product"]. *)
Definition is_product (doc : Document) : bool :=
  match metadata doc !! "type" with
  | Some (MStr s) => bool_decide (s = "product")
  | _ => false
  end.

Definition product_of (r : SearchResult) : ProductResult :=
  {| product_id := metadata_get (document r) "product_id" MNone;
     content := page_content (document r);
     product_score := score r |}.

(** The loop of [search_products]. *)
Fixpoint product_results (results : list SearchResult) : list ProductResult :=
  match results with
  | [] => []
  | r :: rest =>
      if is_product (document r) then product_of r :: product_results rest
      else product_results rest
  end.

(** [RAGSystem.search_products] *)
Definition search_products (query : string) (fs : gmap string File) (self : RAGSystem)
  : result (list ProductResult) * (gmap string File * RAGSystem) :=
  match ensure_initialized fs self with
  | (Raise e, st) => (Raise e, st)
  | (Ok _, (fs', self')) =>
      match similarity_search (vector_store self') query None with
      | Raise e => (Raise e, (fs', self'))
      | Ok results => (Ok (product_results results), (fs', self'))
      end
  end.

End Engine.

(** ** A small knowledge base to run the engine on

    The encoder maps a text to one of three unit vectors chosen by its
    first character, so that the scores are 1.0, 0.8, 0.6 or 0.0. *)
Module Toy.

Definition encode_text (s : string) : vector :=
  match s with
  | String "a"%char _ => [1000; 0]
  | String "b"%char _ => [0; 1000]
  | _ => [600; 800]
  end.

Definition hoodie : Document :=
  {| page_content := "apple red hoodie";
     metadata := {[ "type" := MStr "product"; "product_id" := MStr "P1" ]} |}.

Definition faq : Document :=
  {| page_content := "cotton care";
     metadata := {[ "type" := MStr "markdown"; "filename" := MStr "faq.md" ]} |}.

Definition cap : Document :=
  {| page_content := "blue cap";
     metadata := {[ "type" := MStr "product"; "product_id" := MInt 7 ]} |}.

Definition note : Document :=
  {| page_content := "abc"; metadata := ∅ |}.

(** [a] ranks no later than [b]: higher score first, equal scores by
    ascending position. *)
Definition hit_before (a b : hit) : Prop :=
  b.1 < a.1 \/ (a.1 = b.1 /\ a.2 <= b.2).

#[global] Instance hit_before_dec (a b : hit) : Decision (hit_before a b).
Proof. unfold hit_before. apply _. Defined.

#[global] Instance hit_before_total : Total hit_before.
Proof. intros [s1 p1] [s2 p2]. unfold hit_before. simpl. lia. Qed.

#[global] Instance hit_before_trans : Transitive hit_before.
Proof. intros [s1 p1] [s2 p2] [s3 p3]. unfold hit_before. simpl. lia. Qed.

(** The toy library sorts the rows by score and, among rows of equal
    score, by ascending position. *)
Definition ranked (idx : Index) (q : vector) (k : Z) : list hit :=
  take (Z.to_nat k) (merge_sort hit_before (all_hits idx q)).

Program Definition env : Environment := {|
  encode := encode_text;
  load_markdown_files := fun _ _ => [faq];
  load_json_files := fun _ _ => [hoodie; cap];
  split_documents := fun ds => ds;
  top_rows := ranked
|}.
Next Obligation.
  intros. unfold ranked. rewrite length_take.
  rewrite (Permutation_length (merge_sort_Permutation hit_before (all_hits idx q))).
  unfold all_hits, ntotal. by rewrite length_zip_with, !length_fmap, length_seq, Nat.min_id.
Qed.
Next Obligation.
  intros. unfold ranked.
  rewrite <- (merge_sort_Permutation hit_before (all_hits idx q)) at 2.
  apply sublist_submseteq, sublist_take.
Qed.
Next Obligation.
  intros. unfold ranked.
  assert (forall l : list hit, StronglySorted hit_before l -> StronglySorted score_ge l)
    as Hweaken.
  { induction 1 as [|a l _ IH Ha]; constructor; [done|].
    eapply Forall_impl; [exact Ha|]. intros b. unfold hit_before, score_ge. lia. }
  apply Hweaken.
  apply (StronglySorted_app_1_l _ _ (drop (Z.to_nat k) (merge_sort hit_before (all_hits idx q)))).
  rewrite take_drop. apply StronglySorted_merge_sort; apply _.
Qed.

Definition built (docs : list Document) : VectorStore :=
  (@build_index env VectorStore_init docs).2.

Definition engine (docs : list Document) : RAGSystem :=
  {| kb_path := "app/knowledge_base"; vector_store := built docs; is_initialized := true |}.

(** The results of the query "cat" on the index of [hoodie; faq; cap]:
    the hoodie scores 0.6 and is not reported. *)
Definition faq_result : SearchResult :=
  {| document := faq; score := float32 1000000 1000000; rank := 1 |}.

Definition cap_result : SearchResult :=
  {| document := cap; score := float32 800000 1000000; rank := 2 |}.

End Toy.

(** ** A library with another order among equal scores

    The toy knowledge base behind a library that ranks rows of equal
    score by descending position, as a search that keeps the best rows in
    a heap may do. *)
Module Later.

Definition hit_later (a b : hit) : Prop :=
  b.1 < a.1 \/ (a.1 = b.1 /\ b.2 <= a.2).

#[global] Instance hit_later_dec (a b : hit) : Decision (hit_later a b).
Proof. unfold hit_later. apply _. Defined.

#[global] Instance hit_later_total : Total hit_later.
Proof. intros [s1 p1] [s2 p2]. unfold hit_later. simpl. lia. Qed.

#[global] Instance hit_later_trans : Transitive hit_later.
Proof. intros [s1 p1] [s2 p2] [s3 p3]. unfold hit_later. simpl. lia. Qed.

Definition ranked (idx : Index) (q : vector) (k : Z) : list hit :=
  take (Z.to_nat k) (merge_sort hit_later (all_hits idx q)).

Program Definition env : Environment := {|
  encode := Toy.encode_text;
  load_markdown_files := fun _ _ => [Toy.faq];
  load_json_files := fun _ _ => [Toy.hoodie; Toy.cap];
  split_documents := fun ds => ds;
  top_rows := ranked
|}.
Next Obligation.
  intros. unfold ranked. rewrite length_take.
  rewrite (Permutation_length (merge_sort_Permutation hit_later (all_hits idx q))).
  unfold all_hits, ntotal. by rewrite length_zip_with, !length_fmap, length_seq, Nat.min_id.
Qed.
Next Obligation.
  intros. unfold ranked.
  rewrite <- (merge_sort_Permutation hit_later (all_hits idx q)) at 2.
  apply sublist_submseteq, sublist_take.
Qed.
Next Obligation.
  intros. unfold ranked.
  assert (forall l : list hit, StronglySorted hit_later l -> StronglySorted score_ge l)
    as Hweaken.
  { induction 1 as [|a l _ IH Ha]; constructor; [done|].
    eapply Forall_impl; [exact Ha|]. intros b. unfold hit_later, score_ge. lia. }
  apply Hweaken.
  apply (StronglySorted_app_1_l _ _ (drop (Z.to_nat k) (merge_sort hit_later (all_hits idx q)))).
  rewrite take_drop. apply StronglySorted_merge_sort; apply _.
Qed.

Definition built (docs : list Document) : VectorStore :=
  (@build_index env VectorStore_init docs).2.

End Later.

(** ** A document at the edge of the threshold

    The query "ask" is encoded as the unit vector (1, 0) and the page as
    (0.700, 0.714), which [normalize_row] leaves as it is: their exact
    inner product is 0.7. *)
Module Edge.

Definition encode_text (s : string) : vector :=
  match s with
  | String "a"%char _ => [1000; 0]
  | _ => [700; 714]
  end.

Definition page : Document :=
  {| page_content := "size chart";
     metadata := {[ "type" := MStr "markdown"; "filename" := MStr "sizes.md" ]} |}.

Definition env : Environment := {|
  encode := encode_text;
  load_markdown_files := fun _ _ => [page];
  load_json_files := fun _ _ => [];
  split_documents := fun ds => ds;
  top_rows := @top_rows Toy.env;
  top_rows_length := @top_rows_length Toy.env;
  top_rows_stored := @top_rows_stored Toy.env;
  top_rows_sorted := @top_rows_sorted Toy.env
|}.

Definition engine : RAGSystem :=
  {| kb_path := "app/knowledge_base";
     vector_store := (@build_index env VectorStore_init [page]).2;
     is_initialized := true |}.


End Edge.

(** ** Vocabulary of the statements *)

(** The characters of the blocks, separators not counted: the quantity
    [total_length] accumulates in [get_relevant_context]. *)
Definition total_len (parts : list string) : Z := foldr (fun p acc => len p + acc) 0 parts.


(** The hits that pass the test [score >= config.similarity_threshold]
    of [similarity_search]. *)
Definition above_threshold (hits : list hit) : list hit :=
  filter (fun h : hit => score_threshold <= h.1) hits.

(** Result [r] reports hit [h]: its score is the raw score of the hit and
    its document is the one stored at the position of the hit. *)
Definition result_of_hit (docs : list Document) (r : SearchResult) (h : hit) : Prop :=
  score r = h.1 /\ py_getitem docs h.2 = Some (document r).

(** The document carries the metadata [type = "product"]. *)
Definition product_typed (doc : Document) : Prop :=
  metadata doc !! "type" = Some (MStr "product").

#[global] Instance product_typed_dec (doc : Document) : Decision (product_typed doc).
Proof. unfold product_typed. apply _. Defined.

(** The formatted block of a result. *)
Definition block (r : SearchResult) : string := content_with_source (document r).

(** [r] reports a row that the index returns for the query at the
    configured [k], with the raw score of that row. *)
Definition raw_hit `{Environment} (self : VectorStore) (q : string) (r : SearchResult)
  : Prop :=
  exists (idx : Index) (hits : list hit) (pos : Z),
    index self = Some idx /\
    index_search idx (normalize_row (encode q)) (top_k_results config) = Ok hits /\
    (score r, pos) ∈ hits /\
    py_getitem (documents self) pos = Some (document r).

(** * The rest of the retrieval engine and its callers *)

(** ** More Python values *)

(** Exceptions beyond those of [exn]. *)
Inductive error : Type :=
  | Builtin (e : exn)
  | AttributeError
  | KeyError (key : string)
  | ValueError
  | ZeroDivisionError.

Inductive outcome (A : Type) : Type :=
  | Return (a : A)
  | Throw (e : error).
Arguments Return {A} a.
Arguments Throw {A} e.

Definition is_upper (c : ascii) : bool :=
  (65 <=? nat_of_ascii c)%nat && (nat_of_ascii c <=? 90)%nat.

Definition is_lower (c : ascii) : bool :=
  (97 <=? nat_of_ascii c)%nat && (nat_of_ascii c <=? 122)%nat.

Definition lower_char (c : ascii) : ascii :=
  if is_upper c then ascii_of_nat (nat_of_ascii c + 32) else c.

Definition upper_char (c : ascii) : ascii :=
  if is_lower c then ascii_of_nat (nat_of_ascii c - 32) else c.

(** [s.lower()] on ASCII text: the letters A to Z are lowered, every
    other byte is kept.  ([str.lower] also lowers the letters outside
    ASCII; no property below depends on what it does to them.) *)
Fixpoint py_lower (s : string) : string :=
  match s with
  | EmptyString => EmptyString
  | String c rest => String (lower_char c) (py_lower rest)
  end.

(** [sub in s]: [sub] occurs in [s] as a substring. *)
Fixpoint py_in (sub s : string) : bool :=
  String.prefix sub s ||
  match s with
  | EmptyString => false
  | String _ rest => py_in sub rest
  end.

(** [s[:n]] for [n >= 0]: the first [n] characters, each with the bytes
    that continue it. *)
Fixpoint str_take (n : nat) (s : string) : string :=
  match s with
  | EmptyString => EmptyString
  | String c rest =>
      if is_continuation c then String c (str_take n rest)
      else
        match n with
        | O => EmptyString
        | S n' => String c (str_take n' rest)
        end
  end.

(** ** RAGSystem.get_faq_response *)

(** The test ["faq" in doc.metadata.get("filename", "").lower()]; a
    filename that is not a string has no [lower] method. *)
Definition faq_named (doc : Document) : outcome bool :=
  match metadata_get doc "filename" (MStr "") with
  | MStr name => Return (py_in "faq" (py_lower name))
  | _ => Throw AttributeError
  end.

(** The loop of [get_faq_response]. *)
Fixpoint first_faq (results : list SearchResult) : outcome (option string) :=
  match results with
  | [] => Return None
  | r :: rest =>
      match faq_named (document r) with
      | Throw e => Throw e
      | Return true => Return (Some (page_content (document r)))
      | Return false => first_faq rest
      end
  end.

Section EngineCallers.

Context `{Environment}.

(** [RAGSystem.get_faq_response] *)
Definition get_faq_response (query : string) (fs : gmap string File) (self : RAGSystem)
  : outcome (option string) * (gmap string File * RAGSystem) :=
  match ensure_initialized fs self with
  | (Raise e, st) => (Throw (Builtin e), st)
  | (Ok _, (fs', self')) =>
      match similarity_search (vector_store self') query None with
      | Raise e => (Throw (Builtin e), (fs', self'))
      | Ok results => (first_faq results, (fs', self'))
      end
  end.

End EngineCallers.

(** ** Vocabulary for the callers *)

(** [sub] occurs in [s]. *)
Definition occurs_in (sub s : string) : Prop :=
  exists pre post : string, s = pre +:+ sub +:+ post.

(** The document has a filename containing "faq", whatever the case. *)
Definition faq_file (doc : Document) : Prop :=
  match metadata doc !! "filename" with
  | Some (MStr name) => occurs_in "faq" (py_lower name)
  | _ => False
  end.

(** The filename of the document, when it has one, is a string. *)
Definition string_named (doc : Document) : Prop :=
  match metadata doc !! "filename" with
  | Some (MStr _) | None => True
  | Some _ => False
  end.

(** ** Sample data for the callers *)
Module Demo.

(** The results of the query "bag" on the index of
    [Toy.hoodie; Toy.faq; Toy.cap]: the cap scores 1.0, the FAQ page 0.8. *)
Definition cap_first : SearchResult :=
  {| document := Toy.cap; score := float32 1000000 1000000; rank := 1 |}.

Definition faq_second : SearchResult :=
  {| document := Toy.faq; score := float32 800000 1000000; rank := 2 |}.

End Demo.

(** ** DocumentProcessor: the Record Loader *)

(** A value parsed by [json.load].  An object keeps its keys in the
    order of the file; [JFloat] carries the [str()] rendering of the
    number. *)
#[warnings="-register-all"] Inductive Json : Type :=
  | JNull
  | JBool (b : bool)
  | JInt (z : Z)
  | JFloat (repr : string)
  | JStr (s : string)
  | JArr (items : list Json)
  | JObj (fields : list (string * Json)).

(** Renderings done by the Python runtime and its libraries: [str()] of
    a list or dict, [json.dumps(v, indent=2)], and the conversion of a
    markdown text to plain text ([markdown.markdown] followed by the
    removal of tags). *)
Class Builtins : Type := {
  str_compound : Json -> string;
  json_dumps : Json -> string;
  markdown_text : string -> string
}.

(** [d.get(key)] on the fields of an object. *)
Fixpoint fields_get (fields : list (string * Json)) (key : string) : option Json :=
  match fields with
  | [] => None
  | (k, v) :: rest => if String.eqb k key then Some v else fields_get rest key
  end.

(** [v.get(key, default)]: only an object has a [get] method. *)
Definition json_get (v : Json) (key : string) (default : Json) : outcome Json :=
  match v with
  | JObj fields => Return (from_option id default (fields_get fields key))
  | _ => Throw AttributeError
  end.

Definition chars (s : string) : list string :=
  (fun c => String c EmptyString) <$> String.list_ascii_of_string s.

Definition is_JStr (v : Json) : option string :=
  match v with
  | JStr s => Some s
  | _ => None
  end.

(** Iterating over a value: the items of a list, the keys of an object,
    the characters of a string; nothing else is iterable. *)
Definition json_iter (v : Json) : outcome (list Json) :=
  match v with
  | JArr items => Return items
  | JObj fields => Return (JStr <$> fields.*1)
  | JStr s => Return (JStr <$> chars s)
  | _ => Throw (Builtin TypeError)
  end.

(** [', '.join(v)]: every item must be a string. *)
Definition join_json (v : Json) : outcome string :=
  match json_iter v with
  | Throw e => Throw e
  | Return items =>
      match mapM is_JStr items with
      | Some parts => Return (join ", " parts)
      | None => Throw (Builtin TypeError)
      end
  end.

(** [key in v] *)
Definition json_contains (v : Json) (key : string) : outcome bool :=
  match v with
  | JObj fields => Return (bool_decide (is_Some (fields_get fields key)))
  | JArr items =>
      Return (existsb (fun x => match x with JStr s => String.eqb s key | _ => false end)
                      items)
  | JStr s => Return (py_in key s)
  | _ => Throw (Builtin TypeError)
  end.

(** [v[key]] for a string key, after [key in v] held. *)
Definition json_item (v : Json) (key : string) : outcome Json :=
  match v with
  | JObj fields =>
      match fields_get fields key with
      | Some x => Return x
      | None => Throw (KeyError key)
      end
  | _ => Throw (Builtin TypeError)
  end.

Definition is_space (c : ascii) : bool :=
  let n := nat_of_ascii c in
  ((9 <=? n) && (n <=? 13) || (28 <=? n) && (n <=? 32))%nat.

Fixpoint lstrip (s : string) : string :=
  match s with
  | EmptyString => EmptyString
  | String c rest => if is_space c then lstrip rest else s
  end.

(** [s.strip()] *)
Definition py_strip (s : string) : string :=
  String.rev (lstrip (String.rev (lstrip s))).

(** The value stored in the metadata of a document. *)
Definition meta_of_json `{Builtins} (v : Json) : MetaValue :=
  match v with
  | JStr s => MStr s
  | JInt z => MInt z
  | JNull => MNone
  | JBool true => MOther "True"
  | JBool false => MOther "False"
  | JFloat r => MOther r
  | JArr _ | JObj _ => MOther (str_compound v)
  end.

(** [str(v)] as an f-string renders it. *)
Definition json_str `{Builtins} (v : Json) : string := py_str (meta_of_json v).

(** The error monad of the loader: an exception ends the computation. *)
#[global] Instance outcome_bind : MBind outcome :=
  fun A B f m =>
    match m with
    | Return a => f a
    | Throw e => Throw e
    end.

Section Loader.

Context `{Builtins}.

(** The f-string of one product, before [strip()]. *)
Definition product_content (product : Json) : outcome string :=
  name ← json_get product "name" (JStr "Unknown");
  id_ ← json_get product "id" (JStr "N/A");
  category ← json_get product "category" (JStr "N/A");
  price ← json_get product "base_price" (JStr "N/A");
  description ← json_get product "description" (JStr "N/A");
  sizes ← (json_get product "sizes" (JArr [])) ≫= join_json;
  colors ← (json_get product "colors" (JArr [])) ≫= join_json;
  materials ← (json_get product "materials" (JArr [])) ≫= join_json;
  features ← (json_get product "features" (JArr [])) ≫= join_json;
  options ← (json_get product "customization_options" (JArr [])) ≫= join_json;
  stock ← json_get product "stock_status" (JStr "N/A");
  lead ← json_get product "lead_time" (JStr "N/A");
  Return (newline +:+ "Product: " +:+ json_str name +:+ newline
          +:+ "ID: " +:+ json_str id_ +:+ newline
          +:+ "Category: " +:+ json_str category +:+ newline
          +:+ "Price: $" +:+ json_str price +:+ newline
          +:+ "Description: " +:+ json_str description +:+ newline
          +:+ "Sizes Available: " +:+ sizes +:+ newline
          +:+ "Colors Available: " +:+ colors +:+ newline
          +:+ "Materials: " +:+ materials +:+ newline
          +:+ "Features: " +:+ features +:+ newline
          +:+ "Customization Options: " +:+ options +:+ newline
          +:+ "Stock Status: " +:+ json_str stock +:+ newline
          +:+ "Lead Time: " +:+ json_str lead +:+ newline
          +:+ "                ").

(** The document built for one entry of ["products"]. *)
Definition product_document (source : string) (product : Json) : outcome Document :=
  content ← product_content product;
  id_ ← json_get product "id" JNull;
  category ← json_get product "category" JNull;
  price ← json_get product "base_price" JNull;
  Return {| page_content := py_strip content;
            metadata := {[ "source" := MStr source;
                           "type" := MStr "product";
                           "product_id" := meta_of_json id_;
                           "category" := meta_of_json category;
                           "price" := meta_of_json price ]} |}.

(** The f-string of the customization information, before [strip()]. *)
Definition customization_content (custom_info : Json) : outcome string :=
  formats ← (json_get custom_info "design_formats" (JArr [])) ≫= join_json;
  resolution ← json_get custom_info "minimum_resolution" (JStr "N/A");
  colors ← json_get custom_info "maximum_colors" (JStr "N/A");
  areas ← json_get custom_info "design_areas" (JObj []);
  available ← json_get custom_info "rush_order" (JObj [])
                ≫= (fun r => json_get r "available" (JStr "N/A"));
  cost ← json_get custom_info "rush_order" (JObj [])
           ≫= (fun r => json_get r "additional_cost" (JStr "N/A"));
  lead ← json_get custom_info "rush_order" (JObj [])
           ≫= (fun r => json_get r "lead_time" (JStr "N/A"));
  Return (newline +:+ "Customization Information:" +:+ newline
          +:+ "Accepted Design Formats: " +:+ formats +:+ newline
          +:+ "Minimum Resolution: " +:+ json_str resolution +:+ newline
          +:+ "Maximum Colors: " +:+ json_str colors +:+ newline
          +:+ "Design Areas: " +:+ json_dumps areas +:+ newline
          +:+ "Rush Order Available: " +:+ json_str available +:+ newline
          +:+ "Rush Order Cost: $" +:+ json_str cost +:+ newline
          +:+ "Rush Order Lead Time: " +:+ json_str lead +:+ newline
          +:+ "            ").

Definition customization_document (source : string) (custom_info : Json)
  : outcome Document :=
  content ← customization_content custom_info;
  Return {| page_content := py_strip content;
            metadata := {[ "source" := MStr source;
                           "type" := MStr "customization_info" ]} |}.

(** The loop over [data["products"]]. *)
Fixpoint product_documents (source : string) (products : list Json)
  : outcome (list Document) :=
  match products with
  | [] => Return []
  | product :: rest =>
      doc ← product_document source product;
      docs ← product_documents source rest;
      Return (doc :: docs)
  end.

(** [DocumentProcessor._process_products_json] *)
Definition _process_products_json (data : Json) (source : string)
  : outcome (list Document) :=
  has_products ← json_contains data "products";
  documents ←
    (if has_products : bool then
       products ← json_item data "products" ≫= json_iter;
       product_documents source products
     else Return []);
  has_custom ← json_contains data "customization_info";
  if has_custom : bool then
    custom_info ← json_item data "customization_info";
    doc ← customization_document source custom_info;
    Return (documents ++ [doc])
  else Return documents.

(** A file found by [kb_path.glob]: its path, its name and its content
    as parsed by [json.load], or [None] when reading or parsing raises. *)
Record JsonFile : Type := {
  json_path : string;
  json_name : string;
  json_data : option Json
}.

(** The body of the loop of [load_json_files] for one file; an
    exception is logged and the file contributes nothing. *)
Definition load_json_file (file : JsonFile) : list Document :=
  match json_data file with
  | None => []
  | Some data =>
      if String.eqb (json_name file) "products.json" then
        match _process_products_json data (json_path file) with
        | Return docs => docs
        | Throw _ => []
        end
      else
        [ {| page_content := json_dumps data;
             metadata := {[ "source" := MStr (json_path file);
                            "type" := MStr "json";
                            "filename" := MStr (json_name file) ]} |} ]
  end.

(** [DocumentProcessor.load_json_files], on the files of the directory
    in the order [glob] yields them. *)
Definition load_json_files_from (files : list JsonFile) : list Document :=
  mbind load_json_file files.

(** A markdown file: its path, its name and its text, or [None] when
    reading it raises. *)
Record MarkdownFile : Type := {
  md_path : string;
  md_name : string;
  md_text : option string
}.

Definition load_markdown_file (file : MarkdownFile) : list Document :=
  match md_text file with
  | None => []
  | Some text =>
      [ {| page_content := markdown_text text;
           metadata := {[ "source" := MStr (md_path file);
                          "type" := MStr "markdown";
                          "filename" := MStr (md_name file) ]} |} ]
  end.

(** [DocumentProcessor.load_markdown_files] *)
Definition load_markdown_files_from (files : list MarkdownFile) : list Document :=
  mbind load_markdown_file files.

End Loader.

(** ** Vocabulary for the Record Loader *)

(** [', '.join(v)] does not raise. *)
Definition joinable (v : Json) : Prop := exists s : string, join_json v = Return s.

(** The list-valued fields of a product entry. *)
Definition list_fields : list string :=
  ["sizes"; "colors"; "materials"; "features"; "customization_options"].

(** A product entry the loader can render: an object whose list-valued
    fields, when present, can be joined. *)
Definition well_formed_product (product : Json) : Prop :=
  exists fields : list (string * Json),
    product = JObj fields /\
    Forall (fun key => joinable (from_option id (JArr []) (fields_get fields key)))
           list_fields.

(** The block [get_relevant_context] builds for a document without
    filename. *)
Definition unknown_block (doc : Document) : string :=
  "[Source: unknown]" +:+ newline +:+ page_content doc +:+ newline.

(** What a product document records about its entry: it is typed
    "product", names its source file, has no filename and carries the id
    of the entry. *)
Definition records `{Builtins} (source : string) (doc : Document) (product : Json)
  : Prop :=
  product_typed doc /\
  metadata doc !! "source" = Some (MStr source) /\
  metadata doc !! "filename" = None /\
  exists fields,
    product = JObj fields /\
    metadata doc !! "product_id"
    = Some (meta_of_json (from_option id JNull (fields_get fields "id"))).

#[global] Instance joinable_dec (v : Json) : Decision (joinable v).
Proof.
  unfold joinable. destruct (join_json v) as [s|e].
  - left. by exists s.
  - right. by intros [s Hs].
Defined.

#[global] Instance well_formed_product_dec (product : Json)
  : Decision (well_formed_product product).
Proof.
  unfold well_formed_product.
  destruct product as [| | | | |items|fields]; try (right; by intros (? & ? & _)).
  destruct (decide (Forall (fun key => joinable (from_option id (JArr [])
                                                   (fields_get fields key)))
                           list_fields)) as [Hall|Hnot].
  - left. by exists fields.
  - right. intros (fields' & [= <-] & Hall). by apply Hnot.
Defined.

(** Sample catalogue data. *)
Module Catalogue.

Definition builtins : Builtins := {|
  str_compound := fun _ => "[...]";
  json_dumps := fun _ => "{}";
  markdown_text := fun text => text
|}.

Definition hoodie : Json :=
  JObj [("name", JStr "Red hoodie"); ("id", JStr "P1"); ("base_price", JInt 40);
        ("sizes", JArr [JStr "S"; JStr "M"; JStr "L"])].

Definition cap : Json :=
  JObj [("name", JStr "Blue cap"); ("id", JInt 7)].

(** The sizes are [null]: joining them raises TypeError. *)
Definition broken : Json :=
  JObj [("name", JStr "Scarf"); ("id", JStr "P3"); ("sizes", JNull)].

Definition products_file (products : list Json) : JsonFile :=
  {| json_path := "app/knowledge_base/products.json";
     json_name := "products.json";
     json_data :=
       Some (JObj [("products", JArr products);
                   ("customization_info", JObj [("maximum_colors", JInt 6)])]) |}.

Definition notes_file : JsonFile :=
  {| json_path := "app/knowledge_base/notes.json";
     json_name := "notes.json";
     json_data := Some (JArr [JInt 1]) |}.

(** The documents of the catalogue with the two good entries. *)
Definition data : list (string * Json) :=
  [("products", JArr [hoodie; cap]);
   ("customization_info", JObj [("maximum_colors", JInt 6)])].

Definition documents : list Document :=
  match @_process_products_json builtins (JObj data) "products.json" with
  | Return docs => docs
  | Throw _ => []
  end.

Definition faq_page : MarkdownFile :=
  {| md_path := "app/knowledge_base/FAQ.md";
     md_name := "FAQ.md";
     md_text := Some "Return policy: 30 days" |}.

End Catalogue.

(** * src/app/agent.py *)

(** ** IntentClassifier *)

Inductive QueryType : Type :=
  | PRODUCT_INQUIRY
  | FAQ
  | DESIGN_CONSULTATION
  | GENERAL_CHAT
  | SHIPPING
  | SUPPORT.

#[global] Instance QueryType_eq_dec : EqDecision QueryType.
Proof. solve_decision. Defined.

(** [query_type.value] *)
Definition query_type_value (t : QueryType) : string :=
  match t with
  | PRODUCT_INQUIRY => "product_inquiry"
  | FAQ => "faq"
  | DESIGN_CONSULTATION => "design_consultation"
  | GENERAL_CHAT => "general_chat"
  | SHIPPING => "shipping"
  | SUPPORT => "support"
  end.

(** The classifier holds the dictionary [intent_keywords], here the
    list of its items in insertion order. *)
Record IntentClassifier : Type := {
  intent_keywords : list (QueryType * list string)
}.

(** [IntentClassifier.__init__] *)
Definition IntentClassifier_init : IntentClassifier := {| intent_keywords :=
  [ (PRODUCT_INQUIRY,
     ["product"; "price"; "cost"; "buy"; "purchase"; "available"; "stock";
      "size"; "color"; "material"; "hoodie"; "t-shirt"; "shirt"; "jacket";
      "do you have"; "what colors"; "what sizes"; "how much"]);
    (FAQ,
     ["how do"; "what is"; "can i"; "policy"; "return"; "refund"; "exchange";
      "care instructions"; "wash"; "payment"; "account"; "discount"]);
    (DESIGN_CONSULTATION,
     ["design"; "custom"; "create"; "want"; "idea"; "style"; "pattern";
      "color scheme"; "theme"; "inspiration"; "suggest"; "recommend";
      "minimalist"; "vintage"; "modern"; "geometric"; "organic"]);
    (SHIPPING,
     ["shipping"; "delivery"; "ship"; "order"; "tracking"; "when will";
      "how long"; "express"; "standard"; "overnight"; "international"]);
    (SUPPORT,
     ["help"; "support"; "problem"; "issue"; "contact"; "phone"; "email";
      "complaint"; "error"; "wrong"; "cancel"; "modify"]) ] |}.

(** [d[key]] on the items of a dictionary of keyword lists. *)
Fixpoint keywords_of (items : list (QueryType * list string)) (key : QueryType)
  : outcome (list string) :=
  match items with
  | [] => Throw (KeyError (query_type_value key))
  | (k, keywords) :: rest =>
      if decide (k = key) then Return keywords else keywords_of rest key
  end.

(** [sum(1 for keyword in keywords if keyword in text)] *)
Definition keyword_score (text : string) (keywords : list string) : nat :=
  length (List.filter (fun keyword => py_in keyword text) keywords).

(** The dictionary [scores], in insertion order. *)
Definition intent_scores (table : list (QueryType * list string)) (text : string)
  : list (QueryType * nat) :=
  (fun entry => (entry.1, keyword_score text entry.2)) <$> table.

(** [max(values)] over a list that starts with [first]. *)
Definition max_value (first : nat) (rest : list nat) : nat := foldl Nat.max first rest.

(** [max(scores, key=scores.get)]: the first key with the largest
    score; a later key replaces the best one only with a strictly larger
    score. *)
Fixpoint max_key (best : QueryType * nat) (rest : list (QueryType * nat))
  : QueryType * nat :=
  match rest with
  | [] => best
  | entry :: rest' =>
      if (best.2 <? entry.2)%nat then max_key entry rest' else max_key best rest'
  end.

(** [min(a, b)] on floats, here rationals: [b] only if it is smaller. *)
Definition py_min (a b : Q) : Q := if Qle_bool a b then a else b.

(** [IntentClassifier.classify_intent] *)
Definition classify_intent (self : IntentClassifier) (user_input : string)
  : outcome (QueryType * Q) :=
  let user_input_lower := py_lower user_input in
  let scores := intent_scores (intent_keywords self) user_input_lower in
  match scores with
  | [] => Return (GENERAL_CHAT, 1 # 2)
  | first :: rest =>
      if (max_value first.2 rest.*2 =? 0)%nat then Return (GENERAL_CHAT, 1 # 2)
      else
        let best_match := (max_key first rest).1 in
        let score := (max_key first rest).2 in
        keywords ← keywords_of (intent_keywords self) best_match;
        if (length keywords =? 0)%nat then Throw ZeroDivisionError
        else
          let confidence := Z.of_nat score # Pos.of_nat (length keywords) in
          Return (best_match, py_min confidence 1)
  end.

(** * src/app/design_suggestions.py *)

(** ** The [random] module

    The generator is the list of the raw numbers it will draw; a drawn
    number is reduced to the range asked for.  Every property below is
    stated for an arbitrary list, hence for every run of the
    generator.  A computation returns its outcome and the generator
    left. *)
Definition Rand (A : Type) : Type := list nat -> outcome A * list nat.

#[global] Instance rand_ret : MRet Rand := fun A a rng => (Return a, rng).

#[global] Instance rand_bind : MBind Rand :=
  fun A B f m rng =>
    match m rng with
    | (Return a, rng') => f a rng'
    | (Throw e, rng') => (Throw e, rng')
    end.

Definition throw {A} (e : error) : Rand A := fun rng => (Throw e, rng).

Definition lift {A} (o : outcome A) : Rand A := fun rng => (o, rng).

(** [random._randbelow(n)] *)
Definition randbelow (n : nat) : Rand nat :=
  fun rng =>
    if (n =? 0)%nat then (Throw ValueError, rng)
    else
      match rng with
      | [] => (Return 0%nat, [])
      | r :: rest => (Return (r mod n)%nat, rest)
      end.

(** [random.choice(seq)] *)
Definition choice {A} (seq : list A) : Rand A :=
  match seq with
  | [] => throw (Builtin IndexError)
  | _ =>
      i ← randbelow (length seq);
      match seq !! i with
      | Some x => mret x
      | None => throw (Builtin IndexError)
      end
  end.

(** The loop of [random.sample] on its pool (the branch taken for
    populations of at most 21 elements): the element drawn is replaced by
    the last live element of the pool. *)
Fixpoint sample_pool {A} (pool : list A) (k : nat) : Rand (list A) :=
  match k with
  | O => mret []
  | S k' =>
      j ← randbelow (length pool);
      match pool !! j, last pool with
      | Some x, Some y =>
          rest ← sample_pool (take (length pool - 1) (<[j := y]> pool)) k';
          mret (x :: rest)
      | _, _ => throw (Builtin IndexError)
      end
  end.

(** [random.sample(population, k)] *)
Definition sample {A} (population : list A) (k : nat) : Rand (list A) :=
  if (length population <? k)%nat then throw ValueError
  else sample_pool population k.

(** ** Strings *)

(** [s.title()] *)
Fixpoint title_from (previous_is_cased : bool) (s : string) : string :=
  match s with
  | EmptyString => EmptyString
  | String c rest =>
      if is_upper c || is_lower c then
        String (if previous_is_cased then lower_char c else upper_char c)
               (title_from true rest)
      else String c (title_from false rest)
  end.

Definition py_title (s : string) : string := title_from false s.

(** [any(word in text for word in words)] *)
Definition any_in (words : list string) (text : string) : bool :=
  existsb (fun word => py_in word text) words.

(** [d[key]] on the items of a dictionary with string keys. *)
Fixpoint dict_item {A} (items : list (string * A)) (key : string) : outcome A :=
  match items with
  | [] => Throw (KeyError key)
  | (k, v) :: rest => if String.eqb k key then Return v else dict_item rest key
  end.

(** ** DesignDatabase *)

Record ArtStyle : Type := {
  patterns : list string;
  style_description : string
}.

Definition color_palettes : list (string * list string) :=
  [ ("minimalist", ["white"; "black"; "gray"; "beige"; "cream"]);
    ("vibrant", ["red"; "orange"; "yellow"; "pink"; "purple"; "turquoise"]);
    ("earth", ["brown"; "forest green"; "tan"; "rust"; "olive"]);
    ("ocean", ["navy"; "teal"; "aqua"; "white"; "sandy beige"]);
    ("sunset", ["orange"; "pink"; "purple"; "gold"; "deep red"]);
    ("monochrome", ["black"; "white"; "gray"]);
    ("pastel", ["light pink"; "lavender"; "mint green"; "baby blue"; "peach"]);
    ("neon", ["electric blue"; "hot pink"; "lime green"; "bright yellow"; "orange"]);
    ("autumn", ["burgundy"; "burnt orange"; "golden yellow"; "brown"; "dark green"]);
    ("spring", ["light green"; "yellow"; "pink"; "light blue"; "white"]) ].

Definition art_styles : list (string * ArtStyle) :=
  [ ("geometric",
     {| patterns := ["triangles"; "hexagons"; "diamonds"; "stripes"; "chevrons"];
        style_description := "clean lines and mathematical shapes" |});
    ("organic",
     {| patterns := ["flowing curves"; "leaf patterns"; "wave designs"; "cloud shapes"];
        style_description := "natural, flowing forms inspired by nature" |});
    ("abstract",
     {| patterns := ["paint splatters"; "brush strokes"; "color blocks"; "gradients"];
        style_description := "non-representational artistic expressions" |});
    ("vintage",
     {| patterns := ["damask"; "paisley"; "florals"; "art deco patterns"];
        style_description := "classic patterns with nostalgic appeal" |});
    ("modern",
     {| patterns := ["clean lines"; "minimalist graphics"; "typography"; "logos"];
        style_description := "contemporary and sleek design elements" |});
    ("grunge",
     {| patterns := ["distressed textures"; "torn edges"; "splatter effects"; "rough brushes"];
        style_description := "raw, edgy aesthetic with weathered appearance" |});
    ("pop_art",
     {| patterns := ["bold graphics"; "comic book style"; "halftone dots"; "bright colors"];
        style_description := "bold, commercial art inspired designs" |});
    ("japanese",
     {| patterns := ["cherry blossoms"; "waves"; "mountains"; "traditional motifs"];
        style_description := "elegant Japanese-inspired designs" |});
    ("street_art",
     {| patterns := ["graffiti style"; "urban elements"; "spray paint effects"; "stencils"];
        style_description := "urban-inspired street art aesthetics" |});
    ("nature",
     {| patterns := ["trees"; "flowers"; "animals"; "landscapes"];
        style_description := "designs inspired by the natural world" |}) ].

Definition themes : list (string * list string) :=
  [ ("space", ["stars"; "planets"; "galaxies"; "astronauts"; "rockets"]);
    ("music", ["instruments"; "sound waves"; "musical notes"; "vinyl records"]);
    ("travel", ["maps"; "landmarks"; "airplanes"; "compasses"; "vintage postcards"]);
    ("sports", ["geometric sports graphics"; "team logos"; "equipment silhouettes"]);
    ("technology", ["circuit patterns"; "digital glitch"; "code snippets"; "pixel art"]);
    ("food", ["coffee cups"; "pizza slices"; "fruits"; "cooking utensils"]);
    ("animals", ["cats"; "dogs"; "wild animals"; "birds"; "marine life"]);
    ("flowers", ["roses"; "sunflowers"; "tropical flowers"; "botanical illustrations"]);
    ("typography", ["motivational quotes"; "single words"; "artistic lettering"]);
    ("celestial", ["moon phases"; "constellations"; "sun and moon"; "cosmic elements"]) ].

Definition placement_options : list (string * string) :=
  [ ("front_center", "centered on the front chest");
    ("front_large", "large design across the entire front");
    ("back_large", "statement design on the back");
    ("chest_small", "small design on the left chest");
    ("sleeve", "design running down the sleeve");
    ("all_over", "pattern covering the entire garment");
    ("pocket", "small design in the pocket area");
    ("collar", "design around the collar or neckline") ].

(** ** DesignSuggestionEngine *)

(** The dictionary [preferences]; [selected_suggestion] is the key
    [save_preferences] adds. *)
Record Suggestion : Type := {
  s_id : string;
  s_title : string;
  s_style : string;
  s_colors : list string;
  s_pattern : string;
  s_theme : string;
  s_theme_element : string;
  s_placement : string;
  s_placement_key : string;
  s_description : string;
  s_vibe : string;
  s_complexity : string;
  s_garment_type : string;
  s_estimated_colors : nat;
  s_print_method : string;
  s_trending : option bool
}.

Record Preferences : Type := {
  pref_styles : list string;
  pref_colors : list string;
  pref_themes : list string;
  pref_complexity : string;
  pref_vibe : string;
  selected_suggestion : option Suggestion
}.

(** The loop over the colour palettes, which stops at the first palette
    whose name or one of whose colours occurs in the text. *)
Fixpoint detect_colors (palettes : list (string * list string)) (text : string)
  : list string :=
  match palettes with
  | [] => []
  | (palette_name, colors) :: rest =>
      if py_in palette_name text || any_in colors text then take 3 colors
      else detect_colors rest text
  end.

(** [DesignSuggestionEngine.analyze_preferences] *)
Definition analyze_preferences (user_input : string) : Preferences :=
  let user_input_lower := py_lower user_input in
  {| pref_styles :=
       (List.filter (fun entry : string * ArtStyle =>
                       py_in entry.1 user_input_lower
                       || any_in (patterns entry.2) user_input_lower)
                    art_styles).*1;
     pref_colors := detect_colors color_palettes user_input_lower;
     pref_themes :=
       (List.filter (fun entry : string * list string =>
                       py_in entry.1 user_input_lower || any_in entry.2 user_input_lower)
                    themes).*1;
     pref_complexity :=
       if any_in ["simple"; "minimal"; "clean"; "subtle"] user_input_lower then "low"
       else if any_in ["complex"; "detailed"; "intricate"; "elaborate"] user_input_lower
       then "high"
       else "medium";
     pref_vibe :=
       if any_in ["bold"; "loud"; "striking"; "dramatic"] user_input_lower then "bold"
       else if any_in ["elegant"; "sophisticated"; "classy"; "refined"] user_input_lower
       then "elegant"
       else if any_in ["fun"; "playful"; "cute"; "whimsical"] user_input_lower
       then "playful"
       else "casual";
     selected_suggestion := None |}.

(** [DesignSuggestionEngine._format_colors] *)
Definition _format_colors (colors : list string) : outcome string :=
  match colors with
  | [color] => Return color
  | [first; second] => Return (first +:+ " and " +:+ second)
  | _ =>
      match last colors with
      | None => Throw (Builtin IndexError)
      | Some final =>
          Return (join ", " (take (length colors - 1) colors) +:+ ", and " +:+ final)
      end
  end.

(** [DesignSuggestionEngine._suggest_print_method] *)
Definition _suggest_print_method (style : string) (num_colors : nat) (complexity : string)
  : string :=
  if (num_colors <=? 2)%nat && String.eqb complexity "low" then "screen printing"
  else if (4 <? num_colors)%nat || String.eqb complexity "high" then "digital printing"
  else if String.eqb style "vintage" || String.eqb style "grunge" then "heat transfer"
  else "screen printing".

Definition finishing_options : list string :=
  [". This design would work beautifully with screen printing.";
   ". Perfect for digital printing to capture all the color nuances.";
   ". The design would look stunning with a subtle texture overlay.";
   ". Consider adding a slight vintage wash effect for extra character.";
   ". The design could be enhanced with metallic accents for special occasions."].

(** [DesignSuggestionEngine._create_description] *)
Definition _create_description (style : string) (colors : list string)
    (pattern theme_element placement vibe complexity : string) : Rand string :=
  color_desc ← lift (_format_colors colors);
  let base_descriptions :=
    [ "A " +:+ vibe +:+ " " +:+ style +:+ " design featuring " +:+ theme_element
        +:+ " in " +:+ color_desc;
      "Picture a " +:+ style +:+ "-inspired " +:+ theme_element +:+ " design using "
        +:+ color_desc;
      "Imagine a " +:+ vibe +:+ " " +:+ pattern +:+ " pattern incorporating "
        +:+ theme_element +:+ " in " +:+ color_desc;
      "A " +:+ complexity +:+ "-complexity " +:+ style +:+ " design with "
        +:+ theme_element +:+ " elements in " +:+ color_desc ] in
  base ← choice base_descriptions;
  let placement_desc := ", positioned " +:+ placement in
  style_detail ←
    (if String.eqb style "geometric" then mret " with clean, mathematical precision"
     else if String.eqb style "organic" then mret " with flowing, natural curves"
     else if String.eqb style "vintage" then mret " with classic, timeless appeal"
     else if String.eqb style "grunge" then mret " with a raw, edgy aesthetic"
     else if String.eqb style "japanese" then mret " with elegant Eastern influences"
     else
       data ← lift (dict_item art_styles style);
       mret (" with " +:+ style_description data));
  finishing ← choice finishing_options;
  mret (base +:+ placement_desc +:+ style_detail +:+ finishing).

(** [DesignSuggestionEngine._create_single_suggestion] *)
Definition _create_single_suggestion (preferences : Preferences) (garment_type : string)
    (variation : nat) : Rand Suggestion :=
  style ←
    (match pref_styles preferences with
     | [] => choice art_styles.*1
     | styles => choice styles
     end);
  style_data ← lift (dict_item art_styles style);
  colors ←
    (match pref_colors preferences with
     | [] =>
         palette ← choice color_palettes.*2;
         sample palette (Nat.min (length palette) 3)
     | colors => sample colors (Nat.min (length colors) 3)
     end);
  theme ←
    (match pref_themes preferences with
     | [] => choice themes.*1
     | chosen => choice chosen
     end);
  theme_elements ← lift (dict_item themes theme);
  pattern ← choice (patterns style_data);
  placement_key ← choice placement_options.*1;
  placement ← lift (dict_item placement_options placement_key);
  theme_element ← choice theme_elements;
  description ←
    _create_description style colors pattern theme_element placement
                        (pref_vibe preferences) (pref_complexity preferences);
  mret {| s_id := "design_" +:+ pretty (variation + 1)%nat;
          s_title := py_title style +:+ " " +:+ py_title theme +:+ " Design";
          s_style := style;
          s_colors := colors;
          s_pattern := pattern;
          s_theme := theme;
          s_theme_element := theme_element;
          s_placement := placement;
          s_placement_key := placement_key;
          s_description := description;
          s_vibe := pref_vibe preferences;
          s_complexity := pref_complexity preferences;
          s_garment_type := garment_type;
          s_estimated_colors := length colors;
          s_print_method :=
            _suggest_print_method style (length colors) (pref_complexity preferences);
          s_trending := None |}.

(** [config.design_max_suggestions] *)
Definition design_max_suggestions : Z := 3.

(** The loop of [generate_suggestions] over [range(num_suggestions)],
    from variation [i] on. *)
Fixpoint suggestions_from (preferences : Preferences) (garment_type : string)
    (i count : nat) : Rand (list Suggestion) :=
  match count with
  | O => mret []
  | S count' =>
      suggestion ← _create_single_suggestion preferences garment_type i;
      rest ← suggestions_from preferences garment_type (S i) count';
      mret (suggestion :: rest)
  end.

(** [DesignSuggestionEngine.generate_suggestions] *)
Definition generate_suggestions (user_input garment_type : string)
    (num_suggestions : option Z) : Rand (list Suggestion) :=
  let num_suggestions := py_or num_suggestions design_max_suggestions in
  let preferences := analyze_preferences user_input in
  suggestions_from preferences garment_type 0 (Z.to_nat num_suggestions).

(** Setting keys of the copy made by [refine_suggestion]. *)
Definition with_colors (s : Suggestion) (colors : list string) : Suggestion :=
  {| s_id := s_id s; s_title := s_title s; s_style := s_style s; s_colors := colors;
     s_pattern := s_pattern s; s_theme := s_theme s;
     s_theme_element := s_theme_element s; s_placement := s_placement s;
     s_placement_key := s_placement_key s; s_description := s_description s;
     s_vibe := s_vibe s; s_complexity := s_complexity s;
     s_garment_type := s_garment_type s;
     s_estimated_colors := s_estimated_colors s; s_print_method := s_print_method s;
     s_trending := s_trending s |}.

Definition with_style (s : Suggestion) (style complexity : string) : Suggestion :=
  {| s_id := s_id s; s_title := s_title s; s_style := style; s_colors := s_colors s;
     s_pattern := s_pattern s; s_theme := s_theme s;
     s_theme_element := s_theme_element s; s_placement := s_placement s;
     s_placement_key := s_placement_key s; s_description := s_description s;
     s_vibe := s_vibe s; s_complexity := complexity;
     s_garment_type := s_garment_type s;
     s_estimated_colors := s_estimated_colors s; s_print_method := s_print_method s;
     s_trending := s_trending s |}.

Definition with_placement (s : Suggestion) (key placement : string) : Suggestion :=
  {| s_id := s_id s; s_title := s_title s; s_style := s_style s; s_colors := s_colors s;
     s_pattern := s_pattern s; s_theme := s_theme s;
     s_theme_element := s_theme_element s; s_placement := placement;
     s_placement_key := key; s_description := s_description s;
     s_vibe := s_vibe s; s_complexity := s_complexity s;
     s_garment_type := s_garment_type s;
     s_estimated_colors := s_estimated_colors s; s_print_method := s_print_method s;
     s_trending := s_trending s |}.

Definition with_description (s : Suggestion) (description : string) : Suggestion :=
  {| s_id := s_id s; s_title := s_title s; s_style := s_style s; s_colors := s_colors s;
     s_pattern := s_pattern s; s_theme := s_theme s;
     s_theme_element := s_theme_element s; s_placement := s_placement s;
     s_placement_key := s_placement_key s; s_description := description;
     s_vibe := s_vibe s; s_complexity := s_complexity s;
     s_garment_type := s_garment_type s;
     s_estimated_colors := s_estimated_colors s; s_print_method := s_print_method s;
     s_trending := s_trending s |}.

Definition with_trending (s : Suggestion) (trending : bool) : Suggestion :=
  {| s_id := s_id s; s_title := s_title s; s_style := s_style s; s_colors := s_colors s;
     s_pattern := s_pattern s; s_theme := s_theme s;
     s_theme_element := s_theme_element s; s_placement := s_placement s;
     s_placement_key := s_placement_key s; s_description := s_description s;
     s_vibe := s_vibe s; s_complexity := s_complexity s;
     s_garment_type := s_garment_type s;
     s_estimated_colors := s_estimated_colors s; s_print_method := s_print_method s;
     s_trending := Some trending |}.

(** [DesignSuggestionEngine.refine_suggestion] *)
Definition refine_suggestion (suggestion : Suggestion) (feedback : string)
  : Rand Suggestion :=
  let feedback_lower := py_lower feedback in
  let refined := suggestion in
  refined ←
    (if py_in "brighter" feedback_lower || py_in "more vibrant" feedback_lower then
       vibrant_colors ← lift (dict_item color_palettes "vibrant");
       colors ← sample vibrant_colors (Nat.min (length vibrant_colors) 3);
       mret (with_colors refined colors)
     else if py_in "darker" feedback_lower || py_in "muted" feedback_lower then
       earth_colors ← lift (dict_item color_palettes "earth");
       colors ← sample earth_colors (Nat.min (length earth_colors) 3);
       mret (with_colors refined colors)
     else if py_in "pastel" feedback_lower || py_in "softer" feedback_lower then
       pastel_colors ← lift (dict_item color_palettes "pastel");
       mret (with_colors refined (take 3 pastel_colors))
     else mret refined);
  let refined :=
    if py_in "simpler" feedback_lower || py_in "cleaner" feedback_lower then
      with_style refined "minimalist" "low"
    else if py_in "more complex" feedback_lower || py_in "detailed" feedback_lower then
      with_style refined (s_style refined) "high"
    else refined in
  let refined :=
    if py_in "smaller" feedback_lower then
      with_placement refined "chest_small" "small design on the left chest"
    else if py_in "larger" feedback_lower || py_in "bigger" feedback_lower then
      with_placement refined "front_large" "large design across the entire front"
    else refined in
  description ←
    _create_description (s_style refined) (s_colors refined) (s_pattern refined)
                        (s_theme_element refined) (s_placement refined)
                        (s_vibe refined) (s_complexity refined);
  mret (with_description refined description).

(** The loop of [get_trending_suggestions]. *)
Fixpoint trending_from (trending_themes : list string) (garment_type : string)
  : Rand (list Suggestion) :=
  match trending_themes with
  | [] => mret []
  | theme :: rest =>
      let fake_input := "I want a " +:+ theme +:+ " design" in
      generated ← generate_suggestions fake_input garment_type (Some 1);
      match generated with
      | [] => throw (Builtin IndexError)
      | suggestion :: _ =>
          others ← trending_from rest garment_type;
          mret (with_trending suggestion true :: others)
      end
  end.

(** [DesignSuggestionEngine.get_trending_suggestions] *)
Definition get_trending_suggestions (garment_type : string) : Rand (list Suggestion) :=
  let trending_themes := ["minimalist"; "nature"; "geometric"; "vintage"; "space"] in
  trending_from (take 3 trending_themes) garment_type.

(** [DesignSuggestionEngine.save_preferences] on [self.preference_history] *)
Definition save_preferences (preference_history : list Preferences)
    (user_input : string) (selected : Suggestion) : list Preferences :=
  let preferences := analyze_preferences user_input in
  let preferences :=
    {| pref_styles := pref_styles preferences; pref_colors := pref_colors preferences;
       pref_themes := pref_themes preferences;
       pref_complexity := pref_complexity preferences;
       pref_vibe := pref_vibe preferences;
       selected_suggestion := Some selected |} in
  let preference_history := preference_history ++ [preferences] in
  if (10 <? length preference_history)%nat
  then drop (length preference_history - 10) preference_history
  else preference_history.

(** ** get_color_code (src/main.py) *)

Definition color_map : list (string * string) :=
  [ ("red", "#ff0000");
    ("blue", "#0000ff");
    ("green", "#008000");
    ("yellow", "#ffff00");
    ("purple", "#800080");
    ("orange", "#ffa500");
    ("pink", "#ffc0cb");
    ("black", "#000000");
    ("white", "#ffffff");
    ("gray", "#808080");
    ("brown", "#a52a2a");
    ("navy", "#000080");
    ("teal", "#008080");
    ("olive", "#808000");
    ("maroon", "#800000");
    ("lime green", "#32cd32");
    ("hot pink", "#ff69b4");
    ("turquoise", "#40e0d0");
    ("beige", "#f5f5dc");
    ("cream", "#fffdd0");
    ("tan", "#d2b48c");
    ("rust", "#b7410e");
    ("forest green", "#228b22");
    ("aqua", "#00ffff");
    ("sandy beige", "#f4a460");
    ("gold", "#ffd700");
    ("deep red", "#8b0000");
    ("light pink", "#ffb6c1");
    ("lavender", "#e6e6fa");
    ("mint green", "#98fb98");
    ("baby blue", "#87ceeb");
    ("peach", "#ffcba4");
    ("electric blue", "#7df9ff");
    ("bright yellow", "#ffff00");
    ("burgundy", "#800020");
    ("burnt orange", "#cc5500");
    ("golden yellow", "#ffdf00");
    ("dark green", "#006400");
    ("light green", "#90ee90");
    ("light blue", "#add8e6") ].

(** [color_map.get(key, default)] *)
Definition dict_get {A} (items : list (string * A)) (key : string) (default : A) : A :=
  match dict_item items key with
  | Return v => v
  | Throw _ => default
  end.

Definition get_color_code (color_name : string) : string :=
  dict_get color_map (py_lower color_name) "#cccccc".

(** ** Vocabulary for the design engine *)

(** Whatever the generator draws, [m] returns a value satisfying [P]. *)
Definition returns {A} (m : Rand A) (P : A -> Prop) : Prop :=
  forall rng : list nat, exists (a : A) (rng' : list nat),
    m rng = (Return a, rng') /\ P a.

(** Whatever the generator draws, [m] raises [e]. *)
Definition raises {A} (m : Rand A) (e : error) : Prop :=
  forall rng : list nat, exists rng' : list nat, m rng = (Throw e, rng').

(** The colours are three distinct colours of one palette of the
    database. *)
Definition palette_colors (colors : list string) : Prop :=
  length colors = 3%nat /\ NoDup colors /\
  exists palette, palette ∈ color_palettes.*2 /\ colors ⊆ palette.

(** Preferences that name only styles and themes of the database and
    whose colours, if any, are the first three of a palette. *)
Definition sound_preferences (p : Preferences) : Prop :=
  Forall (fun style => style ∈ art_styles.*1) (pref_styles p) /\
  Forall (fun theme => theme ∈ themes.*1) (pref_themes p) /\
  (pref_colors p = [] \/
   exists palette, palette ∈ color_palettes.*2 /\ pref_colors p = take 3 palette).

(** A suggestion all of whose parts come from the database and agree
    with one another. *)
Definition well_formed_suggestion (s : Suggestion) : Prop :=
  (exists data, dict_item art_styles (s_style s) = Return data /\
                s_pattern s ∈ patterns data) /\
  (exists elements, dict_item themes (s_theme s) = Return elements /\
                    s_theme_element s ∈ elements) /\
  dict_item placement_options (s_placement_key s) = Return (s_placement s) /\
  palette_colors (s_colors s) /\
  s_estimated_colors s = 3%nat /\
  s_title s = py_title (s_style s) +:+ " " +:+ py_title (s_theme s) +:+ " Design" /\
  s_print_method s
  = _suggest_print_method (s_style s) (s_estimated_colors s) (s_complexity s).

(** A sample suggestion. *)
Module Studio.

Definition rocket : Suggestion :=
  {| s_id := "design_1";
     s_title := "Geometric Space Design";
     s_style := "geometric";
     s_colors := ["red"; "orange"; "yellow"];
     s_pattern := "stripes";
     s_theme := "space";
     s_theme_element := "rockets";
     s_placement := "statement design on the back";
     s_placement_key := "back_large";
     s_description := "A bold geometric design featuring rockets";
     s_vibe := "bold";
     s_complexity := "medium";
     s_garment_type := "t-shirt";
     s_estimated_colors := 3;
     s_print_method := "screen printing";
     s_trending := None |}.

End Studio.

(** * StyleBot (src/app/agent.py) *)

(** ** Responses and the conversation context

    The fixed texts of the source contain a few characters outside
    ASCII; they are kept as the bytes of their UTF-8 encoding. *)

(** One entry of the ["suggestions"] list of a response; a key that a
    handler does not set is [None]. *)
Record Card : Type := {
  card_type : string;
  card_title : string;
  card_description : string;
  card_action : string;
  card_colors : option (list string);
  card_style : option string;
  card_print_method : option string;
  card_trending : option bool;
  card_data : option Suggestion
}.

(** The dictionary a handler returns; [r_context] and
    [r_design_preferences] are the keys only some handlers set. *)
Record Response : Type := {
  r_message : string;
  r_type : string;
  r_suggestions : list Card;
  r_context : option string;
  r_design_preferences : option Preferences
}.

(** One entry of [conversation_history]. *)
Record Interaction : Type := {
  timestamp : string;
  i_user_input : string;
  i_response : string;
  i_query_type : string;
  suggestions_count : nat
}.

(** The messages of [ConversationBufferMemory.chat_memory]. *)
Inductive Message : Type :=
  | HumanMessage (text : string)
  | AIMessage (text : string).

(** [design_preferences] is the empty dictionary ([None]) until
    [_handle_design_consultation] updates it with analysed preferences;
    [started_at] is the reading of the clock. *)
Record ConversationContext : Type := {
  user_id : string;
  session_id : string;
  conversation_history : list Interaction;
  current_topic : option string;
  design_preferences : option Preferences;
  product_interests : list string;
  last_suggestions : list Suggestion;
  interaction_count : Z;
  started_at : string
}.

(** ** External services

    [generate_response] is [LLMInterface.generate_response] with the
    default [max_tokens]: both its branches catch every exception of the
    model and return the fallback text, so it returns a string and never
    raises; what it returns is left open, and may depend on a state of
    its own.  [now_isoformat] is [datetime.now().isoformat()]. *)
Class Services : Type := {
  world : Type;
  generate_response : string -> world -> string * world;
  now_isoformat : world -> string * world
}.

(** ** Fixed texts *)

(** [PROMPT_TEMPLATES[key].format(...)] of src/config.py: the text of
    the template with its fields filled in. *)
Definition product_inquiry_prompt (context question : string) : string :=
  "Based on the following product information, answer the user's question about product availability, specifications, or details:

Product Information:
" +:+ context +:+ "

User Question: " +:+ question +:+ "

Answer:".

Definition faq_response_prompt (context question : string) : string :=
  "Based on the following FAQ information, provide a helpful response to the user's question:

FAQ Information:
" +:+ context +:+ "

User Question: " +:+ question +:+ "

Answer:".

Definition general_chat_prompt (history input : string) : string :=
  "Continue the conversation naturally while staying in character as StyleBot, a helpful AI assistant for custom clothing design.

Conversation History:
" +:+ history +:+ "

User: " +:+ input +:+ "

StyleBot:".

Definition support_message : string :=
  "I'm here to help! For immediate assistance, you can:

â€¢ **Chat with me** - I can answer questions about products, designs, orders, and policies
â€¢ **Email us** - support@customclothingco.com (response within 24 hours)
â€¢ **Call us** - 1-800-CUSTOM-1 (9 AM - 6 PM EST)
â€¢ **Live chat** - Available on our website during business hours

What specific issue can I help you with today?".

Definition error_response : Response :=
  {| r_message := "I apologize, but I'm experiencing some technical difficulties. Please try again or contact our support team.";
     r_type := "error";
     r_suggestions := [];
     r_context := None;
     r_design_preferences := None |}.

Definition design_not_found : Response :=
  {| r_message := "I couldn't find that design. Let me create some new suggestions for you!";
     r_type := "error";
     r_suggestions := [];
     r_context := None;
     r_design_preferences := None |}.

(** A card with the four keys every handler sets. *)
Definition plain_card (type title description action : string) : Card :=
  {| card_type := type; card_title := title; card_description := description;
     card_action := action; card_colors := None; card_style := None;
     card_print_method := None; card_trending := None; card_data := None |}.

(** The card of [_handle_product_inquiry] for one product. *)
Definition product_card (product : ProductResult) : Card :=
  plain_card "product"
             ("Product: " +:+ py_str (product_id product))
             (str_take 200 (content product) +:+ "...")
             "view_product".

(** The card of [_handle_design_consultation] for one suggestion. *)
Definition design_card (suggestion : Suggestion) : Card :=
  {| card_type := "design";
     card_title := s_title suggestion;
     card_description := s_description suggestion;
     card_action := "select_design";
     card_colors := Some (s_colors suggestion);
     card_style := Some (s_style suggestion);
     card_print_method := Some (s_print_method suggestion);
     card_trending := None;
     card_data := Some suggestion |}.

(** The card of [refine_design]. *)
Definition refined_card (refined_design : Suggestion) : Card :=
  {| card_type := "design";
     card_title := s_title refined_design;
     card_description := s_description refined_design;
     card_action := "select_design";
     card_colors := Some (s_colors refined_design);
     card_style := Some (s_style refined_design);
     card_print_method := None;
     card_trending := None;
     card_data := Some refined_design |}.

(** The card of [get_trending_designs]. *)
Definition trending_card (design : Suggestion) : Card :=
  {| card_type := "design";
     card_title := s_title design;
     card_description := s_description design;
     card_action := "select_design";
     card_colors := Some (s_colors design);
     card_style := Some (s_style design);
     card_print_method := None;
     card_trending := Some true;
     card_data := Some design |}.

Definition general_chat_cards : list Card :=
  [ plain_card "suggestion" "ðŸŽ¨ Design a Custom Item" "Let me help you create a unique design"
               "start_design";
    plain_card "suggestion" "ðŸ‘• Browse Products" "See what we have available"
               "browse_products";
    plain_card "suggestion" "â“ Get Help" "Ask me anything about our service"
               "ask_question" ].

(** The loop of [_handle_design_consultation] over
    [enumerate(suggestions, 1)], from number [i] on. *)
Fixpoint option_parts (i : nat) (suggestions : list Suggestion) : list string :=
  match suggestions with
  | [] => []
  | suggestion :: rest =>
      (newline +:+ "**Option " +:+ pretty i +:+ ": " +:+ s_title suggestion +:+ "**")
        :: s_description suggestion :: option_parts (S i) rest
  end.

(** [d.update(preferences)] on the dictionary of design preferences. *)
Definition dict_update (d : option Preferences) (preferences : Preferences)
  : option Preferences :=
  Some {| pref_styles := pref_styles preferences;
          pref_colors := pref_colors preferences;
          pref_themes := pref_themes preferences;
          pref_complexity := pref_complexity preferences;
          pref_vibe := pref_vibe preferences;
          selected_suggestion :=
            match selected_suggestion preferences with
            | Some s => Some s
            | None => d ≫= selected_suggestion
            end |}.

(** The loop of [refine_design] over [last_suggestions]. *)
Definition find_design (design_id : string) (suggestions : list Suggestion)
  : option Suggestion :=
  List.find (fun suggestion => String.eqb (s_id suggestion) design_id) suggestions.

(** The loop of [_get_conversation_history_string]. *)
Fixpoint history_parts (interactions : list Interaction) : list string :=
  match interactions with
  | [] => []
  | interaction :: rest =>
      ("User: " +:+ i_user_input interaction)
        :: ("StyleBot: " +:+ i_response interaction) :: history_parts rest
  end.

(** [l[-n:]] for a positive [n]. *)
Definition last_n {A} (n : nat) (l : list A) : list A := drop (length l - n) l.

(** [StyleBot._get_conversation_history_string] *)
Definition _get_conversation_history_string (self : ConversationContext) : string :=
  match conversation_history self with
  | [] => "This is the beginning of our conversation."
  | _ => join newline (history_parts (last_n 5 (conversation_history self)))
  end.

(** Assignments to attributes of the context. *)
Definition set_user (c : ConversationContext) (id : string) (count : Z)
  : ConversationContext :=
  {| user_id := id; session_id := session_id c;
     conversation_history := conversation_history c;
     current_topic := current_topic c; design_preferences := design_preferences c;
     product_interests := product_interests c; last_suggestions := last_suggestions c;
     interaction_count := count; started_at := started_at c |}.

Definition set_history (c : ConversationContext) (history : list Interaction)
  : ConversationContext :=
  {| user_id := user_id c; session_id := session_id c;
     conversation_history := history;
     current_topic := current_topic c; design_preferences := design_preferences c;
     product_interests := product_interests c; last_suggestions := last_suggestions c;
     interaction_count := interaction_count c; started_at := started_at c |}.

Definition set_last_suggestions (c : ConversationContext) (suggestions : list Suggestion)
  : ConversationContext :=
  {| user_id := user_id c; session_id := session_id c;
     conversation_history := conversation_history c;
     current_topic := current_topic c; design_preferences := design_preferences c;
     product_interests := product_interests c; last_suggestions := suggestions;
     interaction_count := interaction_count c; started_at := started_at c |}.

Definition set_current_topic (c : ConversationContext) (topic : option string)
  : ConversationContext :=
  {| user_id := user_id c; session_id := session_id c;
     conversation_history := conversation_history c;
     current_topic := topic; design_preferences := design_preferences c;
     product_interests := product_interests c; last_suggestions := last_suggestions c;
     interaction_count := interaction_count c; started_at := started_at c |}.

Definition set_design_preferences (c : ConversationContext) (d : option Preferences)
  : ConversationContext :=
  {| user_id := user_id c; session_id := session_id c;
     conversation_history := conversation_history c;
     current_topic := current_topic c; design_preferences := d;
     product_interests := product_interests c; last_suggestions := last_suggestions c;
     interaction_count := interaction_count c; started_at := started_at c |}.

Section Agent.

Context `{Environment} `{Services}.

(** The bot with everything its methods read and change: its context
    and memory, the retrieval engine with the files it loads and saves,
    the random generator of the design engine, and the state of the
    external services.  The intent classifier and the design database
    never change. *)
Record StyleBot : Type := {
  context : ConversationContext;
  memory : list Message;
  rag_system : RAGSystem;
  files : gmap string File;
  rng : list nat;
  services : world
}.

(** A method of the bot returns or raises, and leaves a bot. *)
Definition Bot (A : Type) : Type := StyleBot -> outcome A * StyleBot.

#[global] Instance bot_ret : MRet Bot := fun A a bot => (Return a, bot).

#[global] Instance bot_bind : MBind Bot :=
  fun A B f m bot =>
    match m bot with
    | (Return a, bot') => f a bot'
    | (Throw e, bot') => (Throw e, bot')
    end.

Definition get_context : Bot ConversationContext := fun bot => (Return (context bot), bot).

Definition put_context (c : ConversationContext) : Bot unit :=
  fun bot =>
    (Return tt,
     {| context := c; memory := memory bot; rag_system := rag_system bot;
        files := files bot; rng := rng bot; services := services bot |}).

(** [self.memory.chat_memory.add_user_message] and [add_ai_message] *)
Definition add_message (m : Message) : Bot unit :=
  fun bot =>
    (Return tt,
     {| context := context bot; memory := memory bot ++ [m];
        rag_system := rag_system bot; files := files bot; rng := rng bot;
        services := services bot |}).

(** A method of [self.rag_system]. *)
Definition rag_outcome {A}
    (method : gmap string File -> RAGSystem -> outcome A * (gmap string File * RAGSystem))
  : Bot A :=
  fun bot =>
    let '(o, (fs, rag)) := method (files bot) (rag_system bot) in
    (o, {| context := context bot; memory := memory bot; rag_system := rag;
           files := fs; rng := rng bot; services := services bot |}).

Definition outcome_of {A} (r : result A) : outcome A :=
  match r with
  | Ok a => Return a
  | Raise e => Throw (Builtin e)
  end.

Definition rag_result {A}
    (method : gmap string File -> RAGSystem -> result A * (gmap string File * RAGSystem))
  : Bot A :=
  rag_outcome (fun fs rag => let '(r, st) := method fs rag in (outcome_of r, st)).

(** A method of [self.design_engine]. *)
Definition draw {A} (m : Rand A) : Bot A :=
  fun bot =>
    let '(o, rng') := m (rng bot) in
    (o, {| context := context bot; memory := memory bot; rag_system := rag_system bot;
           files := files bot; rng := rng'; services := services bot |}).

(** A call of an external service. *)
Definition service {A} (call : world -> A * world) : Bot A :=
  fun bot =>
    let '(a, w) := call (services bot) in
    (Return a,
     {| context := context bot; memory := memory bot; rag_system := rag_system bot;
        files := files bot; rng := rng bot; services := w |}).

(** [StyleBot._handle_product_inquiry] *)
Definition _handle_product_inquiry (user_input : string) : Bot Response :=
  context ← rag_result (get_relevant_context user_input 2000);
  product_results ← rag_result (search_products user_input);
  let prompt := product_inquiry_prompt context user_input in
  response ← service (generate_response prompt);
  let product_suggestions := product_card <$> take 3 product_results in
  mret {| r_message := response;
          r_type := "product_inquiry";
          r_suggestions := product_suggestions;
          r_context := Some context;
          r_design_preferences := None |}.

(** [StyleBot._handle_faq]; the test [if faq_response] fails on [None]
    and on the empty string. *)
Definition _handle_faq (user_input : string) : Bot Response :=
  context ← rag_result (get_relevant_context user_input 2000);
  faq_response ← rag_outcome (get_faq_response user_input);
  response ←
    match faq_response with
    | Some (String c rest) => mret (String c rest)
    | _ => service (generate_response (faq_response_prompt context user_input))
    end;
  mret {| r_message := response;
          r_type := "faq";
          r_suggestions :=
            [ plain_card "faq" "Need more help?"
                         "Contact our support team for personalized assistance"
                         "contact_support" ];
          r_context := None;
          r_design_preferences := None |}.

(** [StyleBot._handle_design_consultation] *)
Definition _handle_design_consultation (user_input : string) : Bot Response :=
  suggestions ← draw (generate_suggestions user_input "t-shirt" None);
  c ← get_context;
  put_context (set_current_topic (set_last_suggestions c suggestions) (Some "design"));;
  let preferences := analyze_preferences user_input in
  c ← get_context;
  put_context (set_design_preferences c (dict_update (design_preferences c) preferences));;
  let response_parts :=
    [ "I'd love to help you create the perfect design! Based on your preferences, here are some creative suggestions:" ]
    ++ option_parts 1 suggestions
    ++ [ newline +:+ "Which design catches your eye? I can refine any of these based on your feedback!" ] in
  let formatted_suggestions := design_card <$> suggestions in
  c ← get_context;
  mret {| r_message := join newline response_parts;
          r_type := "design_consultation";
          r_suggestions := formatted_suggestions;
          r_context := None;
          r_design_preferences := design_preferences c |}.

(** [StyleBot._handle_shipping_inquiry] *)
Definition _handle_shipping_inquiry (user_input : string) : Bot Response :=
  context ← rag_result (get_relevant_context user_input 2000);
  let prompt := faq_response_prompt context user_input in
  response ← service (generate_response prompt);
  mret {| r_message := response;
          r_type := "shipping";
          r_suggestions :=
            [ plain_card "shipping" "Track Your Order"
                         "Enter your order number to track your package"
                         "track_order" ];
          r_context := None;
          r_design_preferences := None |}.

(** [StyleBot._handle_support_request] *)
Definition _handle_support_request (user_input : string) : Bot Response :=
  mret {| r_message := support_message;
          r_type := "support";
          r_suggestions :=
            [ plain_card "support" "Contact Support"
                         "Speak with a human representative" "contact_support";
              plain_card "support" "Order Issues"
                         "Problems with existing orders" "order_support" ];
          r_context := None;
          r_design_preferences := None |}.

(** [StyleBot._handle_general_chat] *)
Definition _handle_general_chat (user_input : string) : Bot Response :=
  c ← get_context;
  let history := _get_conversation_history_string c in
  let prompt := general_chat_prompt history user_input in
  response ← service (generate_response prompt);
  mret {| r_message := response;
          r_type := "general_chat";
          r_suggestions := general_chat_cards;
          r_context := None;
          r_design_preferences := None |}.

(** [StyleBot._update_conversation_history] *)
Definition _update_conversation_history (user_input : string) (response : Response)
    (query_type : string) : Bot unit :=
  now ← service now_isoformat;
  c ← get_context;
  let history :=
    conversation_history c
    ++ [ {| timestamp := now;
            i_user_input := user_input;
            i_response := r_message response;
            i_query_type := query_type;
            suggestions_count := length (r_suggestions response) |} ] in
  put_context (set_history c (if (20 <? length history)%nat
                              then last_n 20 history else history)).

(** The handler [chat] picks for a query type. *)
Definition handler (query_type : QueryType) (user_input : string) : Bot Response :=
  match query_type with
  | PRODUCT_INQUIRY => _handle_product_inquiry user_input
  | FAQ => _handle_faq user_input
  | DESIGN_CONSULTATION => _handle_design_consultation user_input
  | SHIPPING => _handle_shipping_inquiry user_input
  | SUPPORT => _handle_support_request user_input
  | GENERAL_CHAT => _handle_general_chat user_input
  end.

(** The body of [chat] under [try]; the classifier is the one made by
    [IntentClassifier()]. *)
Definition chat_body (user_input id : string) : Bot Response :=
  c ← get_context;
  put_context (set_user c id (interaction_count c + 1));;
  classified ← (fun bot => (classify_intent IntentClassifier_init user_input, bot));
  let query_type := classified.1 in
  response ← handler query_type user_input;
  _update_conversation_history user_input response (query_type_value query_type);;
  add_message (HumanMessage user_input);;
  add_message (AIMessage (r_message response));;
  mret response.

(** [StyleBot.chat]: every exception of the body is caught and answered
    with the error response. *)
Definition chat (user_input id : string) (bot : StyleBot) : Response * StyleBot :=
  match chat_body user_input id bot with
  | (Return response, bot') => (response, bot')
  | (Throw _, bot') => (error_response, bot')
  end.

(** [StyleBot.refine_design] *)
Definition refine_design (design_id feedback : string) : Bot Response :=
  c ← get_context;
  match find_design design_id (last_suggestions c) with
  | None => mret design_not_found
  | Some original_design =>
      refined_design ← draw (refine_suggestion original_design feedback);
      c ← get_context;
      put_context (set_last_suggestions c [refined_design]);;
      let response :=
        "Great feedback! I've refined the design based on your input:"
        +:+ newline +:+ newline +:+ "**" +:+ s_title refined_design +:+ "**"
        +:+ newline +:+ s_description refined_design +:+ newline +:+ newline
        +:+ "How does this look? I can make further adjustments if needed!" in
      mret {| r_message := response;
              r_type := "design_refinement";
              r_suggestions := [ refined_card refined_design ];
              r_context := None;
              r_design_preferences := None |}
  end.

(** [StyleBot.get_trending_designs] *)
Definition get_trending_designs (garment_type : string) : Bot Response :=
  trending ← draw (get_trending_suggestions garment_type);
  let response :=
    "Here are some trending " +:+ garment_type
    +:+ " designs that are popular right now:" in
  mret {| r_message := response;
          r_type := "trending_designs";
          r_suggestions := trending_card <$> trending;
          r_context := None;
          r_design_preferences := None |}.

(** [ConversationContext()] at the clock's reading [now]. *)
Definition ConversationContext_init (now : string) : ConversationContext :=
  {| user_id := "anonymous"; session_id := ""; conversation_history := [];
     current_topic := None; design_preferences := None; product_interests := [];
     last_suggestions := []; interaction_count := 0; started_at := now |}.

(** [StyleBot.__init__], given the files, the generator and the state of
    the services it starts with: a failure of [initialize] is logged and
    otherwise ignored. *)
Definition StyleBot_init (fs : gmap string File) (seed : list nat) (w : world)
  : StyleBot :=
  let '(now, w') := now_isoformat w in
  let '(_, (fs', rag)) := initialize false fs (RAGSystem_init "app/knowledge_base") in
  {| context := ConversationContext_init now; memory := []; rag_system := rag;
     files := fs'; rng := seed; services := w' |}.

(** A conversation: the calls of [chat] on the inputs in turn, with the
    responses given. *)
Fixpoint chats (inputs : list (string * string)) (bot : StyleBot)
  : list Response * StyleBot :=
  match inputs with
  | [] => ([], bot)
  | (user_input, id) :: rest =>
      let '(response, bot') := chat user_input id bot in
      let '(responses, bot'') := chats rest bot' in
      (response :: responses, bot'')
  end.

End Agent.

(** ** Vocabulary for the bot *)

Section AgentVocabulary.

Context `{Environment} `{Services}.

(** The two bots hold the same record of the conversation: memory,
    history, number of interactions and user. *)
Definition same_record (bot bot' : StyleBot) : Prop :=
  memory bot' = memory bot /\
  conversation_history (context bot') = conversation_history (context bot) /\
  interaction_count (context bot') = interaction_count (context bot) /\
  user_id (context bot') = user_id (context bot).

(** The bots differ at most in the random generator. *)
Definition same_but_rng (bot bot' : StyleBot) : Prop :=
  context bot' = context bot /\ memory bot' = memory bot /\
  rag_system bot' = rag_system bot /\ files bot' = files bot /\
  services bot' = services bot.

(** The retrieval engine of the bot is not initialised, no index is
    saved, and the knowledge base yields no document. *)
Definition empty_knowledge_base (bot : StyleBot) : Prop :=
  is_initialized (rag_system bot) = false /\
  read_index (files bot) (index_path +:+ ".index") = None /\
  split_documents (load_markdown_files (files bot) (kb_path (rag_system bot))
                   ++ load_json_files (files bot) (kb_path (rag_system bot))) = [].

(** What holds of the outcome of method [m] called on [bot] and of the
    bot it leaves. *)
Definition ensures {A} (m : Bot A) (bot : StyleBot)
    (Q : outcome A -> StyleBot -> Prop) : Prop :=
  Q (m bot).1 (m bot).2.

End AgentVocabulary.

(** The entry of the history for a response given at time [now]. *)
Definition interaction_of (now user_input : string) (response : Response) : Interaction :=
  {| timestamp := now;
     i_user_input := user_input;
     i_response := r_message response;
     i_query_type := r_type response;
     suggestions_count := length (r_suggestions response) |}.

(** The number of responses that are not error responses. *)
Definition answered (responses : list Response) : nat :=
  length (filter (fun response => r_type response <> "error") responses).

(** A bot to run: the services count their calls, and no document is
    loaded. *)
Module Desk.

Definition desk_services : Services := {|
  world := nat;
  generate_response := fun prompt calls => ("Reply " +:+ pretty calls, S calls);
  now_isoformat := fun calls => ("2024-05-01T10:00:0" +:+ pretty calls, S calls)
|}.

Definition empty_env : Environment := {|
  encode := Toy.encode_text;
  load_markdown_files := fun _ _ => [];
  load_json_files := fun _ _ => [];
  split_documents := fun ds => ds;
  top_rows := @top_rows Toy.env;
  top_rows_length := @top_rows_length Toy.env;
  top_rows_stored := @top_rows_stored Toy.env;
  top_rows_sorted := @top_rows_sorted Toy.env
|}.

Definition fresh : @StyleBot desk_services :=
  @StyleBot_init empty_env desk_services ∅ [3; 1; 4; 1; 5; 9; 2; 6]%nat 0%nat.

(** The bot after a design consultation that suggested [Studio.rocket]. *)
Definition with_rocket : @StyleBot desk_services :=
  (put_context (set_last_suggestions (context fresh) [Studio.rocket]) fresh).2.

End Desk.

(** * Properties *)

(** ** Strings and Python lists *)

Lemma len_app (s t : string) : len (s +:+ t) = len s + len t.
Proof.
  unfold len. induction s as [|a s IH]; simpl; [done|].
  rewrite !Nat2Z.inj_add. lia.
Qed.

Lemma len_nonneg (s : string) : 0 <= len s.
Proof. unfold len. lia. Qed.

Lemma len_join (sep : string) (parts : list string) :
  parts <> [] ->
  len (join sep parts) = total_len parts + len sep * (Z.of_nat (length parts) - 1).
Proof.
  induction parts as [|p parts IH]; [done|]. intros _.
  destruct parts as [|p' parts].
  - simpl. lia.
  - change (join sep (p :: p' :: parts)) with (p +:+ sep +:+ join sep (p' :: parts)).
    rewrite !len_app, IH by done.
    change (total_len (p :: p' :: parts)) with (len p + total_len (p' :: parts)).
    rewrite !length_cons, !Nat2Z.inj_succ. lia.
Qed.

Lemma py_getitem_in_range {A} (l : list A) (i : Z) :
  0 <= i < Z.of_nat (length l) -> is_Some (py_getitem l i).
Proof.
  intros Hi. unfold py_getitem.
  destruct (0 <=? i) eqn:H0; [|lia]. destruct (i <? Z.of_nat (length l)) eqn:H1; [|lia].
  simpl. apply lookup_lt_is_Some. lia.
Qed.

(** ** The flat index *)

Lemma all_hits_positions (idx : Index) (q : vector) :
  (all_hits idx q).*2 = Z.of_nat <$> seq 0 (ntotal idx).
Proof.
  unfold all_hits, ntotal. apply snd_zip.
  rewrite !length_fmap, length_seq. done.
Qed.

Lemma all_hits_NoDup (idx : Index) (q : vector) : NoDup (all_hits idx q).*2.
Proof.
  rewrite all_hits_positions. apply NoDup_fmap_2; [apply _|]. apply NoDup_seq.
Qed.

Lemma all_hits_in_range (idx : Index) (q : vector) :
  Forall (fun h : hit => 0 <= h.2 < Z.of_nat (ntotal idx)) (all_hits idx q).
Proof.
  apply Forall_forall. intros h Hh.
  assert (h.2 ∈ (all_hits idx q).*2) as Hp by (apply list_elem_of_fmap; eauto).
  rewrite all_hits_positions in Hp.
  apply list_elem_of_fmap in Hp as (n & -> & Hn).
  apply elem_of_seq in Hn. lia.
Qed.

Lemma all_hits_length (idx : Index) (q : vector) : length (all_hits idx q) = ntotal idx.
Proof.
  unfold all_hits, ntotal. rewrite length_zip_with, !length_fmap, length_seq. lia.
Qed.

Lemma StronglySorted_sublist {A} (R : relation A) (l1 l2 : list A) :
  l1 `sublist_of` l2 -> StronglySorted R l2 -> StronglySorted R l1.
Proof.
  induction 1 as [|x l1 l2 Hsub IH|x l1 l2 Hsub IH]; intros Hs.
  - constructor.
  - apply StronglySorted_cons in Hs as [Hx Hs].
    apply StronglySorted_cons. split; [|by apply IH].
    rewrite Forall_forall in Hx |- *. intros y Hy. apply Hx.
    by eapply elem_of_sublist.
  - apply StronglySorted_cons in Hs as [_ Hs]. by apply IH.
Qed.

Lemma lowest_score_below_threshold : lowest_score < score_threshold.
Proof. by vm_compute. Qed.

Lemma above_threshold_filling (n : nat) :
  above_threshold (replicate n (lowest_score, -1)) = [].
Proof.
  unfold above_threshold. induction n as [|n IH]; [done|].
  simpl. rewrite filter_cons_False; [done|]. simpl.
  pose proof lowest_score_below_threshold. lia.
Qed.

Lemma above_threshold_Forall (hits : list hit) :
  Forall (fun h : hit => score_threshold <= h.1) (above_threshold hits).
Proof.
  apply Forall_forall. intros h Hh. unfold above_threshold in Hh.
  by apply list_elem_of_filter in Hh as [Hh _].
Qed.

Lemma result_of_hit_scores (docs : list Document) (rs : list SearchResult)
    (hs : list hit) :
  Forall2 (result_of_hit docs) rs hs ->
  Forall (fun h : hit => score_threshold <= h.1) hs ->
  Forall (fun r => score_threshold <= score r) rs.
Proof.
  induction 1 as [|r h rs hs [Hr _] _ IH]; intros Hall; [constructor|].
  apply Forall_cons in Hall as [Hh Hall].
  constructor; [by rewrite Hr|by apply IH].
Qed.

(** ** The library's search *)

Section Library.

Context `{Environment}.

Lemma top_rows_in_range (idx : Index) (q : vector) (k : Z) :
  Forall (fun h : hit => 0 <= h.2 < Z.of_nat (ntotal idx)) (top_rows idx q k).
Proof.
  apply Forall_forall. intros h Hh.
  pose proof (all_hits_in_range idx q) as Hall. rewrite Forall_forall in Hall.
  apply Hall. eapply elem_of_submseteq; [done|]. apply top_rows_stored.
Qed.

Lemma index_search_inv (idx : Index) (q : vector) (k : Z) (hits : list hit) :
  index_search idx q k = Ok hits ->
  0 < k /\
  hits = top_rows idx q k
         ++ replicate (Z.to_nat k - length (top_rows idx q k)) (lowest_score, -1).
Proof.
  unfold index_search. destruct (k <=? 0) eqn:Hk; [done|].
  intros [= <-]. split; [lia|done].
Qed.

Lemma index_search_length (idx : Index) (q : vector) (k : Z) (hits : list hit) :
  index_search idx q k = Ok hits -> length hits = Z.to_nat k.
Proof.
  intros [Hk ->]%index_search_inv.
  rewrite length_app, length_replicate, top_rows_length by done. lia.
Qed.

Lemma index_search_positive (idx : Index) (q : vector) (k : Z) :
  0 < k -> exists hits, index_search idx q k = Ok hits.
Proof.
  intros Hk. unfold index_search. destruct (k <=? 0) eqn:E; [lia|]. eauto.
Qed.

Lemma index_search_negative (idx : Index) (q : vector) (k : Z) :
  k < 0 -> index_search idx q k = Raise AssertionError.
Proof. intros Hk. unfold index_search. destruct (k <=? 0) eqn:E; [done|lia]. Qed.

Lemma index_search_above_threshold (idx : Index) (q : vector) (k : Z) (hits : list hit) :
  index_search idx q k = Ok hits ->
  above_threshold hits = above_threshold (top_rows idx q k).
Proof.
  intros [_ ->]%index_search_inv. unfold above_threshold.
  rewrite filter_app. fold (above_threshold (replicate
    (Z.to_nat k - length (top_rows idx q k)) (lowest_score, -1))).
  rewrite above_threshold_filling. apply app_nil_r.
Qed.

Lemma above_threshold_sorted (idx : Index) (q : vector) (k : Z) :
  StronglySorted score_ge (above_threshold (top_rows idx q k)).
Proof.
  eapply StronglySorted_sublist; [apply sublist_filter; apply _|].
  apply top_rows_sorted.
Qed.

End Library.

(** ** VectorStore.similarity_search *)

Section Search.

Context `{Environment}.

Lemma collect_results_inv (docs : list Document) (hits : list hit) :
  forall (i : Z) (rs : list SearchResult),
  collect_results docs i hits = Ok rs ->
  Forall2 (result_of_hit docs) rs (above_threshold hits).
Proof.
  unfold above_threshold.
  induction hits as [|[s pos] hits IH]; intros i rs Hc; cbn [collect_results] in Hc.
  - injection Hc as <-. constructor.
  - destruct (score_threshold <=? s) eqn:Hs.
    + rewrite filter_cons_True by (simpl in *; lia).
      destruct (py_getitem docs pos) as [doc|] eqn:Hdoc; [|done].
      destruct (collect_results docs (i + 1) hits) as [rs'|] eqn:Hrest; [|done].
      injection Hc as <-. constructor; [by split|]. by eapply IH.
    + rewrite filter_cons_False by (simpl in *; lia). by eapply IH.
Qed.

Lemma collect_results_total (docs : list Document) (hits : list hit) :
  Forall (fun h : hit => is_Some (py_getitem docs h.2)) (above_threshold hits) ->
  forall i : Z, exists rs, collect_results docs i hits = Ok rs.
Proof.
  unfold above_threshold.
  induction hits as [|[s pos] hits IH]; intros Hall i; cbn [collect_results]; [eauto|].
  destruct (score_threshold <=? s) eqn:Hs.
  - rewrite filter_cons_True in Hall by (simpl in *; lia).
    apply Forall_cons in Hall as [[doc Hdoc] Hall]. simpl in Hdoc. rewrite Hdoc.
    destruct (IH Hall (i + 1)) as [rs ->]. eauto.
  - rewrite filter_cons_False in Hall by (simpl in *; lia). by apply IH.
Qed.

Lemma similarity_search_inv (self : VectorStore) (idx : Index) (q : string)
    (k : option Z) (rs : list SearchResult) :
  index self = Some idx ->
  similarity_search self q k = Ok rs ->
  exists hits,
    index_search idx (normalize_row (encode q)) (py_or k (top_k_results config)) = Ok hits /\
    Forall2 (result_of_hit (documents self)) rs (above_threshold hits).
Proof.
  intros Hidx. unfold similarity_search. rewrite Hidx.
  destruct (index_search _ _ _) as [hits|] eqn:Hs; [|done].
  intros Hc. exists hits. split; [done|]. by eapply collect_results_inv.
Qed.

Lemma similarity_search_no_index (self : VectorStore) (q : string) (k : option Z) :
  index self = None -> similarity_search self q k = Ok [].
Proof. intros Hidx. unfold similarity_search. by rewrite Hidx. Qed.

Lemma similarity_search_scores (self : VectorStore) (q : string) (k : option Z)
    (rs : list SearchResult) :
  similarity_search self q k = Ok rs ->
  Forall (fun r => score_threshold <= score r) rs.
Proof.
  intros Hs. destruct (index self) as [idx|] eqn:Hidx.
  - destruct (similarity_search_inv _ _ _ _ _ Hidx Hs) as (hits & _ & Hrs).
    eapply result_of_hit_scores; [done|]. apply above_threshold_Forall.
  - rewrite similarity_search_no_index in Hs by done. injection Hs as <-. constructor.
Qed.

(** A search with the configured [k] returns at most three results. *)
Lemma similarity_search_default_length (self : VectorStore) (q : string)
    (rs : list SearchResult) :
  similarity_search self q None = Ok rs -> (length rs <= 3)%nat.
Proof.
  intros Hs. destruct (index self) as [idx|] eqn:Hidx.
  - destruct (similarity_search_inv _ _ _ _ _ Hidx Hs) as (hits & Hhits & Hrs).
    rewrite (Forall2_length _ _ _ Hrs). unfold above_threshold.
    etrans; [apply length_filter|].
    rewrite (index_search_length _ _ _ _ Hhits). simpl. lia.
  - rewrite similarity_search_no_index in Hs by done. injection Hs as <-. simpl. lia.
Qed.

Lemma build_index_ok (self self' : VectorStore) (docs : list Document) :
  build_index self docs = (Ok tt, self') ->
  exists dimension : nat,
    self' = {| index := Some {| dim := dimension;
                                xb := normalize_L2 (encode <$> (page_content <$> docs)) |};
               documents := docs;
               embeddings := Some (normalize_L2 (encode <$> (page_content <$> docs))) |}.
Proof.
  unfold build_index. destruct (shape1 _) as [dimension|]; [|done].
  intros [= <-]. by exists dimension.
Qed.

Lemma build_index_ntotal (self self' : VectorStore) (docs : list Document) (idx : Index) :
  build_index self docs = (Ok tt, self') ->
  index self' = Some idx ->
  ntotal idx = length (documents self').
Proof.
  intros [dimension ->]%build_index_ok. simpl. intros [= <-].
  unfold ntotal, normalize_L2. simpl. by rewrite !length_map.
Qed.

Lemma result_of_hit_below (docs : list Document) (r : SearchResult) (h : hit)
    (rs : list SearchResult) (hs : list hit) :
  Forall2 (result_of_hit docs) rs hs ->
  score r = h.1 ->
  Forall (score_ge h) hs ->
  Forall (fun b => score b <= score r) rs.
Proof.
  intros Hrs Hr. induction Hrs as [|r' h' rs hs [Hr' _] _ IH]; intros Hall; [constructor|].
  apply Forall_cons in Hall as [Hge Hall].
  constructor; [|by apply IH].
  unfold score_ge in Hge. lia.
Qed.

Lemma result_of_hit_sorted (docs : list Document) (rs : list SearchResult)
    (hs : list hit) :
  Forall2 (result_of_hit docs) rs hs ->
  StronglySorted score_ge hs ->
  StronglySorted (fun a b => score b <= score a) rs.
Proof.
  induction 1 as [|r h rs hs Hr Hrs IH]; intros Hs; [constructor|].
  apply StronglySorted_cons in Hs as [Hh Hs].
  constructor; [by apply IH|].
  destruct Hr as [Hr _]. by eapply result_of_hit_below.
Qed.

(** C9 (amended).  On a store built by [build_index]: a search with a
    negative [k] raises AssertionError.  A search whose effective [k]
    ([k], or the configured 3 when [k] is omitted or 0) is positive
    returns results that report, in the order the library returned them,
    rows of the index; their scores are non-increasing; there are at most
    effective-[k] results and at most as many as rows in the index.  The
    order among results of equal score is the library's. *)
Theorem similarity_search_ranked (self0 self : VectorStore) (docs : list Document)
    (q : string) (k : option Z) :
  build_index self0 docs = (Ok tt, self) ->
  (py_or k (top_k_results config) < 0 ->
   similarity_search self q k = Raise AssertionError) /\
  (0 < py_or k (top_k_results config) ->
   exists (idx : Index) (rs : list SearchResult) (hits : list hit),
     index self = Some idx /\
     similarity_search self q k = Ok rs /\
     Forall2 (result_of_hit (documents self)) rs hits /\
     hits `sublist_of` top_rows idx (normalize_row (encode q))
                                (py_or k (top_k_results config)) /\
     StronglySorted (fun a b => score b <= score a) rs /\
     Forall (fun h : hit => 0 <= h.2 < Z.of_nat (ntotal idx)) hits /\
     Z.of_nat (length rs) <= py_or k (top_k_results config) /\
     (length rs <= ntotal idx)%nat).
Proof.
  intros Hbuild.
  destruct (build_index_ok _ _ _ Hbuild) as [dimension Hself].
  set (idx := {| dim := dimension;
                 xb := normalize_L2 (encode <$> (page_content <$> docs)) |}) in Hself.
  assert (index self = Some idx) as Hidx by (by rewrite Hself).
  pose proof (build_index_ntotal _ _ _ _ Hbuild Hidx) as Hn.
  set (qv := normalize_row (encode q)).
  set (k' := py_or k (top_k_results config)) in *.
  split; intros Hk.
  { unfold similarity_search. rewrite Hidx. fold qv k'.
    by rewrite index_search_negative. }
  destruct (index_search_positive idx qv k' Hk) as [hits0 Hhits0].
  pose proof (index_search_above_threshold _ _ _ _ Hhits0) as Habove.
  assert (Forall (fun h : hit => 0 <= h.2 < Z.of_nat (ntotal idx))
            (above_threshold (top_rows idx qv k'))) as Hrange.
  { unfold above_threshold. apply Forall_forall. intros h [_ Hh]%list_elem_of_filter.
    pose proof (top_rows_in_range idx qv k') as Hall.
    rewrite Forall_forall in Hall. by apply Hall. }
  destruct (collect_results_total (documents self) hits0) with (i := 0) as [rs Hrs].
  { rewrite Habove. eapply Forall_impl; [apply Hrange|].
    intros h Hh. apply py_getitem_in_range. by rewrite <- Hn. }
  pose proof (collect_results_inv _ _ _ _ Hrs) as Hrel. rewrite Habove in Hrel.
  exists idx, rs, (above_threshold (top_rows idx qv k')).
  assert (length rs <= length (top_rows idx qv k'))%nat as Hlen.
  { rewrite (Forall2_length _ _ _ Hrel). apply length_filter. }
  pose proof (top_rows_length idx qv k' Hk) as Hl.
  split_and!; try done.
  - unfold similarity_search. rewrite Hidx. fold qv k'. by rewrite Hhits0.
  - apply sublist_filter.
  - eapply result_of_hit_sorted; [done|]. apply above_threshold_sorted.
  - lia.
  - lia.
Qed.

(** C8.  On a store whose index is absent (never built), a search
    returns the empty list for every query and every [k]; it does not
    raise. *)
Theorem similarity_search_unbuilt (self : VectorStore) (q : string) (k : option Z) :
  index self = None -> similarity_search self q k = Ok [].
Proof. intros Hidx. unfold similarity_search. by rewrite Hidx. Qed.

End Search.

(** ** VectorStore.save_index and VectorStore.load_index *)

Lemma append_assoc (s t u : string) : (s +:+ t) +:+ u = s +:+ (t +:+ u).
Proof.
  induction s as [|a s IH]; [done|].
  change (String a ((s +:+ t) +:+ u) = String a (s +:+ (t +:+ u))). by rewrite IH.
Qed.

Lemma append_ne (p s t : string) : s <> t -> p +:+ s <> p +:+ t.
Proof. intros Hne Heq. apply Hne. by eapply (inj (String.append p)). Qed.

Lemma load_index_reads (self : VectorStore) (path : string) (fs : gmap string File)
    (idx : option Index) (ds : list Document) (m : list vector) :
  read_index fs (path +:+ ".index") = Some idx ->
  pickle_load fs (path +:+ ".docs") = Some ds ->
  np_load fs (path +:+ ".embeddings.npy") = Some m ->
  load_index self path fs
  = (true, {| index := idx; documents := ds; embeddings := Some m |}).
Proof. intros H1 H2 H3. unfold load_index. by rewrite H1, H2, H3. Qed.

Lemma load_index_true_inv (self self' : VectorStore) (path : string)
    (fs : gmap string File) :
  load_index self path fs = (true, self') ->
  exists idx ds m,
    read_index fs (path +:+ ".index") = Some idx /\
    pickle_load fs (path +:+ ".docs") = Some ds /\
    np_load fs (path +:+ ".embeddings.npy") = Some m /\
    self' = {| index := idx; documents := ds; embeddings := Some m |}.
Proof.
  unfold load_index.
  destruct (read_index _ _) as [idx|]; [|done].
  destruct (pickle_load _ _) as [ds|]; [|done].
  destruct (np_load _ _) as [m|]; [|done].
  intros [= <-]. by exists idx, ds, m.
Qed.

(** A failed load returns [False]; what it leaves behind depends on the
    file that failed. *)
Lemma load_index_docs_failure (self : VectorStore) (path : string)
    (fs : gmap string File) (idx : option Index) :
  read_index fs (path +:+ ".index") = Some idx ->
  pickle_load fs (path +:+ ".docs") = None ->
  load_index self path fs
  = (false, {| index := idx; documents := documents self;
               embeddings := embeddings self |}).
Proof. intros H1 H2. unfold load_index. by rewrite H1, H2. Qed.

Lemma save_index_inv (self : VectorStore) (path : string) (fs fs' : gmap string File) :
  save_index self path fs = (Ok tt, fs') -> os_path_dirname path <> "".
Proof. unfold save_index. by case_bool_decide. Qed.

Lemma save_index_no_directory (self : VectorStore) (path : string)
    (fs : gmap string File) :
  os_path_dirname path = "" -> save_index self path fs = (Raise FileNotFoundError, fs).
Proof. intros Hdir. unfold save_index. by rewrite bool_decide_eq_true_2. Qed.

Lemma save_index_then_load (self other : VectorStore) (path : string)
    (fs : gmap string File) (m : list vector) :
  os_path_dirname path <> "" ->
  embeddings self = Some m ->
  exists fs',
    save_index self path fs = (Ok tt, fs') /\
    load_index other path fs'
    = (true, {| index := index self; documents := documents self;
                embeddings := Some m |}).
Proof.
  intros Hdir Hemb. unfold save_index.
  rewrite bool_decide_eq_false_2 by done. rewrite Hemb.
  eexists. split; [done|].
  unfold np_save. rewrite append_assoc.
  change (".embeddings" +:+ ".npy") with ".embeddings.npy".
  apply load_index_reads.
  - unfold read_index. rewrite !lookup_insert_ne by (by apply append_ne).
    rewrite lookup_insert_eq. by destruct (index self).
  - unfold pickle_load. rewrite lookup_insert_ne by (by apply append_ne).
    by rewrite lookup_insert_eq.
  - unfold np_load. by rewrite lookup_insert_eq.
Qed.

Section Persistence.

Context `{Environment}.

(** C6.  For a store built by [build_index]: [save_index] succeeds when
    the path has a directory part (and raises FileNotFoundError, writing
    nothing, when it has none); whenever it succeeds, loading the files
    into a fresh store succeeds and reproduces the index (the rows in
    their order), the documents and the embeddings, so that every search
    returns the same results, in the same order and with the same scores,
    on the loaded store as on the saved one. *)
Theorem save_load_round_trip (self0 self : VectorStore) (docs : list Document)
    (path : string) (fs : gmap string File) :
  build_index self0 docs = (Ok tt, self) ->
  (os_path_dirname path = "" ->
   save_index self path fs = (Raise FileNotFoundError, fs)) /\
  (os_path_dirname path <> "" ->
   exists fs' : gmap string File, save_index self path fs = (Ok tt, fs')) /\
  forall fs' : gmap string File,
    save_index self path fs = (Ok tt, fs') ->
    exists loaded : VectorStore,
      load_index VectorStore_init path fs' = (true, loaded) /\
      index loaded = index self /\
      documents loaded = documents self /\
      embeddings loaded = embeddings self /\
      forall (q : string) (k : option Z),
        similarity_search loaded q k = similarity_search self q k.
Proof.
  intros [dimension ->]%build_index_ok.
  split; [apply save_index_no_directory|].
  split.
  - intros Hdir.
    match goal with |- context [save_index ?vs _ _] =>
      destruct (save_index_then_load vs VectorStore_init path fs _ Hdir eq_refl)
        as (fs' & Hsave & _)
    end.
    by exists fs'.
  - intros fs' Hsave. pose proof (save_index_inv _ _ _ _ Hsave) as Hdir.
    match type of Hsave with save_index ?vs _ _ = _ =>
      destruct (save_index_then_load vs VectorStore_init path fs _ Hdir eq_refl)
        as (fs2 & Hsave2 & Hload)
    end.
    rewrite Hsave in Hsave2. injection Hsave2 as <-.
    eexists. split; [exact Hload|]. done.
Qed.

(** C5.  After an [initialize] that succeeded (whatever its
    [force_rebuild]), a further [initialize(force_rebuild=False)] succeeds
    and leaves the files, the store (index, documents, embeddings) and
    [is_initialized] as they were. *)
Theorem initialize_idempotent (force_rebuild : bool) (fs fs' : gmap string File)
    (self self' : RAGSystem) :
  initialize force_rebuild fs self = (Ok tt, (fs', self')) ->
  initialize false fs' self' = (Ok tt, (fs', self')).
Proof.
  unfold initialize at 1.
  destruct (if force_rebuild then _ else _) as [[] vs] eqn:Hloaded.
  - (* the index was loaded *)
    intros [= <- <-].
    destruct force_rebuild; [done|].
    apply load_index_true_inv in Hloaded as (idx & ds & m & H1 & H2 & H3 & ->).
    unfold initialize. simpl.
    by rewrite (load_index_reads _ _ _ _ _ _ H1 H2 H3).
  - (* the index was rebuilt and saved *)
    destruct (build_index vs _) as [[[]|e] vs'] eqn:Hbuild; [|done].
    apply build_index_ok in Hbuild as [dimension ->].
    match goal with |- context [save_index ?vs' _ _] =>
      destruct (save_index_then_load vs' vs' index_path fs _ ltac:(by vm_compute) eq_refl)
        as (fs2 & Hsave & Hload)
    end.
    rewrite Hsave. intros [= <- <-].
    unfold initialize. simpl vector_store. by rewrite Hload.
Qed.

(** C4: the code at the failing input.  [build_index] on an empty chunk
    list raises IndexError (the embeddings array has no second axis) after
    it has replaced the documents and the embeddings; no index is set. *)
Theorem build_index_empty_raises (self : VectorStore) :
  build_index self []
  = (Raise IndexError, {| index := index self; documents := []; embeddings := Some [] |}).
Proof. reflexivity. Qed.

End Persistence.

(** C3: the code at the failing input.  With a readable index file and an
    unreadable documents file, [load_index] returns [False] but has
    already replaced the index of the store: the fresh store it was called
    on now holds an index of one row and no document, and a search on it
    raises IndexError. *)
Theorem load_index_failure_mutates :
  let idx := {| dim := 2; xb := [[600; 800]] |} in
  let fs : gmap string File :=
    {[ "data/vector_index.index" := FaissFile idx;
       "data/vector_index.docs" := Corrupt ]} in
  let after := {| index := Some idx; documents := []; embeddings := None |} in
  load_index VectorStore_init "data/vector_index" fs = (false, after) /\
  after <> VectorStore_init /\
  @similarity_search Toy.env after "cotton" None = Raise IndexError.
Proof. cbv zeta. split_and!; [by vm_compute|done|by vm_compute]. Qed.

(** ** RAGSystem.get_relevant_context and RAGSystem.search_products *)

Lemma len_content_with_source (doc : Document) :
  12 <= len (content_with_source doc).
Proof.
  unfold content_with_source. rewrite !len_app.
  change (len "[Source: ") with 9. change (len "]") with 1. change (len newline) with 1.
  pose proof (len_nonneg (py_str (metadata_get doc "filename" (MStr "unknown")))).
  pose proof (len_nonneg (page_content doc)). lia.
Qed.

Lemma content_with_source_head (doc : Document) :
  exists rest, content_with_source doc = String "["%char rest.
Proof. unfold content_with_source. eexists. reflexivity. Qed.

Lemma join_head (sep p : string) (a : ascii) (rest : string) (parts : list string) :
  p = String a rest -> exists rest', join sep (p :: parts) = String a rest'.
Proof. intros ->. destruct parts; eexists; reflexivity. Qed.

(** The loop keeps a prefix of the results: it stops at the first block
    that would take the count past the budget. *)
Lemma context_parts_prefix (max : Z) (results : list SearchResult) :
  forall total : Z,
  total <= max ->
  exists n : nat,
    (n <= length results)%nat /\
    context_parts results total max = block <$> take n results /\
    total + total_len (context_parts results total max) <= max /\
    forall next, results !! n = Some next ->
      total + total_len (context_parts results total max) + len (block next) > max.
Proof.
  induction results as [|r results IH]; intros total Htotal.
  - exists 0%nat. simpl. split_and!; [lia|done|lia|done].
  - cbn [context_parts]. fold (block r).
    destruct (total + len (block r) >? max) eqn:Htest.
    + exists 0%nat. simpl. split_and!; [lia|done|lia|].
      intros next [= <-]. lia.
    + destruct (IH (total + len (block r))) as (n & Hn & Hparts & Hsum & Hnext); [lia|].
      exists (S n). cbn [total_len foldr]. fold (total_len
        (context_parts results (total + len (block r)) max)).
      split_and!.
      * simpl. lia.
      * simpl. by rewrite Hparts.
      * lia.
      * intros next Hnext'. simpl in Hnext'. specialize (Hnext next Hnext'). lia.
Qed.

Lemma is_product_spec (doc : Document) : is_product doc = true <-> product_typed doc.
Proof.
  unfold is_product, product_typed.
  destruct (metadata doc !! "type") as [[s| | |]|]; try (split; [done|intros [=]]).
  rewrite bool_decide_eq_true. split; [by intros ->|by intros [= ->]].
Qed.

Lemma product_results_filter (results : list SearchResult) :
  product_results results
  = product_of <$> filter (fun r => product_typed (document r)) results.
Proof.
  induction results as [|r results IH]; [done|]. cbn [product_results].
  destruct (is_product (document r)) eqn:Hp.
  - rewrite filter_cons_True by (by apply is_product_spec). simpl. by rewrite IH.
  - rewrite filter_cons_False; [done|].
    intros Hty%is_product_spec. congruence.
Qed.

Lemma result_of_hit_elem (docs : list Document) (rs : list SearchResult) (hs : list hit) :
  Forall2 (result_of_hit docs) rs hs ->
  Forall (fun r => exists pos, (score r, pos) ∈ hs /\ py_getitem docs pos = Some (document r)) rs.
Proof.
  induction 1 as [|r [s pos] rs hs [Hr Hdoc] _ IH]; [constructor|].
  simpl in Hr, Hdoc. constructor.
  - exists pos. rewrite Hr. split; [left|done].
  - eapply Forall_impl; [apply IH|]. intros r' (pos' & Hin & Hd).
    exists pos'. split; [by right|done].
Qed.

Section Retrieval.

Context `{Environment}.

Lemma similarity_search_raw_hits (self : VectorStore) (q : string)
    (rs : list SearchResult) :
  similarity_search self q None = Ok rs ->
  Forall (fun r => raw_hit self q r /\ score_threshold <= score r) rs.
Proof.
  intros Hs. pose proof (similarity_search_scores _ _ _ _ Hs) as Hscores.
  destruct (index self) as [idx|] eqn:Hidx.
  - destruct (similarity_search_inv _ _ _ _ _ Hidx Hs) as (hits & Hhits & Hrs).
    apply result_of_hit_elem in Hrs.
    rewrite Forall_forall in Hrs, Hscores. apply Forall_forall. intros r Hr.
    split; [|by apply Hscores].
    destruct (Hrs r Hr) as (pos & Hin & Hdoc).
    exists idx, hits, pos. split_and!; try done.
    unfold above_threshold in Hin. by apply list_elem_of_filter in Hin as [_ Hin].
  - rewrite similarity_search_no_index in Hs by done. injection Hs as <-. constructor.
Qed.

Lemma get_relevant_context_results (q : string) (max : Z) (fs fs' : gmap string File)
    (self self' : RAGSystem) (r : SearchResult) (results : list SearchResult) :
  ensure_initialized fs self = (Ok tt, (fs', self')) ->
  similarity_search (vector_store self') q None = Ok (r :: results) ->
  get_relevant_context q max fs self
  = (Ok (join separator (context_parts (r :: results) 0 max)), (fs', self')).
Proof. intros Hinit Hs. unfold get_relevant_context. by rewrite Hinit, Hs. Qed.

(** C2 (amended).  When the search returns at least one result and
    [max_context_length] is not negative, the context is the join of the
    whole formatted blocks of a prefix of the results, in rank order; the
    blocks kept count at most [max_context_length] characters together
    and the first block left out would take the count past it.  The
    separators are not counted: the returned string is at most 10
    characters (two separators) longer than [max_context_length], hence
    at most [max_context_length] plus the length of any one block. *)
Theorem get_relevant_context_budget (q : string) (max : Z) (fs fs' : gmap string File)
    (self self' : RAGSystem) (r : SearchResult) (results : list SearchResult) :
  ensure_initialized fs self = (Ok tt, (fs', self')) ->
  similarity_search (vector_store self') q None = Ok (r :: results) ->
  0 <= max ->
  exists n : nat,
    let used := take n (r :: results) in
    let out := join separator (block <$> used) in
    get_relevant_context q max fs self = (Ok out, (fs', self')) /\
    (n <= length (r :: results))%nat /\
    total_len (block <$> used) <= max /\
    (forall next, (r :: results) !! n = Some next ->
       total_len (block <$> used) + len (block next) > max) /\
    len out <= max + 10 /\
    forall r', r' ∈ r :: results -> len out <= max + len (block r').
Proof.
  intros Hinit Hs Hmax.
  pose proof (similarity_search_default_length _ _ _ Hs) as Hthree.
  destruct (context_parts_prefix max (r :: results) 0 Hmax)
    as (n & Hn & Hparts & Hsum & Hnext).
  exists n. cbv zeta.
  rewrite (get_relevant_context_results q max _ _ _ _ _ _ Hinit Hs).
  rewrite Hparts in *. rewrite Z.add_0_l in Hsum.
  assert (len (join separator (block <$> take n (r :: results))) <= max + 10) as Hlen.
  { destruct (block <$> take n (r :: results)) as [|b parts] eqn:Hused.
    - simpl. change (len "") with 0. lia.
    - assert (length (b :: parts) <= 3)%nat
        by (rewrite <- Hused, length_fmap, length_take; lia).
      rewrite len_join by done. change (len separator) with 5. lia. }
  split_and!; try done.
  intros r' _. assert (12 <= len (block r')) by apply len_content_with_source. lia.
Qed.



(** C10.  [get_relevant_context] returns the "no relevant information"
    message exactly when the search returns no result; when the first
    result's block alone is longer than [max_context_length] it returns
    the empty string. *)
Theorem get_relevant_context_sentinel (q : string) (max : Z) (fs fs' : gmap string File)
    (self self' : RAGSystem) (results : list SearchResult) :
  ensure_initialized fs self = (Ok tt, (fs', self')) ->
  similarity_search (vector_store self') q None = Ok results ->
  exists out : string,
    get_relevant_context q max fs self = (Ok out, (fs', self')) /\
    (out = no_information <-> results = []) /\
    forall r rest, results = r :: rest -> max < len (block r) -> out = "".
Proof.
  intros Hinit Hs. unfold get_relevant_context. rewrite Hinit, Hs.
  destruct results as [|r rest].
  - exists no_information. split_and!; done.
  - eexists. split; [done|]. cbn [context_parts]. fold (block r).
    destruct (0 + len (block r) >? max) eqn:Htest.
    + split; [done|]. done.
    + split.
      * destruct (content_with_source_head (document r)) as [tl Hhead].
        destruct (join_head separator (block r) _ tl
                    (context_parts rest (0 + len (block r)) max) Hhead) as [tl' ->].
        done.
      * intros r0 rest0 [= <- <-] Hlong. lia.
Qed.

(** C1 (amended).  [search_products] (the type filter is fixed to
    "product") returns, in rank order, the product id, content and score
    of exactly those results of [similarity_search] whose document has
    type "product".  It filters on no score itself, but the results of
    [similarity_search] already exclude every hit below the threshold as
    the search compares it (the configured threshold converted to single
    precision), so every entry returned scores at or above that number. *)
Theorem search_products_filter (q : string) (fs fs' : gmap string File)
    (self self' : RAGSystem) (results : list SearchResult) :
  ensure_initialized fs self = (Ok tt, (fs', self')) ->
  similarity_search (vector_store self') q None = Ok results ->
  search_products q fs self
  = (Ok (product_of <$> filter (fun r => product_typed (document r)) results),
     (fs', self')) /\
  Forall (fun r => raw_hit (vector_store self') q r /\
                   score_threshold <= score r)
         (filter (fun r => product_typed (document r)) results).
Proof.
  intros Hinit Hs. split.
  - unfold search_products. by rewrite Hinit, Hs, product_results_filter.
  - apply Forall_forall. intros r [_ Hr]%list_elem_of_filter.
    pose proof (similarity_search_raw_hits _ _ _ Hs) as Hall.
    rewrite Forall_forall in Hall. by apply Hall.
Qed.

End Retrieval.

(** * The engine on the small knowledge base *)

Lemma similarity_search_ranked_witness :
  (py_or (Some 2) (top_k_results config) < 0 ->
   @similarity_search Toy.env (Toy.built [Toy.hoodie; Toy.faq; Toy.cap]) "cat" (Some 2)
   = Raise AssertionError) /\
  (0 < py_or (Some 2) (top_k_results config) ->
   exists (idx : Index) (rs : list SearchResult) (hits : list hit),
     index (Toy.built [Toy.hoodie; Toy.faq; Toy.cap]) = Some idx /\
     @similarity_search Toy.env (Toy.built [Toy.hoodie; Toy.faq; Toy.cap]) "cat" (Some 2)
     = Ok rs /\
     Forall2 (result_of_hit (documents (Toy.built [Toy.hoodie; Toy.faq; Toy.cap])))
             rs hits /\
     hits `sublist_of` @top_rows Toy.env idx (normalize_row (@encode Toy.env "cat"))
                                 (py_or (Some 2) (top_k_results config)) /\
     StronglySorted (fun a b => score b <= score a) rs /\
     Forall (fun h : hit => 0 <= h.2 < Z.of_nat (ntotal idx)) hits /\
     Z.of_nat (length rs) <= py_or (Some 2) (top_k_results config) /\
     (length rs <= ntotal idx)%nat).
Proof.
  apply (@similarity_search_ranked Toy.env VectorStore_init
           (Toy.built [Toy.hoodie; Toy.faq; Toy.cap])
           [Toy.hoodie; Toy.faq; Toy.cap] "cat" (Some 2)).
  vm_compute. reflexivity.
Defined.

(** C9 as stated fails for [k = 0]: the search falls back to the
    configured [k] and returns a result.  It also fails on the order of
    equal scores, which the code leaves to the library: behind a library
    that returns rows of equal score by descending position, the note
    (position 1) is reported before the hoodie (position 0). *)
Lemma similarity_search_length_and_ties :
  (@similarity_search Toy.env (Toy.built [Toy.faq]) "cat" (Some 0)
   = Ok [Toy.faq_result] /\
   ~ (Z.of_nat (length [Toy.faq_result]) <= 0)) /\
  (documents (Later.built [Toy.hoodie; Toy.note]) = [Toy.hoodie; Toy.note] /\
   @similarity_search Later.env (Later.built [Toy.hoodie; Toy.note]) "apple" None
   = Ok [ {| document := Toy.note; score := float32 1000000 1000000; rank := 1 |};
          {| document := Toy.hoodie; score := float32 1000000 1000000; rank := 2 |} ]).
Proof.
  split; split; try (vm_compute; reflexivity). simpl. lia.
Qed.

Lemma similarity_search_unbuilt_witness :
  index VectorStore_init = None /\
  @similarity_search Toy.env VectorStore_init "cat" (Some 5) = Ok [].
Proof.
  split; [reflexivity|].
  apply (@similarity_search_unbuilt Toy.env VectorStore_init "cat" (Some 5)).
  reflexivity.
Defined.

Lemma save_load_round_trip_witness :
  (os_path_dirname "data/vector_index" = "" ->
   save_index (Toy.built [Toy.hoodie; Toy.faq]) "data/vector_index" ∅
   = (Raise FileNotFoundError, ∅)) /\
  (os_path_dirname "data/vector_index" <> "" ->
   exists fs' : gmap string File,
     save_index (Toy.built [Toy.hoodie; Toy.faq]) "data/vector_index" ∅ = (Ok tt, fs')) /\
  forall fs' : gmap string File,
    save_index (Toy.built [Toy.hoodie; Toy.faq]) "data/vector_index" ∅ = (Ok tt, fs') ->
    exists loaded : VectorStore,
      load_index VectorStore_init "data/vector_index" fs' = (true, loaded) /\
      index loaded = index (Toy.built [Toy.hoodie; Toy.faq]) /\
      documents loaded = documents (Toy.built [Toy.hoodie; Toy.faq]) /\
      embeddings loaded = embeddings (Toy.built [Toy.hoodie; Toy.faq]) /\
      forall (q : string) (k : option Z),
        @similarity_search Toy.env loaded q k
        = @similarity_search Toy.env (Toy.built [Toy.hoodie; Toy.faq]) q k.
Proof.
  apply (@save_load_round_trip Toy.env VectorStore_init
           (Toy.built [Toy.hoodie; Toy.faq]) [Toy.hoodie; Toy.faq]
           "data/vector_index" ∅).
  vm_compute. reflexivity.
Defined.

Lemma initialize_idempotent_witness :
  let st := (@initialize Toy.env true ∅ (RAGSystem_init "app/knowledge_base")).2 in
  @initialize Toy.env true ∅ (RAGSystem_init "app/knowledge_base") = (Ok tt, (st.1, st.2)) /\
  @initialize Toy.env false st.1 st.2 = (Ok tt, (st.1, st.2)).
Proof.
  cbv zeta.
  assert (@initialize Toy.env true ∅ (RAGSystem_init "app/knowledge_base")
          = (Ok tt, ((@initialize Toy.env true ∅ (RAGSystem_init "app/knowledge_base")).2.1,
                     (@initialize Toy.env true ∅ (RAGSystem_init "app/knowledge_base")).2.2)))
    as Hfirst by (vm_compute; reflexivity).
  split; [exact Hfirst|].
  exact (@initialize_idempotent Toy.env true ∅ _ _ _ Hfirst).
Defined.

Lemma get_relevant_context_budget_witness :
  exists n : nat,
    let used := take n [Toy.faq_result; Toy.cap_result] in
    let out := join separator (block <$> used) in
    @get_relevant_context Toy.env "cat" 30 ∅ (Toy.engine [Toy.hoodie; Toy.faq; Toy.cap])
    = (Ok out, (∅, Toy.engine [Toy.hoodie; Toy.faq; Toy.cap])) /\
    (n <= length [Toy.faq_result; Toy.cap_result])%nat /\
    total_len (block <$> used) <= 30 /\
    (forall next, [Toy.faq_result; Toy.cap_result] !! n = Some next ->
       total_len (block <$> used) + len (block next) > 30) /\
    len out <= 30 + 10 /\
    forall r', r' ∈ [Toy.faq_result; Toy.cap_result] -> len out <= 30 + len (block r').
Proof.
  apply (@get_relevant_context_budget Toy.env "cat" 30 ∅ ∅
           (Toy.engine [Toy.hoodie; Toy.faq; Toy.cap])
           (Toy.engine [Toy.hoodie; Toy.faq; Toy.cap]) Toy.faq_result [Toy.cap_result]).
  - reflexivity.
  - vm_compute. reflexivity.
  - lia.
Defined.

(** C2 as stated fails when nothing passes the threshold: the message
    returned is 52 characters long whatever the budget, here 0, and longer
    than the budget plus the block of any document of the index.  It also
    fails for a negative budget, where the empty string returned is longer
    than the budget plus the block of either result. *)
Lemma get_relevant_context_message_over_budget :
  (@get_relevant_context Toy.env "banana" 0 ∅ (Toy.engine [Toy.note])
   = (Ok no_information, (∅, Toy.engine [Toy.note])) /\
   len no_information = 52 /\
   forall doc, doc ∈ documents (vector_store (Toy.engine [Toy.note])) ->
     ~ (len no_information <= 0 + len (content_with_source doc))) /\
  (@get_relevant_context Toy.env "cat" (-100) ∅ (Toy.engine [Toy.hoodie; Toy.faq; Toy.cap])
   = (Ok "", (∅, Toy.engine [Toy.hoodie; Toy.faq; Toy.cap])) /\
   @similarity_search Toy.env (Toy.built [Toy.hoodie; Toy.faq; Toy.cap]) "cat" None
   = Ok [Toy.faq_result; Toy.cap_result] /\
   forall r, r ∈ [Toy.faq_result; Toy.cap_result] ->
     ~ (len "" <= -100 + len (block r))).
Proof.
  split; split_and!; try (vm_compute; reflexivity).
  - intros doc Hdoc. change (documents _) with [Toy.note] in Hdoc.
    apply list_elem_of_singleton in Hdoc as ->. vm_compute. intros Hle. by apply Hle.
  - intros r Hr. apply elem_of_cons in Hr as [->|Hr];
      [|apply list_elem_of_singleton in Hr as ->];
      vm_compute; intros Hle; by apply Hle.
Qed.



Lemma get_relevant_context_sentinel_witness :
  exists out : string,
    @get_relevant_context Toy.env "cat" 10 ∅ (Toy.engine [Toy.hoodie; Toy.faq; Toy.cap])
    = (Ok out, (∅, Toy.engine [Toy.hoodie; Toy.faq; Toy.cap])) /\
    (out = no_information <-> [Toy.faq_result; Toy.cap_result] = []) /\
    forall r rest, [Toy.faq_result; Toy.cap_result] = r :: rest ->
      10 < len (block r) -> out = "".
Proof.
  apply (@get_relevant_context_sentinel Toy.env "cat" 10 ∅ ∅
           (Toy.engine [Toy.hoodie; Toy.faq; Toy.cap])
           (Toy.engine [Toy.hoodie; Toy.faq; Toy.cap]) [Toy.faq_result; Toy.cap_result]).
  - reflexivity.
  - vm_compute. reflexivity.
Defined.

Lemma search_products_filter_witness :
  @search_products Toy.env "cat" ∅ (Toy.engine [Toy.hoodie; Toy.faq; Toy.cap])
  = (Ok (product_of <$> filter (fun r => product_typed (document r))
                               [Toy.faq_result; Toy.cap_result]),
     (∅, Toy.engine [Toy.hoodie; Toy.faq; Toy.cap])) /\
  Forall (fun r =>
            @raw_hit Toy.env (vector_store (Toy.engine [Toy.hoodie; Toy.faq; Toy.cap])) "cat" r /\
            score_threshold <= score r)
         (filter (fun r => product_typed (document r)) [Toy.faq_result; Toy.cap_result]).
Proof.
  apply (@search_products_filter Toy.env "cat" ∅ ∅
           (Toy.engine [Toy.hoodie; Toy.faq; Toy.cap])
           (Toy.engine [Toy.hoodie; Toy.faq; Toy.cap]) [Toy.faq_result; Toy.cap_result]).
  - reflexivity.
  - vm_compute. reflexivity.
Defined.

(** C1 as stated fails: the hoodie is a product and is among the rows the
    index returns for the query (score 0.6, position 0), but it is below
    the threshold and [search_products] does not return it. *)
Lemma search_products_drops_low_score :
  let self := Toy.engine [Toy.hoodie; Toy.faq; Toy.cap] in
  exists (idx : Index) (hits : list hit),
    index (vector_store self) = Some idx /\
    @index_search Toy.env idx (normalize_row (Toy.encode_text "cat"))
                  (top_k_results config)
    = Ok hits /\
    (float32 600000 1000000, 0) ∈ hits /\
    py_getitem (documents (vector_store self)) 0 = Some Toy.hoodie /\
    product_typed Toy.hoodie /\
    float32 600000 1000000 < score_threshold /\
    @search_products Toy.env "cat" ∅ self = (Ok [product_of Toy.cap_result], (∅, self)) /\
    product_of Toy.cap_result
    = {| product_id := MInt 7; content := "blue cap";
         product_score := float32 800000 1000000 |}.
Proof.
  cbv zeta.
  exists {| dim := 2; xb := [[1000; 0]; [600; 800]; [0; 1000]] |},
         [(float32 1000000 1000000, 1); (float32 800000 1000000, 2);
          (float32 600000 1000000, 0)].
  split_and!; try (vm_compute; reflexivity).
  set_solver.
Qed.

(** * The callers of the search *)

(** ** Substring test *)

Lemma prefix_spec (p s : string) :
  String.prefix p s = true <-> exists post, s = p +:+ post.
Proof.
  revert s. induction p as [|a p IH]; intros s.
  - destruct s; simpl; split; eauto.
  - destruct s as [|b s]; simpl.
    + split; [done|]. by intros [post Hpost].
    + destruct (ascii_dec a b) as [->|Hne].
      * rewrite IH. split; intros [post Hpost]; exists post.
        -- by rewrite Hpost.
        -- by injection Hpost.
      * split; [done|]. intros [post Hpost]. injection Hpost as Hab _. congruence.
Qed.

Lemma py_in_spec (sub s : string) : py_in sub s = true <-> occurs_in sub s.
Proof.
  unfold occurs_in. induction s as [|c s IH]; cbn [py_in].
  - rewrite orb_false_r, prefix_spec. split.
    + intros [post Hpost]. by exists "", post.
    + intros (pre & post & Hs). destruct pre; [by exists post|done].
  - rewrite orb_true_iff, prefix_spec, IH. split.
    + intros [[post Hpost]|(pre & post & Hs)].
      * by exists "", post.
      * exists (String c pre), post. by rewrite Hs.
    + intros (pre & post & Hs). destruct pre as [|c' pre].
      * left. by exists post.
      * right. exists pre, post. by injection Hs.
Qed.

#[global] Instance occurs_in_dec (sub s : string) : Decision (occurs_in sub s).
Proof.
  destruct (py_in sub s) eqn:Hin.
  - left. by apply py_in_spec.
  - right. intros Hocc%py_in_spec. congruence.
Defined.

#[global] Instance faq_file_dec (doc : Document) : Decision (faq_file doc).
Proof. unfold faq_file. destruct (metadata doc !! "filename") as [[]|]; apply _. Defined.

#[global] Instance string_named_dec (doc : Document) : Decision (string_named doc).
Proof. unfold string_named. destruct (metadata doc !! "filename") as [[]|]; apply _. Defined.

(** ** RAGSystem.get_faq_response *)

Lemma faq_named_spec (doc : Document) :
  string_named doc ->
  exists b : bool, faq_named doc = Return b /\ (b = true <-> faq_file doc).
Proof.
  unfold string_named, faq_named, faq_file, metadata_get.
  destruct (metadata doc !! "filename") as [[name| | |]|]; simpl; try done; intros _.
  - eexists. split; [done|]. apply py_in_spec.
  - exists false. by split.
Qed.

Lemma first_faq_spec (results : list SearchResult) :
  Forall (fun r => string_named (document r)) results ->
  first_faq results
  = Return (page_content ∘ document <$> head (filter (fun r => faq_file (document r)) results)).
Proof.
  induction 1 as [|r results Hr _ IH]; [done|]. cbn [first_faq].
  destruct (faq_named_spec _ Hr) as (b & -> & Hb). destruct b.
  - rewrite filter_cons_True by (by apply Hb). done.
  - rewrite filter_cons_False; [done|]. intros Hfaq%Hb. done.
Qed.

Section FaqResponse.

Context `{Environment}.

(** X1.  When every result of the search has a string filename or none,
    [get_faq_response] returns the content of the highest-ranked result
    whose filename contains "faq" in any letter case, and [None] when
    there is no such result; the result it answers from reports a row
    that the index returned for the query. *)
Theorem get_faq_response_first (q : string) (fs fs' : gmap string File)
    (self self' : RAGSystem) (results : list SearchResult) :
  ensure_initialized fs self = (Ok tt, (fs', self')) ->
  similarity_search (vector_store self') q None = Ok results ->
  Forall (fun r => string_named (document r)) results ->
  get_faq_response q fs self
  = (Return (page_content ∘ document
             <$> head (filter (fun r => faq_file (document r)) results)),
     (fs', self')) /\
  Forall (fun r => raw_hit (vector_store self') q r)
         (filter (fun r => faq_file (document r)) results).
Proof.
  intros Hinit Hs Hnames. split.
  - unfold get_faq_response. rewrite Hinit, Hs. by rewrite first_faq_spec.
  - apply Forall_forall. intros r [_ Hr]%list_elem_of_filter.
    pose proof (similarity_search_raw_hits _ _ _ Hs) as Hall.
    rewrite Forall_forall in Hall. by apply Hall.
Qed.

End FaqResponse.

Lemma get_faq_response_first_witness :
  @get_faq_response Toy.env "bag" ∅ (Toy.engine [Toy.hoodie; Toy.faq; Toy.cap])
  = (Return (page_content ∘ document
             <$> head (filter (fun r => faq_file (document r))
                              [Demo.cap_first; Demo.faq_second])),
     (∅, Toy.engine [Toy.hoodie; Toy.faq; Toy.cap])) /\
  Forall (fun r =>
            @raw_hit Toy.env (vector_store (Toy.engine [Toy.hoodie; Toy.faq; Toy.cap])) "bag" r)
         (filter (fun r => faq_file (document r)) [Demo.cap_first; Demo.faq_second]).
Proof.
  apply (@get_faq_response_first Toy.env "bag" ∅ ∅
           (Toy.engine [Toy.hoodie; Toy.faq; Toy.cap])
           (Toy.engine [Toy.hoodie; Toy.faq; Toy.cap]) [Demo.cap_first; Demo.faq_second]).
  - reflexivity.
  - vm_compute. reflexivity.
  - repeat constructor.
Defined.

(** * The Record Loader *)

Section LoaderProperties.

Context `{Builtins}.

Lemma json_get_object (fields : list (string * Json)) (key : string) (default : Json) :
  json_get (JObj fields) key default
  = Return (from_option id default (fields_get fields key)).
Proof. reflexivity. Qed.

Lemma product_content_object (fields : list (string * Json)) :
  (exists content, product_content (JObj fields) = Return content) <->
  well_formed_product (JObj fields).
Proof.
  unfold well_formed_product, list_fields, joinable, product_content.
  rewrite !json_get_object. cbn [mbind outcome_bind]. split.
  - intros [content Hc]. exists fields. split; [done|].
    destruct (join_json (from_option id (JArr []) (fields_get fields "sizes")))
      as [s1|] eqn:E1; [|done].
    destruct (join_json (from_option id (JArr []) (fields_get fields "colors")))
      as [s2|] eqn:E2; [|done].
    destruct (join_json (from_option id (JArr []) (fields_get fields "materials")))
      as [s3|] eqn:E3; [|done].
    destruct (join_json (from_option id (JArr []) (fields_get fields "features")))
      as [s4|] eqn:E4; [|done].
    destruct (join_json (from_option id (JArr [])
                           (fields_get fields "customization_options")))
      as [s5|] eqn:E5; [|done].
    repeat (apply Forall_cons_2; [eexists; eassumption|]). apply Forall_nil_2.
  - intros (fields' & [= <-] & Hall).
    apply Forall_cons in Hall as [[s1 ->] Hall].
    apply Forall_cons in Hall as [[s2 ->] Hall].
    apply Forall_cons in Hall as [[s3 ->] Hall].
    apply Forall_cons in Hall as [[s4 ->] Hall].
    apply Forall_cons in Hall as [[s5 ->] _].
    eauto.
Qed.

Lemma product_content_not_object (product : Json) :
  (forall fields, product <> JObj fields) ->
  product_content product = Throw AttributeError.
Proof. intros Hne. destruct product; try done. by destruct (Hne fields). Qed.

Lemma product_document_ok (source : string) (product : Json) :
  (exists doc, product_document source product = Return doc) <->
  well_formed_product product.
Proof.
  split.
  - intros [doc Hdoc]. unfold product_document in Hdoc.
    destruct (product_content product) as [content|e] eqn:Hc; [|done].
    destruct product; try done. apply product_content_object. eauto.
  - intros Hwf. pose proof Hwf as (fields & -> & _).
    apply product_content_object in Hwf as [content Hc].
    unfold product_document. rewrite Hc. cbn [mbind outcome_bind].
    rewrite !json_get_object. eauto.
Qed.

Lemma product_document_records (source : string) (product : Json) (doc : Document) :
  product_document source product = Return doc -> records source doc product.
Proof.
  unfold product_document.
  destruct (product_content product) as [content|e] eqn:Hc; [|done].
  destruct product; try done. cbn [mbind outcome_bind]. rewrite !json_get_object.
  cbn [mbind outcome_bind]. intros [= <-]. unfold records, product_typed.
  split_and!; try (by simplify_map_eq).
  eexists. split; [done|]. by simplify_map_eq.
Qed.

Lemma product_documents_records (source : string) (products : list Json) :
  forall docs, product_documents source products = Return docs ->
  Forall2 (records source) docs products.
Proof.
  induction products as [|p products IH]; intros docs; cbn [product_documents].
  - intros [= <-]. constructor.
  - destruct (product_document source p) as [doc|e] eqn:Hdoc; [|done].
    cbn [mbind outcome_bind].
    destruct (product_documents source products) as [docs'|e]; [|done].
    cbn [mbind outcome_bind]. intros [= <-].
    constructor; [by apply product_document_records|by apply IH].
Qed.

Lemma product_documents_ok (source : string) (products : list Json) :
  (exists docs, product_documents source products = Return docs) <->
  Forall well_formed_product products.
Proof.
  induction products as [|p products IH]; cbn [product_documents].
  - split; [constructor|eauto].
  - rewrite Forall_cons, <- IH, <- (product_document_ok source p). split.
    + intros [docs Hdocs].
      destruct (product_document source p) as [doc|e]; [|done].
      cbn [mbind outcome_bind] in Hdocs.
      destruct (product_documents source products) as [docs'|e]; [|done]. eauto.
    + intros [[doc ->] [docs ->]]. cbn [mbind outcome_bind]. eauto.
Qed.

Lemma customization_document_inv (source : string) (custom_info : Json) (doc : Document) :
  customization_document source custom_info = Return doc ->
  metadata doc !! "type" = Some (MStr "customization_info") /\
  metadata doc !! "filename" = None.
Proof.
  unfold customization_document.
  destruct (customization_content custom_info) as [content|e]; [|done].
  cbn [mbind outcome_bind]. intros [= <-]. by simplify_map_eq.
Qed.

(** X2.  On a catalogue object whose "products" entry is a list, a call
    of [_process_products_json] that returns yields one document per
    product entry, in the order of the entries, each typed "product" and
    carrying the entry's id and the source path, followed by exactly one
    document typed "customization_info" when that key is present and by
    nothing otherwise. *)
Theorem process_products_json_documents (fields : list (string * Json))
    (products : list Json) (source : string) (docs : list Document) :
  fields_get fields "products" = Some (JArr products) ->
  _process_products_json (JObj fields) source = Return docs ->
  exists pdocs cdocs : list Document,
    docs = pdocs ++ cdocs /\
    Forall2 (records source) pdocs products /\
    length cdocs = (if bool_decide (is_Some (fields_get fields "customization_info"))
                    then 1 else 0)%nat /\
    Forall (fun doc => metadata doc !! "type" = Some (MStr "customization_info") /\
                       ~ product_typed doc) cdocs.
Proof.
  intros Hproducts. unfold _process_products_json, json_contains, json_item.
  rewrite Hproducts. cbn [mbind outcome_bind json_iter].
  rewrite (bool_decide_eq_true_2 (is_Some (Some (JArr products)))) by (by eexists).
  destruct (product_documents source products) as [pdocs|e] eqn:Hp; [|done].
  cbn [mbind outcome_bind].
  destruct (fields_get fields "customization_info") as [custom|] eqn:Hc.
  - rewrite bool_decide_eq_true_2 by (by eexists). cbn [mbind outcome_bind].
    destruct (customization_document source custom) as [doc|e] eqn:Hdoc; [|done].
    cbn [mbind outcome_bind]. intros [= <-].
    exists pdocs, [doc]. split_and!; [done|by apply product_documents_records|done|].
    apply customization_document_inv in Hdoc as [Hty _].
    constructor; [|constructor]. split; [done|]. unfold product_typed. by rewrite Hty.
  - rewrite bool_decide_eq_false_2 by (by intros [? ?]). intros [= <-].
    exists pdocs, []. rewrite app_nil_r.
    split_and!; [done|by apply product_documents_records|done|constructor].
Qed.

(** X3.  One product entry that cannot be rendered (it is not an
    object, or one of its list fields cannot be joined) makes
    [load_json_files] drop every document of products.json, also those of
    the well-formed entries; the other files are loaded as if
    products.json were absent. *)
Theorem load_json_files_skips_whole_catalogue (before after : list JsonFile)
    (file : JsonFile) (fields : list (string * Json)) (products : list Json) :
  json_name file = "products.json" ->
  json_data file = Some (JObj fields) ->
  fields_get fields "products" = Some (JArr products) ->
  Exists (fun product => ~ well_formed_product product) products ->
  load_json_file file = [] /\
  load_json_files_from (before ++ file :: after)
  = load_json_files_from (before ++ after).
Proof.
  intros Hname Hdata Hproducts Hbad.
  assert (load_json_file file = []) as Hfile.
  { unfold load_json_file. rewrite Hdata, Hname. simpl String.eqb. cbv iota.
    destruct (_process_products_json (JObj fields) (json_path file)) as [docs|e] eqn:Hp;
      [|done].
    exfalso. unfold _process_products_json, json_contains, json_item in Hp.
    rewrite Hproducts in Hp. cbn [mbind outcome_bind json_iter] in Hp.
    rewrite (bool_decide_eq_true_2 (is_Some (Some (JArr products)))) in Hp
      by (by eexists).
    destruct (product_documents (json_path file) products) as [pdocs|e] eqn:Hpd; [|done].
    assert (Forall well_formed_product products) as Hall
      by (apply (product_documents_ok (json_path file)); eauto).
    apply Exists_exists in Hbad as (p & Hin & Hp').
    rewrite Forall_forall in Hall. by apply Hp', Hall. }
  split; [done|].
  unfold load_json_files_from. rewrite !bind_app, bind_cons, Hfile. done.
Qed.

Lemma product_documents_no_filename (source : string) (products : list Json) :
  forall docs, product_documents source products = Return docs ->
  Forall (fun doc => metadata doc !! "filename" = None) docs.
Proof.
  intros docs Hdocs%product_documents_records.
  induction Hdocs as [|doc p docs ps (_ & _ & Hnone & _) _ IH]; by constructor.
Qed.

Lemma process_products_json_no_filename (data : Json) (source : string)
    (docs : list Document) :
  _process_products_json data source = Return docs ->
  Forall (fun doc => metadata doc !! "filename" = None) docs.
Proof.
  unfold _process_products_json.
  destruct (json_contains data "products") as [has_products|e]; [|done].
  cbn [mbind outcome_bind].
  match goal with |- context [mbind _ ?m] =>
    destruct m as [pdocs|e] eqn:Hp; [|done] end.
  assert (Forall (fun doc => metadata doc !! "filename" = None) pdocs) as Hproducts.
  { destruct has_products; [|by injection Hp as <-].
    destruct (json_item data "products" ≫= json_iter) as [products|e]; [|done].
    cbn [mbind outcome_bind] in Hp. by eapply product_documents_no_filename. }
  cbn [mbind outcome_bind].
  destruct (json_contains data "customization_info") as [[]|e]; [| |done];
    cbn [mbind outcome_bind].
  - destruct (json_item data "customization_info") as [custom|e]; [|done].
    cbn [mbind outcome_bind].
    destruct (customization_document source custom) as [doc|e] eqn:Hdoc; [|done].
    cbn [mbind outcome_bind]. intros [= <-].
    apply customization_document_inv in Hdoc as [_ Hnone].
    apply Forall_app. split; [done|by repeat constructor].
  - by intros [= <-].
Qed.

Lemma content_with_source_unknown (doc : Document) :
  metadata doc !! "filename" = None ->
  content_with_source doc = unknown_block doc /\ faq_named doc = Return false.
Proof.
  intros Hnone. unfold content_with_source, unknown_block, faq_named, metadata_get.
  by rewrite Hnone.
Qed.

(** X4.  No document [_process_products_json] builds has a filename: in
    the context returned by [get_relevant_context] its block is labelled
    "[Source: unknown]", and the filename test of [get_faq_response] is
    false on it. *)
Theorem process_products_json_unlabelled (data : Json) (source : string)
    (docs : list Document) :
  _process_products_json data source = Return docs ->
  Forall (fun doc => content_with_source doc = unknown_block doc /\
                     faq_named doc = Return false) docs.
Proof.
  intros Hdocs%process_products_json_no_filename.
  eapply Forall_impl; [exact Hdocs|]. intros doc. apply content_with_source_unknown.
Qed.

Lemma load_json_file_string_named (file : JsonFile) :
  Forall string_named (load_json_file file).
Proof.
  unfold load_json_file. destruct (json_data file) as [data|]; [|constructor].
  destruct (String.eqb (json_name file) "products.json").
  - destruct (_process_products_json data (json_path file)) as [docs|e] eqn:Hp;
      [|constructor].
    apply process_products_json_no_filename in Hp.
    eapply Forall_impl; [exact Hp|]. intros doc Hnone. unfold string_named.
    by rewrite Hnone.
  - repeat constructor.
Qed.

Lemma load_markdown_file_string_named (file : MarkdownFile) :
  Forall string_named (load_markdown_file file).
Proof.
  unfold load_markdown_file. destruct (md_text file) as [text|]; [|constructor].
  repeat constructor.
Qed.

(** X5.  Every document the two loaders produce has a string filename
    or none, so the filename test of [get_faq_response] returns on it;
    it does not raise AttributeError. *)
Theorem loaded_documents_string_named (markdown_files : list MarkdownFile)
    (json_files : list JsonFile) :
  Forall (fun doc => string_named doc /\ exists b, faq_named doc = Return b)
         (load_markdown_files_from markdown_files ++ load_json_files_from json_files).
Proof.
  assert (Forall string_named
            (load_markdown_files_from markdown_files ++ load_json_files_from json_files))
    as Hall.
  { apply Forall_app. split.
    - unfold load_markdown_files_from. apply Forall_bind, Forall_forall.
      intros file _. apply load_markdown_file_string_named.
    - unfold load_json_files_from. apply Forall_bind, Forall_forall.
      intros file _. apply load_json_file_string_named. }
  eapply Forall_impl; [exact Hall|]. intros doc Hdoc. split; [done|].
  destruct (faq_named_spec doc Hdoc) as (b & Hb & _). eauto.
Qed.

End LoaderProperties.

Lemma process_products_json_documents_witness :
  exists pdocs cdocs : list Document,
    Catalogue.documents = pdocs ++ cdocs /\
    Forall2 (@records Catalogue.builtins "products.json") pdocs
            [Catalogue.hoodie; Catalogue.cap] /\
    length cdocs
    = (if bool_decide (is_Some (fields_get Catalogue.data "customization_info"))
       then 1 else 0)%nat /\
    Forall (fun doc => metadata doc !! "type" = Some (MStr "customization_info") /\
                       ~ product_typed doc) cdocs.
Proof.
  apply (@process_products_json_documents Catalogue.builtins Catalogue.data
           [Catalogue.hoodie; Catalogue.cap] "products.json" Catalogue.documents).
  - reflexivity.
  - vm_compute. reflexivity.
Defined.

Lemma load_json_files_skips_whole_catalogue_witness :
  @load_json_file Catalogue.builtins
    (Catalogue.products_file [Catalogue.hoodie; Catalogue.broken]) = [] /\
  @load_json_files_from Catalogue.builtins
    ([Catalogue.notes_file]
     ++ Catalogue.products_file [Catalogue.hoodie; Catalogue.broken] :: [])
  = @load_json_files_from Catalogue.builtins ([Catalogue.notes_file] ++ []).
Proof.
  apply (@load_json_files_skips_whole_catalogue Catalogue.builtins
           [Catalogue.notes_file] []
           (Catalogue.products_file [Catalogue.hoodie; Catalogue.broken])
           [("products", JArr [Catalogue.hoodie; Catalogue.broken]);
            ("customization_info", JObj [("maximum_colors", JInt 6)])]
           [Catalogue.hoodie; Catalogue.broken]).
  - reflexivity.
  - reflexivity.
  - reflexivity.
  - apply (bool_decide_unpack _). vm_compute. reflexivity.
Defined.

Lemma process_products_json_unlabelled_witness :
  Forall (fun doc => content_with_source doc = unknown_block doc /\
                     faq_named doc = Return false) Catalogue.documents.
Proof.
  apply (@process_products_json_unlabelled Catalogue.builtins
           (JObj Catalogue.data) "products.json" Catalogue.documents).
  vm_compute. reflexivity.
Defined.

(** * The intent classifier *)

Lemma max_value_zero (first : nat) (rest : list nat) :
  max_value first rest = 0%nat <-> first = 0%nat /\ Forall (fun n => n = 0%nat) rest.
Proof.
  unfold max_value. revert first. induction rest as [|n rest IH]; intros first; simpl.
  - split; [by intros ->|by intros [-> _]].
  - rewrite IH, Forall_cons.
    assert (Nat.max first n = 0 <-> first = 0 /\ n = 0)%nat as -> by lia. tauto.
Qed.

(** The key [max_key] returns is the first one with the largest score. *)
Lemma max_key_first_max (rest : list (QueryType * nat)) :
  forall best : QueryType * nat,
  exists i : nat,
    (best :: rest) !! i = Some (max_key best rest) /\
    forall (j : nat) (e : QueryType * nat),
      (best :: rest) !! j = Some e ->
      (e.2 <= (max_key best rest).2)%nat /\
      ((j < i)%nat -> (e.2 < (max_key best rest).2)%nat).
Proof.
  induction rest as [|entry rest IH]; intros best; cbn [max_key].
  - exists 0%nat. split; [done|]. intros [|j] e; [|done]. intros [= <-]. lia.
  - destruct (best.2 <? entry.2)%nat eqn:Hlt.
    + apply Nat.ltb_lt in Hlt. destruct (IH entry) as (i & Hi & Hmax).
      exists (S i). split; [done|]. intros [|j] e He.
      * injection He as <-. destruct (Hmax 0%nat entry eq_refl) as [Hle _]. lia.
      * destruct (Hmax j e He) as [Hle Hlt']. split; [done|]. intros ?. apply Hlt'. lia.
    + apply Nat.ltb_ge in Hlt. destruct (IH best) as (i & Hi & Hmax).
      destruct (Hmax 0%nat best eq_refl) as [Hbest Hbest'].
      destruct i as [|i].
      * exists 0%nat. split; [done|]. intros [|[|j]] e He.
        -- injection He as <-. lia.
        -- injection He as <-. lia.
        -- destruct (Hmax (S j) e He) as [Hle _]. lia.
      * exists (S (S i)). split; [done|]. intros [|[|j]] e He.
        -- injection He as <-. split; [done|]. intros _. apply Hbest'. lia.
        -- injection He as <-. specialize (Hbest' ltac:(lia)). lia.
        -- destruct (Hmax (S j) e He) as [Hle Hlt']. split; [done|].
           intros ?. apply Hlt'. lia.
Qed.

Lemma keywords_of_lookup (items : list (QueryType * list string)) :
  forall (i : nat) (t : QueryType) (keywords : list string),
  NoDup items.*1 ->
  items !! i = Some (t, keywords) ->
  keywords_of items t = Return keywords.
Proof.
  induction items as [|[k kws] items IH]; intros i t keywords Hnd Hi; [done|].
  rewrite fmap_cons in Hnd. apply NoDup_cons in Hnd as [Hnotin Hnd].
  cbn [keywords_of]. destruct i as [|i].
  - injection Hi as -> ->. by rewrite decide_True.
  - simpl in Hi. rewrite decide_False; [by eapply IH|].
    intros ->. apply Hnotin. apply list_elem_of_fmap. exists (t, keywords).
    split; [done|]. by eapply list_elem_of_lookup_2.
Qed.

Lemma keyword_score_le (text : string) (keywords : list string) :
  (keyword_score text keywords <= length keywords)%nat.
Proof. unfold keyword_score. apply List.filter_length_le. Qed.

Lemma keyword_score_zero (text : string) (keywords : list string) :
  keyword_score text keywords = 0%nat <->
  forall keyword, keyword ∈ keywords -> ~ occurs_in keyword text.
Proof.
  unfold keyword_score. induction keywords as [|k keywords IH]; simpl.
  - split; [|done]. intros _ keyword Hin. by apply elem_of_nil in Hin.
  - destruct (py_in k text) eqn:Hin; simpl.
    + split; [done|]. intros Hnone. exfalso. apply (Hnone k); [left|].
      by apply py_in_spec.
    + rewrite IH. split.
      * intros Hnone keyword [->|Hk]%elem_of_cons; [|by apply Hnone].
        intros Hocc%py_in_spec. congruence.
      * intros Hnone keyword Hk. apply Hnone. by right.
Qed.

Lemma py_min_ratio (score n : nat) :
  (0 < score <= n)%nat ->
  py_min (Z.of_nat score # Pos.of_nat n) 1 = (Z.of_nat score # Pos.of_nat n).
Proof.
  intros Hs. unfold py_min.
  assert (Qle_bool (Z.of_nat score # Pos.of_nat n) 1 = true) as ->; [|done].
  apply Qle_bool_iff. unfold Qle. simpl. lia.
Qed.

(** The two outcomes of [classify_intent] on a table with distinct keys. *)
Lemma classify_intent_cases (self : IntentClassifier) (text : string) :
  NoDup (intent_keywords self).*1 ->
  (Forall (fun entry => keyword_score (py_lower text) entry.2 = 0%nat)
          (intent_keywords self) /\
   classify_intent self text = Return (GENERAL_CHAT, 1 # 2)) \/
  (exists (i : nat) (t : QueryType) (keywords : list string),
     intent_keywords self !! i = Some (t, keywords) /\
     (0 < keyword_score (py_lower text) keywords <= length keywords)%nat /\
     (forall (j : nat) (entry : QueryType * list string),
        intent_keywords self !! j = Some entry ->
        (keyword_score (py_lower text) entry.2
         <= keyword_score (py_lower text) keywords)%nat /\
        ((j < i)%nat ->
         (keyword_score (py_lower text) entry.2
          < keyword_score (py_lower text) keywords)%nat)) /\
     classify_intent self text
     = Return (t, Z.of_nat (keyword_score (py_lower text) keywords)
                  # Pos.of_nat (length keywords))).
Proof.
  intros Hnd. unfold classify_intent. cbv zeta.
  set (score := keyword_score (py_lower text)).
  destruct (intent_scores (intent_keywords self) (py_lower text))
    as [|first rest] eqn:Hscores.
  { left. split; [|done]. unfold intent_scores in Hscores.
    apply fmap_nil_inv in Hscores. rewrite Hscores. constructor. }
  assert (forall j e, (first :: rest) !! j = Some e <->
            exists entry, intent_keywords self !! j = Some entry /\
                          e = (entry.1, score entry.2)) as Hlookup.
  { intros j e. rewrite <- Hscores. unfold intent_scores.
    rewrite list_lookup_fmap. destruct (intent_keywords self !! j) as [entry|]; simpl.
    - split; [intros [= <-]; eauto|]. by intros (entry' & [= <-] & ->).
    - split; [done|]. by intros (entry' & ? & _). }
  destruct (max_value first.2 rest.*2 =? 0)%nat eqn:Hmax.
  - left. split; [|done]. apply Nat.eqb_eq, max_value_zero in Hmax as [Hfirst Hrest].
    apply Forall_lookup. intros j entry Hentry.
    assert ((first :: rest) !! j = Some (entry.1, score entry.2)) as He
      by (apply Hlookup; eauto).
    destruct j as [|j]; [by injection He as ->|].
    simpl in He. rewrite Forall_fmap, Forall_lookup in Hrest.
    by specialize (Hrest j _ He).
  - right. apply Nat.eqb_neq in Hmax.
    destruct (max_key_first_max rest first) as (i & Hi & Hbest).
    apply Hlookup in Hi as ([t keywords] & Htable & Hr). rewrite Hr in *. simpl in *.
    assert (0 < score keywords)%nat as Hpos.
    { destruct (decide (score keywords = 0)%nat) as [Hz|]; [|lia].
      exfalso. apply Hmax. apply max_value_zero.
      assert (forall j e, (first :: rest) !! j = Some e -> e.2 = 0%nat) as Hall.
      { intros j e He. destruct (Hbest j e He) as [Hle _]. lia. }
      split; [by apply (Hall 0%nat)|].
      rewrite Forall_fmap. apply Forall_lookup. intros j e He. by apply (Hall (S j)). }
    pose proof (keyword_score_le (py_lower text) keywords) as Hle. fold score in Hle.
    exists i, t, keywords. split_and!; try done.
    + intros j entry Hentry.
      apply (Hbest j (entry.1, score entry.2)). apply Hlookup. eauto.
    + rewrite (keywords_of_lookup _ _ _ _ Hnd Htable). cbn [mbind outcome_bind].
      destruct (length keywords =? 0)%nat eqn:Hlen; [apply Nat.eqb_eq in Hlen; lia|].
      by rewrite py_min_ratio by lia.
Qed.

Lemma intent_keys_distinct : NoDup (intent_keywords IntentClassifier_init).*1.
Proof. apply (bool_decide_unpack _). vm_compute. reflexivity. Qed.

Lemma intent_keys_not_general (i : nat) (t : QueryType) (keywords : list string) :
  intent_keywords IntentClassifier_init !! i = Some (t, keywords) -> t <> GENERAL_CHAT.
Proof.
  intros Hi ->. apply list_elem_of_lookup_2 in Hi. simpl in Hi.
  repeat (apply elem_of_cons in Hi as [Hi|Hi]; [done|]). by apply elem_of_nil in Hi.
Qed.

(** X6.  [classify_intent] answers GENERAL_CHAT exactly when no keyword
    of any query type occurs in the lowercased input, and then with
    confidence 0.5. *)
Theorem classify_intent_general_chat (text : string) (c : Q) :
  classify_intent IntentClassifier_init text = Return (GENERAL_CHAT, c) <->
  c = 1 # 2 /\
  forall (t : QueryType) (keywords : list string) (keyword : string),
    (t, keywords) ∈ intent_keywords IntentClassifier_init ->
    keyword ∈ keywords ->
    ~ occurs_in keyword (py_lower text).
Proof.
  destruct (classify_intent_cases IntentClassifier_init text intent_keys_distinct)
    as [[Hzero ->]|(i & t & keywords & Hi & Hpos & _ & ->)].
  - rewrite Forall_forall in Hzero. split.
    + intros [= <-]. split; [done|]. intros t keywords keyword Hin.
      by apply keyword_score_zero, (Hzero (t, keywords)).
    + by intros [-> _].
  - split.
    + intros [= -> _]. by apply intent_keys_not_general in Hi.
    + intros [_ Hnone]. exfalso.
      assert (keyword_score (py_lower text) keywords = 0%nat); [|lia].
      apply keyword_score_zero. intros keyword. apply (Hnone t).
      by eapply list_elem_of_lookup_2.
Qed.

(** X7.  [classify_intent] always returns.  When it does not answer
    GENERAL_CHAT it answers the query type whose keywords occur most
    often in the lowercased input, the earliest in the order of the table
    among those with the highest count, and its confidence is that count
    divided by the number of keywords of the type. *)
Theorem classify_intent_best (text : string) :
  exists (t : QueryType) (c : Q),
    classify_intent IntentClassifier_init text = Return (t, c) /\
    (t = GENERAL_CHAT \/
     exists (i : nat) (keywords : list string),
       intent_keywords IntentClassifier_init !! i = Some (t, keywords) /\
       c = (Z.of_nat (keyword_score (py_lower text) keywords)
            # Pos.of_nat (length keywords)) /\
       forall (j : nat) (entry : QueryType * list string),
         intent_keywords IntentClassifier_init !! j = Some entry ->
         (keyword_score (py_lower text) entry.2
          <= keyword_score (py_lower text) keywords)%nat /\
         ((j < i)%nat ->
          (keyword_score (py_lower text) entry.2
           < keyword_score (py_lower text) keywords)%nat)).
Proof.
  destruct (classify_intent_cases IntentClassifier_init text intent_keys_distinct)
    as [[_ ->]|(i & t & keywords & Hi & _ & Hbest & ->)].
  - exists GENERAL_CHAT, (1 # 2). split; [done|by left].
  - eexists t, _. split; [done|]. right. by exists i, keywords.
Qed.

(** X8.  The confidence [classify_intent] returns is always greater
    than 0 and at most 1: the count of matching keywords never exceeds the
    number of keywords, so the final [min(confidence, 1.0)] never changes
    the value. *)
Theorem classify_intent_confidence (text : string) :
  exists (t : QueryType) (c : Q),
    classify_intent IntentClassifier_init text = Return (t, c) /\
    (0 < c)%Q /\ (c <= 1)%Q.
Proof.
  destruct (classify_intent_cases IntentClassifier_init text intent_keys_distinct)
    as [[_ ->]|(i & t & keywords & _ & Hpos & _ & ->)].
  - exists GENERAL_CHAT, (1 # 2). split; [done|]. split; reflexivity || done.
  - eexists t, _. split; [done|]. unfold Qlt, Qle. simpl. lia.
Qed.

(** * The design engine *)

(** ** Computations that draw random numbers *)

Lemma returns_ret {A} (a : A) (P : A -> Prop) : P a -> returns (mret a) P.
Proof. intros Ha rng. by exists a, rng. Qed.

Lemma returns_lift {A} (o : outcome A) (a : A) (P : A -> Prop) :
  o = Return a -> P a -> returns (lift o) P.
Proof. intros -> Ha rng. by exists a, rng. Qed.

Lemma returns_bind {A B} (m : Rand A) (f : A -> Rand B) (P : A -> Prop) (Q : B -> Prop) :
  returns m P -> (forall a, P a -> returns (f a) Q) -> returns (m ≫= f) Q.
Proof.
  intros Hm Hf rng. destruct (Hm rng) as (a & rng1 & Hrun & Ha).
  destruct (Hf a Ha rng1) as (b & rng2 & Hrun' & Hb).
  exists b, rng2. unfold mbind, rand_bind. by rewrite Hrun.
Qed.

Lemma returns_weaken {A} (m : Rand A) (P Q : A -> Prop) :
  returns m P -> (forall a, P a -> Q a) -> returns m Q.
Proof.
  intros Hm HPQ rng. destruct (Hm rng) as (a & rng' & Hrun & Ha). exists a, rng'. auto.
Qed.

Lemma raises_bind {A B} (m : Rand A) (f : A -> Rand B) (e : error) :
  raises m e -> raises (m ≫= f) e.
Proof.
  intros Hm rng. destruct (Hm rng) as (rng' & Hrun).
  exists rng'. unfold mbind, rand_bind. by rewrite Hrun.
Qed.

Lemma returns_raises {A B} (m : Rand A) (f : A -> Rand B) (P : A -> Prop) (e : error) :
  returns m P -> (forall a, P a -> raises (f a) e) -> raises (m ≫= f) e.
Proof.
  intros Hm Hf rng. destruct (Hm rng) as (a & rng1 & Hrun & Ha).
  destruct (Hf a Ha rng1) as (rng2 & Hrun').
  exists rng2. unfold mbind, rand_bind. by rewrite Hrun.
Qed.

Lemma returns_bind_lift {A B} (o : outcome A) (a : A) (f : A -> Rand B)
    (Q : B -> Prop) :
  o = Return a -> returns (f a) Q -> returns (lift o ≫= f) Q.
Proof. intros -> Hf rng. apply Hf. Qed.

Lemma raises_lift {A} (o : outcome A) (e : error) : o = Throw e -> raises (lift o) e.
Proof. intros -> rng. by exists rng. Qed.

Lemma returns_randbelow (n : nat) :
  (0 < n)%nat -> returns (randbelow n) (fun i => (i < n)%nat).
Proof.
  intros Hn rng. unfold randbelow.
  destruct (n =? 0)%nat eqn:Hz; [apply Nat.eqb_eq in Hz; lia|].
  destruct rng as [|r rest].
  - by exists 0%nat, [].
  - exists (r mod n)%nat, rest. split; [done|]. apply Nat.mod_upper_bound. lia.
Qed.

Lemma returns_choice {A} (seq : list A) :
  seq <> [] -> returns (choice seq) (fun x => x ∈ seq).
Proof.
  intros Hne. unfold choice. destruct seq as [|x0 seq0]; [done|].
  set (seq := x0 :: seq0) in *.
  eapply returns_bind; [apply returns_randbelow; simpl; lia|].
  intros i Hi. cbv beta.
  destruct (lookup_lt_is_Some_2 seq i Hi) as [x Hx]. rewrite Hx.
  apply returns_ret. by eapply list_elem_of_lookup_2.
Qed.

Lemma sample_step {A} (pool : list A) (j : nat) (x y : A) :
  pool !! j = Some x -> last pool = Some y ->
  x :: take (length pool - 1) (<[j := y]> pool) ≡ₚ pool.
Proof.
  intros Hj Hlast. apply last_Some in Hlast as [init ->].
  rewrite length_app. simpl. replace (length init + 1 - 1)%nat with (length init) by lia.
  destruct (decide (j < length init)%nat) as [Hlt|Hge].
  - rewrite lookup_app_l in Hj by done.
    rewrite insert_app_l by done.
    rewrite take_app_length' by (by rewrite length_insert).
    apply list_elem_of_split_length in Hj as (a & b & -> & ->).
    rewrite insert_app_r_alt by done. rewrite Nat.sub_diag. simpl.
    rewrite <- !app_assoc. simpl.
    rewrite <- !Permutation_middle. by rewrite app_nil_r.
  - assert (j = length init) as ->.
    { apply lookup_lt_Some in Hj. rewrite length_app in Hj. simpl in Hj. lia. }
    rewrite list_lookup_middle in Hj by done. injection Hj as <-.
    rewrite insert_app_r_alt by done. rewrite Nat.sub_diag. simpl.
    rewrite take_app_length. by rewrite Permutation_app_comm.
Qed.

Lemma returns_sample_pool {A} (k : nat) :
  forall pool : list A,
  (k <= length pool)%nat ->
  returns (sample_pool pool k)
          (fun chosen => length chosen = k /\ exists rest, chosen ++ rest ≡ₚ pool).
Proof.
  induction k as [|k IH]; intros pool Hk; cbn [sample_pool].
  - apply returns_ret. split; [done|]. by exists pool.
  - eapply returns_bind; [apply returns_randbelow; lia|].
    intros j Hj. cbv beta.
    destruct (lookup_lt_is_Some_2 pool j Hj) as [x Hx]. rewrite Hx.
    destruct (last pool) as [y|] eqn:Hlast.
    2: { apply last_None in Hlast. subst pool. simpl in Hk. lia. }
    eapply returns_bind.
    + apply IH. rewrite length_take, length_insert. lia.
    + intros chosen [Hlen (rest & Hperm)]. apply returns_ret.
      split; [simpl; lia|]. exists rest. simpl. rewrite Hperm.
      by apply sample_step.
Qed.

Lemma returns_sample {A} (population : list A) (k : nat) :
  (k <= length population)%nat ->
  returns (sample population k)
          (fun chosen => length chosen = k /\ exists rest, chosen ++ rest ≡ₚ population).
Proof.
  intros Hk. unfold sample.
  destruct (length population <? k)%nat eqn:Hlt; [apply Nat.ltb_lt in Hlt; lia|].
  by apply returns_sample_pool.
Qed.

Lemma dict_item_elem {A} (items : list (string * A)) (key : string) :
  key ∈ items.*1 ->
  exists v, dict_item items key = Return v /\ (key, v) ∈ items.
Proof.
  induction items as [|[k v] items IH]; intros Hin; [by apply elem_of_nil in Hin|].
  cbn [dict_item]. destruct (String.eqb k key) eqn:Hk.
  - apply String.eqb_eq in Hk as ->. exists v. split; [done|left].
  - rewrite fmap_cons in Hin. apply elem_of_cons in Hin as [->|Hin].
    + by rewrite String.eqb_refl in Hk.
    + destruct (IH Hin) as (v' & -> & Hv'). exists v'. split; [done|by right].
Qed.

(** ** The tables of the database *)

Lemma palettes_have_three :
  Forall (fun palette : list string => (3 <= length palette)%nat /\ NoDup palette)
         color_palettes.*2.
Proof. apply (bool_decide_unpack _). vm_compute. reflexivity. Qed.

Lemma art_styles_have_patterns :
  Forall (fun entry : string * ArtStyle => patterns entry.2 <> []) art_styles.
Proof. apply (bool_decide_unpack _). vm_compute. reflexivity. Qed.

Lemma themes_have_elements :
  Forall (fun entry : string * list string => entry.2 <> []) themes.
Proof. apply (bool_decide_unpack _). vm_compute. reflexivity. Qed.

Lemma palette_colors_have_codes :
  Forall (fun palette : list string =>
            Forall (fun color => get_color_code color <> "#cccccc") palette)
         color_palettes.*2.
Proof. apply (bool_decide_unpack _). vm_compute. reflexivity. Qed.

(** ** analyze_preferences *)

Lemma filter_keys {A} (f : string * A -> bool) (items : list (string * A)) :
  Forall (fun key => key ∈ items.*1) (List.filter f items).*1.
Proof.
  apply Forall_forall. intros key Hkey.
  apply list_elem_of_fmap in Hkey as (entry & -> & Hentry).
  apply list_elem_of_In, List.filter_In in Hentry as [Hentry _].
  apply list_elem_of_fmap. exists entry. split; [done|]. by apply list_elem_of_In.
Qed.

Lemma detect_colors_palette (palettes : list (string * list string)) (text : string) :
  detect_colors palettes text = [] \/
  exists palette, palette ∈ palettes.*2 /\ detect_colors palettes text = take 3 palette.
Proof.
  induction palettes as [|[name colors] palettes IH]; [by left|].
  cbn [detect_colors]. destruct (py_in name text || any_in colors text).
  - right. exists colors. split; [left|done].
  - destruct IH as [IH|(palette & Hin & IH)]; [by left|].
    right. exists palette. split; [by right|done].
Qed.

Lemma analyze_preferences_sound (user_input : string) :
  sound_preferences (analyze_preferences user_input).
Proof.
  unfold sound_preferences, analyze_preferences. cbn [pref_styles pref_themes pref_colors].
  split_and!; [apply filter_keys|apply filter_keys|apply detect_colors_palette].
Qed.

(** ** Building one suggestion *)

Lemma format_colors_returns (colors : list string) :
  colors <> [] -> exists text, _format_colors colors = Return text.
Proof.
  intros Hne. unfold _format_colors.
  destruct colors as [|c1 [|c2 [|c3 colors]]]; [done|eauto|eauto|].
  destruct (last (c1 :: c2 :: c3 :: colors)) as [final|] eqn:Hlast; [eauto|].
  by apply last_None in Hlast.
Qed.

Lemma returns_create_description (style : string) (colors : list string)
    (pattern theme_element placement vibe complexity : string) :
  colors <> [] ->
  style ∈ art_styles.*1 ->
  returns (_create_description style colors pattern theme_element placement
                               vibe complexity)
          (fun _ => True).
Proof.
  intros Hcolors Hstyle. unfold _create_description.
  destruct (format_colors_returns colors Hcolors) as [color_desc Hdesc].
  eapply returns_bind; [by eapply (returns_lift _ _ (fun c => c = color_desc))|].
  intros ? ->. cbv zeta.
  eapply returns_bind; [by apply returns_choice|]. intros base _.
  eapply (returns_bind _ _ (fun _ => True)).
  - repeat (case_match; [by apply returns_ret|]).
    destruct (dict_item_elem art_styles style Hstyle) as (data & Hdata & _).
    eapply returns_bind; [by eapply (returns_lift _ _ (fun d => d = data))|].
    intros ? ->. by apply returns_ret.
  - intros style_detail _.
    eapply returns_bind; [by apply returns_choice|]. intros finishing _.
    by apply returns_ret.
Qed.

Lemma sampled_palette_colors (palette chosen rest : list string) :
  palette ∈ color_palettes.*2 ->
  length chosen = 3%nat ->
  chosen ++ rest ≡ₚ palette ->
  palette_colors chosen.
Proof.
  intros Hpalette Hlen Hperm.
  pose proof palettes_have_three as Hall. rewrite Forall_forall in Hall.
  destruct (Hall palette Hpalette) as [_ Hnd].
  rewrite <- Hperm in Hnd. apply NoDup_app in Hnd as (Hnd & _ & _).
  split_and!; [done|done|]. exists palette. split; [done|].
  intros color Hcolor. rewrite <- Hperm. apply elem_of_app. by left.
Qed.

Lemma returns_colors (p : Preferences) :
  sound_preferences p ->
  returns (match pref_colors p with
           | [] =>
               palette ← choice color_palettes.*2;
               sample palette (Nat.min (length palette) 3)
           | colors => sample colors (Nat.min (length colors) 3)
           end)
          palette_colors.
Proof.
  intros (_ & _ & Hcolors).
  pose proof palettes_have_three as Hall. rewrite Forall_forall in Hall.
  destruct Hcolors as [->|(palette & Hpalette & Hcolors)].
  - eapply returns_bind; [by apply returns_choice|].
    intros palette Hpalette. destruct (Hall palette Hpalette) as [Hthree _].
    eapply returns_weaken; [apply returns_sample; lia|].
    intros chosen (Hlen & rest & Hperm).
    apply (sampled_palette_colors palette chosen rest); [done|lia|done].
  - destruct (Hall palette Hpalette) as [Hthree Hnd].
    assert (length (take 3 palette) = 3%nat) as Hlen by (rewrite length_take; lia).
    rewrite Hcolors.
    destruct (take 3 palette) as [|c colors] eqn:Htake; [done|].
    eapply returns_weaken; [apply returns_sample; lia|].
    intros chosen (Hchosen & rest & Hperm). rewrite <- Htake in Hperm.
    apply (sampled_palette_colors palette chosen (rest ++ drop 3 palette));
      [done|lia|].
    by rewrite app_assoc, Hperm, take_drop.
Qed.

Lemma returns_create_single_suggestion (p : Preferences) (garment_type : string)
    (variation : nat) :
  sound_preferences p ->
  returns (_create_single_suggestion p garment_type variation)
          (fun s => well_formed_suggestion s /\
                    s_id s = "design_" +:+ pretty (variation + 1)%nat /\
                    s_garment_type s = garment_type /\
                    s_vibe s = pref_vibe p /\
                    s_complexity s = pref_complexity p /\
                    s_trending s = None).
Proof.
  intros Hp. pose proof Hp as (Hstyles & Hthemes & _).
  unfold _create_single_suggestion.
  eapply (returns_bind _ _ (fun style => style ∈ art_styles.*1)).
  { destruct (pref_styles p) as [|style styles] eqn:Hs; [by apply returns_choice|].
    eapply returns_weaken; [by apply returns_choice|].
    intros style' Hin. rewrite Forall_forall in Hstyles. by apply Hstyles. }
  intros style Hstyle.
  destruct (dict_item_elem art_styles style Hstyle) as (style_data & Hdata & Hentry).
  eapply returns_bind; [by eapply (returns_lift _ _ (fun d => d = style_data))|].
  intros ? ->.
  eapply returns_bind; [by apply returns_colors|]. intros colors Hcolors.
  eapply (returns_bind _ _ (fun theme => theme ∈ themes.*1)).
  { destruct (pref_themes p) as [|theme chosen] eqn:Ht; [by apply returns_choice|].
    eapply returns_weaken; [by apply returns_choice|].
    intros theme' Hin. rewrite Forall_forall in Hthemes. by apply Hthemes. }
  intros theme Htheme.
  destruct (dict_item_elem themes theme Htheme) as (elements & Helements & Hentry').
  eapply returns_bind; [by eapply (returns_lift _ _ (fun d => d = elements))|].
  intros ? ->.
  eapply returns_bind.
  { apply returns_choice. pose proof art_styles_have_patterns as Hall.
    rewrite Forall_forall in Hall. apply (Hall _ Hentry). }
  intros pattern Hpattern.
  eapply returns_bind; [by apply returns_choice|]. intros placement_key Hkey.
  destruct (dict_item_elem placement_options placement_key Hkey)
    as (placement & Hplacement & _).
  eapply returns_bind; [by eapply (returns_lift _ _ (fun d => d = placement))|].
  intros ? ->.
  eapply returns_bind.
  { apply returns_choice. pose proof themes_have_elements as Hall.
    rewrite Forall_forall in Hall. apply (Hall _ Hentry'). }
  intros theme_element Helement.
  pose proof Hcolors as (Hlen & _).
  eapply returns_bind.
  { apply returns_create_description; [|done]. by destruct colors. }
  intros description _. apply returns_ret.
  unfold well_formed_suggestion. simpl. rewrite Hlen.
  split_and!; try done; eauto.
Qed.

Lemma returns_suggestions_from (p : Preferences) (garment_type : string) (count : nat) :
  sound_preferences p ->
  forall i : nat,
  returns (suggestions_from p garment_type i count)
          (fun suggestions =>
             length suggestions = count /\
             s_id <$> suggestions
             = (fun k => "design_" +:+ pretty (k + 1)%nat) <$> seq i count /\
             Forall (fun s => well_formed_suggestion s /\
                              s_garment_type s = garment_type /\
                              s_vibe s = pref_vibe p /\
                              s_complexity s = pref_complexity p /\
                              s_trending s = None) suggestions).
Proof.
  intros Hp. induction count as [|count IH]; intros i; cbn [suggestions_from].
  - by apply returns_ret.
  - eapply returns_bind; [by apply returns_create_single_suggestion|].
    intros s (Hwf & Hid & Hrest).
    eapply returns_bind; [apply IH|].
    intros suggestions (Hlen & Hids & Hall). apply returns_ret.
    split_and!.
    + simpl. by rewrite Hlen.
    + cbn [seq]. by rewrite !fmap_cons, Hid, Hids.
    + by constructor.
Qed.

(** ** generate_suggestions *)

Lemma returns_generate_suggestions (user_input garment_type : string)
    (num_suggestions : option Z) :
  returns (generate_suggestions user_input garment_type num_suggestions)
          (fun suggestions =>
             length suggestions
             = Z.to_nat (py_or num_suggestions design_max_suggestions) /\
             s_id <$> suggestions
             = (fun k => "design_" +:+ pretty (k + 1)%nat)
               <$> seq 0 (Z.to_nat (py_or num_suggestions design_max_suggestions)) /\
             Forall (fun s => well_formed_suggestion s /\
                              s_garment_type s = garment_type /\
                              s_vibe s = pref_vibe (analyze_preferences user_input) /\
                              s_complexity s
                              = pref_complexity (analyze_preferences user_input) /\
                              s_trending s = None) suggestions).
Proof.
  unfold generate_suggestions. cbv zeta.
  apply returns_suggestions_from, analyze_preferences_sound.
Qed.

(** X9.  Whatever the random generator draws, [generate_suggestions]
    returns without raising: it yields as many suggestions as asked for
    (three when the number is omitted or 0, none when it is negative),
    numbered design_1, design_2, ... in order, all for the garment type
    given. *)
Theorem generate_suggestions_count (user_input garment_type : string)
    (num_suggestions : option Z) :
  returns (generate_suggestions user_input garment_type num_suggestions)
          (fun suggestions =>
             length suggestions
             = Z.to_nat (py_or num_suggestions design_max_suggestions) /\
             s_id <$> suggestions
             = (fun k => "design_" +:+ pretty (k + 1)%nat)
               <$> seq 0 (length suggestions) /\
             Forall (fun s => s_garment_type s = garment_type) suggestions).
Proof.
  eapply returns_weaken; [apply returns_generate_suggestions|].
  intros suggestions (Hlen & Hids & Hall). split_and!; [done|by rewrite Hlen|].
  eapply Forall_impl; [exact Hall|]. by intros s (_ & Hg & _).
Qed.

(** X10.  Every suggestion [generate_suggestions] returns is consistent
    with the database: its pattern belongs to its style, its theme
    element to its theme, its placement text to its placement key, and its
    colours are exactly three distinct colours of a single palette, with
    [estimated_colors] equal to 3. *)
Theorem generate_suggestions_well_formed (user_input garment_type : string)
    (num_suggestions : option Z) :
  returns (generate_suggestions user_input garment_type num_suggestions)
          (Forall well_formed_suggestion).
Proof.
  eapply returns_weaken; [apply returns_generate_suggestions|].
  intros suggestions (_ & _ & Hall).
  eapply Forall_impl; [exact Hall|]. by intros s (Hwf & _).
Qed.

Lemma well_formed_print_method (s : Suggestion) :
  well_formed_suggestion s ->
  s_print_method s
  = if String.eqb (s_complexity s) "high" then "digital printing"
    else if String.eqb (s_style s) "vintage" || String.eqb (s_style s) "grunge"
         then "heat transfer"
         else "screen printing".
Proof.
  intros (_ & _ & _ & _ & Hthree & _ & ->). rewrite Hthree.
  unfold _suggest_print_method. simpl. done.
Qed.

(** X11.  Because a generated suggestion always has three colours, its
    print method does not depend on them: it is "digital printing"
    exactly when the complexity detected in the input is "high", otherwise
    "heat transfer" for the styles vintage and grunge and "screen
    printing" for every other style. *)
Theorem generate_suggestions_print_method (user_input garment_type : string)
    (num_suggestions : option Z) :
  returns (generate_suggestions user_input garment_type num_suggestions)
          (Forall (fun s =>
             s_complexity s = pref_complexity (analyze_preferences user_input) /\
             s_print_method s
             = if String.eqb (s_complexity s) "high" then "digital printing"
               else if String.eqb (s_style s) "vintage"
                       || String.eqb (s_style s) "grunge"
                    then "heat transfer"
                    else "screen printing")).
Proof.
  eapply returns_weaken; [apply returns_generate_suggestions|].
  intros suggestions (_ & _ & Hall).
  eapply Forall_impl; [exact Hall|]. intros s (Hwf & _ & _ & Hc & _).
  split; [done|]. by apply well_formed_print_method.
Qed.

(** X12.  Every colour of every suggestion [generate_suggestions]
    returns has an entry in the colour map of [get_color_code]: the
    fallback code "#cccccc" is never used for a generated suggestion. *)
Theorem generate_suggestions_color_codes (user_input garment_type : string)
    (num_suggestions : option Z) :
  returns (generate_suggestions user_input garment_type num_suggestions)
          (Forall (fun s =>
             Forall (fun color => get_color_code color <> "#cccccc") (s_colors s))).
Proof.
  eapply returns_weaken; [apply returns_generate_suggestions|].
  intros suggestions (_ & _ & Hall).
  eapply Forall_impl; [exact Hall|].
  intros s ((_ & _ & _ & (_ & _ & palette & Hpalette & Hsub) & _) & _).
  pose proof palette_colors_have_codes as Hcodes. rewrite Forall_forall in Hcodes.
  specialize (Hcodes palette Hpalette). rewrite Forall_forall in Hcodes.
  apply Forall_forall. intros color Hcolor. by apply Hcodes, Hsub.
Qed.

(** ** refine_suggestion *)

(** The colour step of [refine_suggestion] changes at most the colours,
    and leaves them non-empty when they were. *)
Lemma returns_refine_colors (s : Suggestion) (text : string) :
  s_colors s <> [] ->
  returns (if py_in "brighter" text || py_in "more vibrant" text then
             vibrant_colors ← lift (dict_item color_palettes "vibrant");
             colors ← sample vibrant_colors (Nat.min (length vibrant_colors) 3);
             mret (with_colors s colors)
           else if py_in "darker" text || py_in "muted" text then
             earth_colors ← lift (dict_item color_palettes "earth");
             colors ← sample earth_colors (Nat.min (length earth_colors) 3);
             mret (with_colors s colors)
           else if py_in "pastel" text || py_in "softer" text then
             pastel_colors ← lift (dict_item color_palettes "pastel");
             mret (with_colors s (take 3 pastel_colors))
           else mret s)
          (fun r => exists colors, colors <> [] /\ r = with_colors s colors).
Proof.
  intros Hcolors.
  assert (forall palette : list string,
            (3 <= length palette)%nat ->
            returns (colors ← sample palette (Nat.min (length palette) 3);
                     mret (with_colors s colors))
                    (fun r => exists colors, colors <> [] /\ r = with_colors s colors))
    as Hsample.
  { intros palette Hthree.
    eapply returns_bind; [apply returns_sample; lia|].
    intros colors (Hlen & _). apply returns_ret. exists colors. split; [|done].
    intros ->. simpl in Hlen. lia. }
  destruct (py_in "brighter" text || py_in "more vibrant" text).
  { eapply returns_bind_lift; [reflexivity|]. apply Hsample. simpl. lia. }
  destruct (py_in "darker" text || py_in "muted" text).
  { eapply returns_bind_lift; [reflexivity|]. apply Hsample. simpl. lia. }
  destruct (py_in "pastel" text || py_in "softer" text).
  { eapply returns_bind_lift; [reflexivity|]. apply returns_ret.
    eexists. split; [|done]. done. }
  apply returns_ret. exists (s_colors s). split; [done|]. by destruct s.
Qed.

Lemma raises_create_description_minimalist (colors : list string)
    (pattern theme_element placement vibe complexity : string) :
  colors <> [] ->
  raises (_create_description "minimalist" colors pattern theme_element placement
                              vibe complexity)
         (KeyError "minimalist").
Proof.
  intros Hcolors. unfold _create_description.
  destruct (format_colors_returns colors Hcolors) as [color_desc Hdesc].
  eapply returns_raises; [by eapply (returns_lift _ _ (fun c => c = color_desc))|].
  intros ? ->. cbv zeta.
  eapply returns_raises; [by apply returns_choice|]. intros base _.
  apply raises_bind. simpl. apply raises_bind. by apply raises_lift.
Qed.

Lemma raises_refine_suggestion (s : Suggestion) (feedback : string) :
  occurs_in "simpler" (py_lower feedback) \/ occurs_in "cleaner" (py_lower feedback) ->
  s_colors s <> [] ->
  raises (refine_suggestion s feedback) (KeyError "minimalist").
Proof.
  intros Hfeedback Hcolors. unfold refine_suggestion. cbv zeta.
  assert (py_in "simpler" (py_lower feedback) || py_in "cleaner" (py_lower feedback)
          = true) as Hsimpler.
  { apply orb_true_iff. by rewrite !py_in_spec. }
  eapply returns_raises; [by apply returns_refine_colors|].
  intros r (colors & Hne & ->). rewrite Hsimpler.
  apply raises_bind.
  destruct (py_in "smaller" (py_lower feedback));
    [|destruct (py_in "larger" (py_lower feedback) || py_in "bigger" (py_lower feedback))];
    by apply raises_create_description_minimalist.
Qed.

(** X13.  Feedback that contains "simpler" or "cleaner" (in any letter
    case) makes [refine_suggestion] raise KeyError("minimalist") on every
    suggestion that has a colour, whatever the random generator draws:
    the style is set to "minimalist", which is not a style of the database,
    and the description cannot be rebuilt. *)
Theorem refine_suggestion_simpler_raises (s : Suggestion) (feedback : string) :
  occurs_in "simpler" (py_lower feedback) \/ occurs_in "cleaner" (py_lower feedback) ->
  s_colors s <> [] ->
  raises (refine_suggestion s feedback) (KeyError "minimalist").
Proof. apply raises_refine_suggestion. Qed.

Lemma returns_refine_suggestion (s : Suggestion) (feedback : string) :
  ~ occurs_in "simpler" (py_lower feedback) ->
  ~ occurs_in "cleaner" (py_lower feedback) ->
  s_style s ∈ art_styles.*1 ->
  s_colors s <> [] ->
  returns (refine_suggestion s feedback)
          (fun r =>
             s_id r = s_id s /\ s_title r = s_title s /\ s_style r = s_style s /\
             s_theme r = s_theme s /\
             s_estimated_colors r = s_estimated_colors s /\
             s_print_method r = s_print_method s /\
             s_colors r <> [] /\
             (occurs_in "more complex" (py_lower feedback)
              \/ occurs_in "detailed" (py_lower feedback) ->
              s_complexity r = "high")).
Proof.
  intros Hsimpler Hcleaner Hstyle Hcolors. unfold refine_suggestion. cbv zeta.
  assert (py_in "simpler" (py_lower feedback) || py_in "cleaner" (py_lower feedback)
          = false) as Hnot.
  { apply orb_false_iff. split; apply not_true_is_false; by rewrite py_in_spec. }
  eapply returns_bind; [by apply returns_refine_colors|].
  intros r (colors & Hne & ->). rewrite Hnot.
  assert (forall r' : Suggestion,
            s_style r' = s_style s -> s_colors r' = colors ->
            returns (_create_description (s_style r') (s_colors r') (s_pattern r')
                       (s_theme_element r') (s_placement r') (s_vibe r')
                       (s_complexity r'))
                    (fun _ => True)) as Hdescription.
  { intros r' Hs Hc. apply returns_create_description; by rewrite ?Hs, ?Hc. }
  destruct (py_in "more complex" (py_lower feedback)
            || py_in "detailed" (py_lower feedback)) eqn:Hcomplex;
  destruct (py_in "smaller" (py_lower feedback));
  try destruct (py_in "larger" (py_lower feedback) || py_in "bigger" (py_lower feedback));
  (eapply returns_bind; [by apply Hdescription|]);
  intros description _; apply returns_ret; simpl; split_and!; try done;
  rewrite <- !py_in_spec, <- orb_true_iff, Hcomplex; done.
Qed.

(** X14.  With any other feedback, on a suggestion whose style is a
    style of the database and which has a colour, [refine_suggestion]
    returns; the refined suggestion keeps the id, the title, the theme,
    the estimated number of colours and the print method of the original
    (they are not recomputed), and its complexity is "high" when the
    feedback contains "more complex" or "detailed". *)
Theorem refine_suggestion_keeps (s : Suggestion) (feedback : string) :
  ~ occurs_in "simpler" (py_lower feedback) ->
  ~ occurs_in "cleaner" (py_lower feedback) ->
  s_style s ∈ art_styles.*1 ->
  s_colors s <> [] ->
  returns (refine_suggestion s feedback)
          (fun r =>
             s_id r = s_id s /\ s_title r = s_title s /\ s_style r = s_style s /\
             s_theme r = s_theme s /\
             s_estimated_colors r = s_estimated_colors s /\
             s_print_method r = s_print_method s /\
             s_colors r <> [] /\
             (occurs_in "more complex" (py_lower feedback)
              \/ occurs_in "detailed" (py_lower feedback) ->
              s_complexity r = "high")).
Proof. apply returns_refine_suggestion. Qed.

(** ** get_trending_suggestions *)

Lemma with_trending_well_formed (s : Suggestion) (trending : bool) :
  well_formed_suggestion s -> well_formed_suggestion (with_trending s trending).
Proof. by destruct s. Qed.

Lemma returns_trending_from (trending_themes : list string) (garment_type : string) :
  returns (trending_from trending_themes garment_type)
          (fun suggestions =>
             length suggestions = length trending_themes /\
             Forall (fun s => s_id s = "design_1" /\ s_trending s = Some true /\
                              s_garment_type s = garment_type /\
                              well_formed_suggestion s) suggestions).
Proof.
  induction trending_themes as [|theme rest IH]; cbn [trending_from].
  - by apply returns_ret.
  - cbv zeta. eapply returns_bind; [apply returns_generate_suggestions|].
    intros generated (Hlen & Hids & Hall).
    destruct generated as [|s generated]; [done|].
    injection Hids as Hid _.
    apply Forall_cons in Hall as [(Hwf & Hg & _) _].
    eapply returns_bind; [apply IH|].
    intros others (Hlen' & Hothers). apply returns_ret. split; [simpl; lia|].
    constructor; [|done]. split_and!; try done; by apply with_trending_well_formed.
Qed.

(** X15.  [get_trending_suggestions] returns three suggestions marked
    trending for the garment type given, each consistent with the
    database, and all three carry the same id "design_1". *)
Theorem get_trending_suggestions_ids (garment_type : string) :
  returns (get_trending_suggestions garment_type)
          (fun suggestions =>
             length suggestions = 3%nat /\
             Forall (fun s => s_id s = "design_1" /\ s_trending s = Some true /\
                              s_garment_type s = garment_type /\
                              well_formed_suggestion s) suggestions).
Proof. unfold get_trending_suggestions. cbv zeta. apply returns_trending_from. Qed.

(** ** save_preferences *)

(** X16.  [save_preferences] keeps a bounded history: after a call the
    history holds as its last entry the preferences analysed from the
    input, with the selected suggestion added; this entry is preceded by
    the most recent earlier entries in their order, and the history holds
    one entry more than before but never more than ten. *)
Theorem save_preferences_bounded (history : list Preferences) (user_input : string)
    (selected : Suggestion) :
  exists (dropped : list Preferences) (saved : Preferences),
    pref_styles saved = pref_styles (analyze_preferences user_input) /\
    pref_colors saved = pref_colors (analyze_preferences user_input) /\
    pref_themes saved = pref_themes (analyze_preferences user_input) /\
    pref_complexity saved = pref_complexity (analyze_preferences user_input) /\
    pref_vibe saved = pref_vibe (analyze_preferences user_input) /\
    selected_suggestion saved = Some selected /\
    history ++ [saved] = dropped ++ save_preferences history user_input selected /\
    last (save_preferences history user_input selected) = Some saved /\
    length (save_preferences history user_input selected)
    = Nat.min (S (length history)) 10.
Proof.
  unfold save_preferences. cbv zeta.
  set (saved := {| pref_styles := _ |}).
  destruct (10 <? length (history ++ [saved]))%nat eqn:Hlen.
  - apply Nat.ltb_lt in Hlen. rewrite length_app in Hlen. simpl in Hlen.
    exists (take (length (history ++ [saved]) - 10) (history ++ [saved])), saved.
    split_and!; try done.
    + by rewrite take_drop.
    + rewrite length_app, drop_app_le by (simpl; lia). by rewrite last_snoc.
    + rewrite length_drop, !length_app. simpl. lia.
  - apply Nat.ltb_ge in Hlen. rewrite length_app in Hlen. simpl in Hlen.
    exists [], saved. split_and!; try done; [by rewrite last_snoc|].
    rewrite length_app. simpl. lia.
Qed.

Lemma refine_suggestion_simpler_raises_witness :
  raises (refine_suggestion Studio.rocket "Make it SIMPLER please")
         (KeyError "minimalist").
Proof.
  apply (refine_suggestion_simpler_raises Studio.rocket "Make it SIMPLER please").
  - apply (bool_decide_unpack _). vm_compute. reflexivity.
  - discriminate.
Defined.

Lemma refine_suggestion_keeps_witness :
  returns (refine_suggestion Studio.rocket "more detailed and bigger")
          (fun r =>
             s_id r = s_id Studio.rocket /\ s_title r = s_title Studio.rocket /\
             s_style r = s_style Studio.rocket /\
             s_theme r = s_theme Studio.rocket /\
             s_estimated_colors r = s_estimated_colors Studio.rocket /\
             s_print_method r = s_print_method Studio.rocket /\
             s_colors r <> [] /\
             (occurs_in "more complex" (py_lower "more detailed and bigger")
              \/ occurs_in "detailed" (py_lower "more detailed and bigger") ->
              s_complexity r = "high")).
Proof.
  apply (refine_suggestion_keeps Studio.rocket "more detailed and bigger").
  - apply (bool_decide_unpack _). vm_compute. reflexivity.
  - apply (bool_decide_unpack _). vm_compute. reflexivity.
  - apply (bool_decide_unpack _). vm_compute. reflexivity.
  - discriminate.
Defined.

(** * The bot *)

Lemma classify_intent_returns (text : string) :
  exists (t : QueryType) (c : Q),
    classify_intent IntentClassifier_init text = Return (t, c).
Proof.
  destruct (classify_intent_cases IntentClassifier_init text intent_keys_distinct)
    as [[_ ->]|(i & t & kw & _ & _ & _ & ->)]; eauto.
Qed.

Lemma last_n_length {A} (n : nat) (l : list A) :
  length (last_n n l) = Nat.min (length l) n.
Proof. unfold last_n. rewrite length_drop. lia. Qed.

Lemma last_n_suffix {A} (n : nat) (l : list A) : exists dropped, l = dropped ++ last_n n l.
Proof. exists (take (length l - n) l). unfold last_n. by rewrite take_drop. Qed.

Lemma query_type_value_not_error (t : QueryType) : query_type_value t <> "error".
Proof. by destruct t. Qed.

Section AgentProperties.

Context `{Environment} `{Services}.

(** ** Stepping through a method *)

Lemma ensures_ret {A} (a : A) (bot : StyleBot) (Q : outcome A -> StyleBot -> Prop) :
  Q (Return a) bot -> ensures (mret a) bot Q.
Proof. done. Qed.

Lemma ensures_bind {A B} (m : Bot A) (f : A -> Bot B) (bot : StyleBot)
    (Q : outcome B -> StyleBot -> Prop) :
  ensures m bot (fun o bot' =>
                   match o with
                   | Return a => ensures (f a) bot' Q
                   | Throw e => Q (Throw e) bot'
                   end) ->
  ensures (m ≫= f) bot Q.
Proof.
  unfold ensures. cbv [mbind bot_bind]. generalize (m bot). by intros [[a|e] bot'].
Qed.

Lemma ensures_get_context (bot : StyleBot)
    (Q : outcome ConversationContext -> StyleBot -> Prop) :
  Q (Return (context bot)) bot -> ensures get_context bot Q.
Proof. done. Qed.

Lemma ensures_put_context (c : ConversationContext) (bot : StyleBot)
    (Q : outcome unit -> StyleBot -> Prop) :
  Q (Return tt) (put_context c bot).2 -> ensures (put_context c) bot Q.
Proof. done. Qed.

Lemma ensures_add_message (m : Message) (bot : StyleBot)
    (Q : outcome unit -> StyleBot -> Prop) :
  Q (Return tt) (add_message m bot).2 -> ensures (add_message m) bot Q.
Proof. done. Qed.

Lemma ensures_rag_outcome {A}
    (method : gmap string File -> RAGSystem -> outcome A * (gmap string File * RAGSystem))
    (bot : StyleBot) (Q : outcome A -> StyleBot -> Prop) :
  (forall o bot', same_record bot bot' ->
                  last_suggestions (context bot') = last_suggestions (context bot) ->
                  Q o bot') ->
  ensures (rag_outcome method) bot Q.
Proof.
  intros HQ. unfold ensures, rag_outcome.
  destruct (method (files bot) (rag_system bot)) as [o [fs rag]]. by apply HQ.
Qed.

Lemma ensures_rag_result {A}
    (method : gmap string File -> RAGSystem -> result A * (gmap string File * RAGSystem))
    (bot : StyleBot) (Q : outcome A -> StyleBot -> Prop) :
  (forall o bot', same_record bot bot' ->
                  last_suggestions (context bot') = last_suggestions (context bot) ->
                  Q o bot') ->
  ensures (rag_result method) bot Q.
Proof. apply ensures_rag_outcome. Qed.

Lemma ensures_service {A} (call : world -> A * world) (bot : StyleBot)
    (Q : outcome A -> StyleBot -> Prop) :
  (forall a w, call (services bot) = (a, w) ->
               Q (Return a) (service (fun _ => (a, w)) bot).2) ->
  ensures (service call) bot Q.
Proof.
  intros HQ. unfold ensures, service in *.
  destruct (call (services bot)) as [a w]. by apply HQ.
Qed.

Lemma ensures_draw_returns {A} (m : Rand A) (P : A -> Prop) (bot : StyleBot)
    (Q : outcome A -> StyleBot -> Prop) :
  returns m P ->
  (forall a bot', P a -> same_but_rng bot bot' -> Q (Return a) bot') ->
  ensures (draw m) bot Q.
Proof.
  intros Hm HQ. unfold ensures, draw.
  destruct (Hm (rng bot)) as (a & rng' & -> & HP). by apply HQ.
Qed.

Lemma ensures_draw_raises {A} (m : Rand A) (e : error) (bot : StyleBot)
    (Q : outcome A -> StyleBot -> Prop) :
  raises m e ->
  (forall bot', same_but_rng bot bot' -> Q (Throw e) bot') ->
  ensures (draw m) bot Q.
Proof.
  intros Hm HQ. unfold ensures, draw.
  destruct (Hm (rng bot)) as (rng' & ->). by apply HQ.
Qed.

Lemma ensures_weaken {A} (m : Bot A) (bot : StyleBot)
    (P Q : outcome A -> StyleBot -> Prop) :
  ensures m bot P -> (forall o bot', P o bot' -> Q o bot') -> ensures m bot Q.
Proof. unfold ensures. auto. Qed.

Lemma ensures_elim {A} (m : Bot A) (bot : StyleBot) (Q : outcome A -> StyleBot -> Prop) :
  ensures m bot Q -> exists o bot', m bot = (o, bot') /\ Q o bot'.
Proof. unfold ensures. intros HQ. exists (m bot).1, (m bot).2. by destruct (m bot). Qed.

Ltac record_solve :=
  unfold same_record, same_but_rng in *; simpl in *; intuition congruence.

(** ** The handlers *)

Lemma handler_ensures (t : QueryType) (user_input : string) (bot : StyleBot) :
  ensures (handler t user_input) bot
          (fun o bot' =>
             same_record bot bot' /\
             match o with
             | Return response => r_type response = query_type_value t
             | Throw _ => t = PRODUCT_INQUIRY \/ t = FAQ \/ t = SHIPPING
             end).
Proof.
  destruct t; unfold handler.
  - unfold _handle_product_inquiry.
    apply ensures_bind, ensures_rag_result. intros [context|e] bot1 H1 _;
      [|split; [done|by auto]].
    apply ensures_bind, ensures_rag_result. intros [products|e] bot2 H2 _;
      [|split; [record_solve|by auto]].
    apply ensures_bind, ensures_service. intros response w _.
    apply ensures_ret. split; [record_solve|done].
  - unfold _handle_faq.
    apply ensures_bind, ensures_rag_result. intros [context|e] bot1 H1 _;
      [|split; [done|by auto]].
    apply ensures_bind, ensures_rag_outcome. intros [faq_response|e] bot2 H2 _;
      [|split; [record_solve|by auto]].
    apply ensures_bind.
    destruct faq_response as [[|c rest]|].
    + apply ensures_service. intros response w _.
      apply ensures_ret. split; [record_solve|done].
    + apply ensures_ret, ensures_ret. split; [record_solve|done].
    + apply ensures_service. intros response w _.
      apply ensures_ret. split; [record_solve|done].
  - unfold _handle_design_consultation.
    apply ensures_bind.
    eapply ensures_draw_returns; [apply returns_generate_suggestions|].
    intros suggestions bot1 _ H1.
    apply ensures_bind, ensures_get_context, ensures_bind, ensures_put_context.
    apply ensures_bind, ensures_get_context, ensures_bind, ensures_put_context.
    apply ensures_bind, ensures_get_context, ensures_ret.
    split; [record_solve|done].
  - unfold _handle_general_chat.
    apply ensures_bind, ensures_get_context, ensures_bind, ensures_service.
    intros response w _. apply ensures_ret. split; [record_solve|done].
  - unfold _handle_shipping_inquiry.
    apply ensures_bind, ensures_rag_result. intros [context|e] bot1 H1 _;
      [|split; [done|by auto]].
    apply ensures_bind, ensures_service. intros response w _.
    apply ensures_ret. split; [record_solve|done].
  - unfold _handle_support_request. apply ensures_ret. split; [record_solve|done].
Qed.

(** ** chat *)

(** The history after an answered interaction. *)
Lemma chat_body_ensures (user_input id : string) (bot : StyleBot) :
  ensures (chat_body user_input id) bot
          (fun o bot' =>
             interaction_count (context bot') = interaction_count (context bot) + 1 /\
             user_id (context bot') = id /\
             exists (t : QueryType) (c : Q),
               classify_intent IntentClassifier_init user_input = Return (t, c) /\
               match o with
               | Throw _ =>
                   (t = PRODUCT_INQUIRY \/ t = FAQ \/ t = SHIPPING) /\
                   memory bot' = memory bot /\
                   conversation_history (context bot')
                   = conversation_history (context bot)
               | Return response =>
                   r_type response = query_type_value t /\
                   memory bot'
                   = memory bot ++ [HumanMessage user_input;
                                    AIMessage (r_message response)] /\
                   exists now : string,
                     let history :=
                       conversation_history (context bot)
                       ++ [interaction_of now user_input response] in
                     conversation_history (context bot')
                     = if (20 <? length history)%nat then last_n 20 history
                       else history
               end).
Proof.
  unfold chat_body.
  apply ensures_bind, ensures_get_context, ensures_bind, ensures_put_context.
  destruct (classify_intent_returns user_input) as (t & c & Hclassify).
  apply ensures_bind. unfold ensures at 1. rewrite Hclassify. cbn [fst snd].
  apply ensures_bind.
  eapply ensures_weaken; [apply handler_ensures|].
  intros [response|e] bot1 [Hsame Htype].
  - unfold _update_conversation_history.
    apply ensures_bind, ensures_bind, ensures_service. intros now w _.
    apply ensures_bind, ensures_get_context, ensures_put_context.
    apply ensures_bind, ensures_add_message, ensures_bind, ensures_add_message.
    apply ensures_ret.
    split; [record_solve|]. split; [record_solve|].
    exists t, c. split; [done|]. split; [done|].
    split.
    + simpl. rewrite <- app_assoc. simpl. record_solve.
    + exists now. simpl. unfold interaction_of. rewrite Htype.
      destruct Hsame as (_ & -> & _). done.
  - split; [record_solve|]. split; [record_solve|].
    exists t, c. split; [done|]. split; [done|]. record_solve.
Qed.

Lemma chat_of_body (user_input id : string) (bot bot' : StyleBot) (o : outcome Response) :
  chat_body user_input id bot = (o, bot') ->
  chat user_input id bot
  = (match o with Return response => response | Throw _ => error_response end, bot').
Proof. unfold chat. intros ->. by destruct o. Qed.

Lemma chat_cases (user_input id : string) (bot bot' : StyleBot) (response : Response) :
  chat user_input id bot = (response, bot') ->
  interaction_count (context bot') = interaction_count (context bot) + 1 /\
  user_id (context bot') = id /\
  exists (t : QueryType) (c : Q),
    classify_intent IntentClassifier_init user_input = Return (t, c) /\
    ((response = error_response /\
      (t = PRODUCT_INQUIRY \/ t = FAQ \/ t = SHIPPING) /\
      memory bot' = memory bot /\
      conversation_history (context bot') = conversation_history (context bot)) \/
     (r_type response = query_type_value t /\
      memory bot'
      = memory bot ++ [HumanMessage user_input; AIMessage (r_message response)] /\
      exists now : string,
        let history :=
          conversation_history (context bot)
          ++ [interaction_of now user_input response] in
        conversation_history (context bot')
        = if (20 <? length history)%nat then last_n 20 history else history)).
Proof.
  unfold chat. pose proof (chat_body_ensures user_input id bot) as Hbody.
  unfold ensures in Hbody.
  destruct (chat_body user_input id bot) as [[r|e] b]; intros [= <- <-];
    destruct Hbody as (Hcount & Huser & t & c & Hclassify & Hrest);
    (split; [done|]); (split; [done|]); exists t, c; (split; [done|]); auto.
Qed.

Lemma history_after (history : list Interaction) (entry : Interaction) :
  let history' := history ++ [entry] in
  let kept := if (20 <? length history')%nat then last_n 20 history' else history' in
  last kept = Some entry /\
  (exists dropped, history ++ [entry] = dropped ++ kept) /\
  length kept = Nat.min (S (length history)) 20.
Proof.
  cbv zeta. rewrite length_app. simpl.
  destruct (20 <? length history + 1)%nat eqn:Hlong.
  - apply Nat.ltb_lt in Hlong. split_and!.
    + unfold last_n. rewrite length_app. simpl.
      rewrite drop_app_le by lia. by rewrite last_snoc.
    + apply last_n_suffix.
    + rewrite last_n_length, length_app. simpl. lia.
  - apply Nat.ltb_ge in Hlong. split_and!.
    + by rewrite last_snoc.
    + by exists [].
    + rewrite length_app. simpl. lia.
Qed.

(** X17.  When [chat] answers with a response of type "error", the
    response is the fixed error response, the input was classified as a
    product inquiry, an FAQ or a shipping question (the handlers that
    query the retrieval engine; the three others never fail), and the
    failed interaction is counted and attributed to the user but leaves
    no trace in the history or in the memory. *)
Theorem chat_error_leaves_no_trace (user_input id : string) (bot bot' : StyleBot)
    (response : Response) :
  chat user_input id bot = (response, bot') ->
  r_type response = "error" ->
  response = error_response /\
  (exists (t : QueryType) (c : Q),
     classify_intent IntentClassifier_init user_input = Return (t, c) /\
     (t = PRODUCT_INQUIRY \/ t = FAQ \/ t = SHIPPING)) /\
  memory bot' = memory bot /\
  conversation_history (context bot') = conversation_history (context bot) /\
  interaction_count (context bot') = interaction_count (context bot) + 1 /\
  user_id (context bot') = id.
Proof.
  intros Hchat Herror.
  destruct (chat_cases _ _ _ _ _ Hchat)
    as (Hcount & Huser & t & c & Hclassify & [(-> & Ht & Hm & Hh)|(Htype & _)]).
  - split_and!; eauto.
  - rewrite Herror in Htype. by destruct (query_type_value_not_error t).
Qed.

(** X18.  When [chat] answers with a response of another type, the type
    is the value of the query type the classifier gave the input; the
    memory grows by the user's message and the response's message, in
    this order; the entry of the interaction is the last entry of the
    history, which keeps the most recent earlier entries in order and has
    one entry more than before but never more than twenty; the
    interaction is counted and attributed to the user. *)
Theorem chat_answer_recorded (user_input id : string) (bot bot' : StyleBot)
    (response : Response) :
  chat user_input id bot = (response, bot') ->
  r_type response <> "error" ->
  exists (t : QueryType) (c : Q) (now : string),
    classify_intent IntentClassifier_init user_input = Return (t, c) /\
    r_type response = query_type_value t /\
    memory bot'
    = memory bot ++ [HumanMessage user_input; AIMessage (r_message response)] /\
    last (conversation_history (context bot'))
    = Some (interaction_of now user_input response) /\
    (exists dropped,
       conversation_history (context bot) ++ [interaction_of now user_input response]
       = dropped ++ conversation_history (context bot')) /\
    length (conversation_history (context bot'))
    = Nat.min (S (length (conversation_history (context bot)))) 20 /\
    interaction_count (context bot') = interaction_count (context bot) + 1 /\
    user_id (context bot') = id.
Proof.
  intros Hchat Hanswer.
  destruct (chat_cases _ _ _ _ _ Hchat)
    as (Hcount & Huser & t & c & Hclassify
        & [(-> & _)|(Htype & Hmemory & now & Hhistory)]); [done|].
  exists t, c, now. cbv zeta in Hhistory. rewrite Hhistory.
  destruct (history_after (conversation_history (context bot))
                          (interaction_of now user_input response))
    as (Hlast & Hdropped & Hlength).
  by split_and!.
Qed.

(** X19.  Over a conversation, from a bot whose history has at most
    twenty entries: every input gets a response; the interaction count
    grows by the number of inputs, failed ones included; the memory grows
    by two messages per response that is not an error response; and the
    history has as many entries more as there are such responses, up to
    twenty. *)
Theorem chats_record (inputs : list (string * string)) :
  forall (bot bot' : StyleBot) (responses : list Response),
  (length (conversation_history (context bot)) <= 20)%nat ->
  chats inputs bot = (responses, bot') ->
  length responses = length inputs /\
  interaction_count (context bot')
  = interaction_count (context bot) + Z.of_nat (length inputs) /\
  length (memory bot') = (length (memory bot) + 2 * answered responses)%nat /\
  length (conversation_history (context bot'))
  = Nat.min (length (conversation_history (context bot)) + answered responses) 20.
Proof.
  induction inputs as [|[user_input id] rest IH]; intros bot bot' responses Hbound.
  - intros [= <- <-]. unfold answered. simpl. split_and!; lia.
  - cbn [chats].
    destruct (chat user_input id bot) as [response bot1] eqn:Hchat.
    destruct (chats rest bot1) as [responses' bot2] eqn:Hrest.
    intros [= <- <-].
    destruct (chat_cases _ _ _ _ _ Hchat)
      as (Hcount & _ & t & c & _
          & [(-> & _ & Hmemory & Hhistory)|(Htype & Hmemory & now & Hhistory)]).
    + destruct (IH bot1 bot2 responses') as (Hn & Hc & Hm & Hh);
        [by rewrite Hhistory|done|].
      unfold answered in *. rewrite filter_cons_False by (simpl; auto).
      rewrite Hcount in Hc. rewrite Hmemory in Hm. rewrite Hhistory in Hh.
      cbn [length]. split_and!; lia.
    + cbv zeta in Hhistory.
      destruct (history_after (conversation_history (context bot))
                              (interaction_of now user_input response))
        as (_ & _ & Hlength).
      rewrite <- Hhistory in Hlength.
      destruct (IH bot1 bot2 responses') as (Hn & Hc & Hm & Hh); [lia|done|].
      unfold answered in *. rewrite filter_cons_True.
      2: { rewrite Htype. apply query_type_value_not_error. }
      rewrite Hcount in Hc. rewrite Hmemory, length_app in Hm.
      cbn [length] in *. split_and!; lia.
Qed.

(** ** Design consultation and refinement *)

Lemma find_design_id (design_id : string) (suggestions : list Suggestion)
    (design : Suggestion) :
  find_design design_id suggestions = Some design ->
  design ∈ suggestions /\ s_id design = design_id.
Proof.
  unfold find_design. intros [Hin Heq]%find_some. split.
  - by apply list_elem_of_In.
  - by apply String.eqb_eq.
Qed.

Lemma find_design_none (design_id : string) (suggestions : list Suggestion) :
  Forall (fun s => s_id s <> design_id) suggestions ->
  find_design design_id suggestions = None.
Proof.
  unfold find_design. induction 1 as [|s rest Hs _ IH]; [done|]. simpl.
  by apply String.eqb_neq in Hs as ->.
Qed.

Lemma find_design_single (design_id other : string) (design : Suggestion) :
  s_id design = design_id ->
  find_design other [design] = if String.eqb design_id other then Some design else None.
Proof. intros <-. unfold find_design. simpl. by destruct (s_id design =? other)%string. Qed.

Lemma well_formed_refinable (s : Suggestion) :
  well_formed_suggestion s -> s_style s ∈ art_styles.*1 /\ s_colors s <> [].
Proof.
  intros ((data & Hdata & _) & _ & _ & (Hlen & _) & _). split.
  - clear -Hdata. induction art_styles as [|[k v] rest IH]; simpl in *; [done|].
    destruct (k =? s_style s)%string eqn:Hk.
    + apply String.eqb_eq in Hk as ->. apply elem_of_cons. by left.
    + apply elem_of_cons. right. by apply IH.
  - intros Hnil. by rewrite Hnil in Hlen.
Qed.

Lemma handle_design_consultation_ensures (user_input : string) (bot : StyleBot) :
  ensures (_handle_design_consultation user_input) bot
          (fun o bot' =>
             exists (response : Response) (suggestions : list Suggestion),
               o = Return response /\
               r_type response = "design_consultation" /\
               r_suggestions response = design_card <$> suggestions /\
               last_suggestions (context bot') = suggestions /\
               s_id <$> suggestions = ["design_1"; "design_2"; "design_3"] /\
               Forall well_formed_suggestion suggestions /\
               current_topic (context bot') = Some "design" /\
               design_preferences (context bot')
               = dict_update (design_preferences (context bot))
                             (analyze_preferences user_input) /\
               r_design_preferences response = design_preferences (context bot') /\
               same_record bot bot').
Proof.
  unfold _handle_design_consultation.
  apply ensures_bind.
  eapply ensures_draw_returns; [apply returns_generate_suggestions|].
  intros suggestions bot1 (_ & Hids & Hwf) H1.
  apply ensures_bind, ensures_get_context, ensures_bind, ensures_put_context.
  apply ensures_bind, ensures_get_context, ensures_bind, ensures_put_context.
  apply ensures_bind, ensures_get_context, ensures_ret.
  eexists _, suggestions. split; [done|]. simpl.
  destruct H1 as (-> & Hrest). split_and!; try done.
  - eapply Forall_impl; [exact Hwf|]. by intros s [Hs _].
  - record_solve.
Qed.

Lemma consultation_ids (suggestions : list Suggestion) :
  s_id <$> suggestions = ["design_1"; "design_2"; "design_3"] ->
  forall s, s ∈ suggestions -> find_design (s_id s) suggestions = Some s.
Proof.
  destruct suggestions as [|s1 [|s2 [|s3 [|s4 rest]]]]; try done.
  intros [= H1 H2 H3] s Hs. unfold find_design. simpl. rewrite H1, H2, H3.
  apply elem_of_cons in Hs as [->|Hs]; [by rewrite H1|].
  apply elem_of_cons in Hs as [->|Hs]; [by rewrite H2|].
  apply elem_of_cons in Hs as [->|Hs]; [by rewrite H3|].
  by apply elem_of_nil in Hs.
Qed.

(** X20.  [_handle_design_consultation] never raises.  Its response has
    type "design_consultation" and one card per suggestion; the three
    suggestions, with ids design_1, design_2 and design_3 and consistent
    with the design database, become [last_suggestions], where
    [refine_design]'s lookup finds each of them under its id; the topic
    becomes "design"; the design preferences of the context are updated
    with those analysed from the input and returned in the response; the
    memory, the history, the interaction count and the user are
    untouched. *)
Theorem handle_design_consultation_stores (user_input : string) (bot : StyleBot) :
  exists (response : Response) (bot' : StyleBot) (suggestions : list Suggestion),
    _handle_design_consultation user_input bot = (Return response, bot') /\
    r_type response = "design_consultation" /\
    r_suggestions response = design_card <$> suggestions /\
    last_suggestions (context bot') = suggestions /\
    s_id <$> suggestions = ["design_1"; "design_2"; "design_3"] /\
    Forall well_formed_suggestion suggestions /\
    (forall s, s ∈ suggestions ->
               find_design (s_id s) (last_suggestions (context bot')) = Some s) /\
    current_topic (context bot') = Some "design" /\
    design_preferences (context bot')
    = dict_update (design_preferences (context bot)) (analyze_preferences user_input) /\
    r_design_preferences response = design_preferences (context bot') /\
    same_record bot bot'.
Proof.
  pose proof (handle_design_consultation_ensures user_input bot) as Hrun.
  destruct (ensures_elim _ _ _ Hrun) as (o & bot' & -> & HQ). clear Hrun.
  destruct HQ as (response & suggestions & -> & Htype & Hcards & Hlast & Hids
                    & Hwf & Htopic & Hprefs & Hresp & Hsame).
  exists response, bot', suggestions. split_and!; try done.
  rewrite Hlast. by apply consultation_ids.
Qed.

Lemma refine_design_not_found (design_id feedback : string) (bot : StyleBot) :
  Forall (fun s => s_id s <> design_id) (last_suggestions (context bot)) ->
  refine_design design_id feedback bot = (Return design_not_found, bot).
Proof.
  intros Hnone%find_design_none. unfold refine_design.
  cbv [mbind bot_bind get_context]. by rewrite Hnone.
Qed.

(** X21.  When no suggestion of [last_suggestions] has the id asked for
    (as on a bot that has suggested no design yet), [refine_design]
    returns the response "I couldn't find that design..." of type "error"
    with no suggestion, and changes nothing. *)
Theorem refine_design_unknown (design_id feedback : string) (bot : StyleBot) :
  Forall (fun s => s_id s <> design_id) (last_suggestions (context bot)) ->
  refine_design design_id feedback bot = (Return design_not_found, bot).
Proof. apply refine_design_not_found. Qed.

(** X22.  [get_trending_designs] never raises and changes nothing but
    the random generator: its three designs, all with the id design_1
    and marked trending on their cards, are not stored in
    [last_suggestions].  So on a bot that holds no suggestion with the id
    design_1, [refine_design] does not find a trending design just
    shown. *)
Theorem get_trending_designs_not_stored (garment_type : string) (bot : StyleBot) :
  exists (response : Response) (bot' : StyleBot) (designs : list Suggestion),
    get_trending_designs garment_type bot = (Return response, bot') /\
    same_but_rng bot bot' /\
    r_type response = "trending_designs" /\
    r_suggestions response = trending_card <$> designs /\
    length designs = 3%nat /\
    Forall (fun design => s_id design = "design_1") designs /\
    (Forall (fun s => s_id s <> "design_1") (last_suggestions (context bot)) ->
     forall feedback : string,
       refine_design "design_1" feedback bot' = (Return design_not_found, bot')).
Proof.
  assert (ensures (get_trending_designs garment_type) bot
            (fun o bot' =>
               exists (response : Response) (designs : list Suggestion),
                 o = Return response /\ same_but_rng bot bot' /\
                 r_type response = "trending_designs" /\
                 r_suggestions response = trending_card <$> designs /\
                 length designs = 3%nat /\
                 Forall (fun design => s_id design = "design_1") designs)) as Hrun.
  { unfold get_trending_designs. apply ensures_bind.
    eapply ensures_draw_returns; [apply returns_trending_from|].
    intros designs bot1 [Hlen Hall] H1. apply ensures_ret.
    eexists _, designs. split_and!; try done.
    eapply Forall_impl; [exact Hall|]. by intros d [Hd _]. }
  destruct (ensures_elim _ _ _ Hrun) as (o & bot' & -> & HQ). clear Hrun.
  destruct HQ as (response & designs & -> & Hsame & Htype & Hcards & Hlen & Hids).
  exists response, bot', designs. split_and!; try done.
  intros Hnone feedback. apply refine_design_not_found.
  destruct Hsame as (-> & _). done.
Qed.

Lemma refine_design_simpler_raises_gen (design_id feedback : string) (bot : StyleBot)
    (design : Suggestion) :
  find_design design_id (last_suggestions (context bot)) = Some design ->
  s_colors design <> [] ->
  occurs_in "simpler" (py_lower feedback) \/ occurs_in "cleaner" (py_lower feedback) ->
  exists bot' : StyleBot,
    refine_design design_id feedback bot = (Throw (KeyError "minimalist"), bot') /\
    same_but_rng bot bot'.
Proof.
  intros Hfind Hcolors Hfeedback.
  assert (ensures (refine_design design_id feedback) bot
            (fun o bot' => o = Throw (KeyError "minimalist") /\ same_but_rng bot bot'))
    as Hrun.
  { unfold refine_design. apply ensures_bind, ensures_get_context. rewrite Hfind.
    apply ensures_bind.
    eapply ensures_draw_raises; [by apply raises_refine_suggestion|]. done. }
  destruct (ensures_elim _ _ _ Hrun) as (o & bot' & -> & HQ). clear Hrun.
  destruct HQ as [-> Hsame]. by exists bot'.
Qed.

(** X23.  When [refine_design] finds the design and the feedback
    contains "simpler" or "cleaner" (in any letter case), the call raises
    KeyError("minimalist"), which nothing in [refine_design] catches; the
    bot is left as it was, the random generator apart. *)
Theorem refine_design_simpler_raises (design_id feedback : string) (bot : StyleBot)
    (design : Suggestion) :
  find_design design_id (last_suggestions (context bot)) = Some design ->
  s_colors design <> [] ->
  occurs_in "simpler" (py_lower feedback) \/ occurs_in "cleaner" (py_lower feedback) ->
  exists bot' : StyleBot,
    refine_design design_id feedback bot = (Throw (KeyError "minimalist"), bot') /\
    same_but_rng bot bot'.
Proof. apply refine_design_simpler_raises_gen. Qed.

Lemma refine_design_replaces_gen (design_id feedback : string) (bot : StyleBot)
    (design : Suggestion) :
  find_design design_id (last_suggestions (context bot)) = Some design ->
  s_style design ∈ art_styles.*1 ->
  s_colors design <> [] ->
  ~ occurs_in "simpler" (py_lower feedback) ->
  ~ occurs_in "cleaner" (py_lower feedback) ->
  exists (response : Response) (bot' : StyleBot) (refined : Suggestion),
    refine_design design_id feedback bot = (Return response, bot') /\
    r_type response = "design_refinement" /\
    r_suggestions response = [refined_card refined] /\
    last_suggestions (context bot') = [refined] /\
    s_id refined = design_id /\
    s_style refined = s_style design /\
    s_colors refined <> [] /\
    (forall other : string,
       find_design other (last_suggestions (context bot'))
       = if String.eqb design_id other then Some refined else None) /\
    same_record bot bot'.
Proof.
  intros Hfind Hstyle Hcolors Hsimpler Hcleaner.
  destruct (find_design_id _ _ _ Hfind) as [_ Hid].
  assert (ensures (refine_design design_id feedback) bot
            (fun o bot' =>
               exists (response : Response) (refined : Suggestion),
                 o = Return response /\
                 r_type response = "design_refinement" /\
                 r_suggestions response = [refined_card refined] /\
                 last_suggestions (context bot') = [refined] /\
                 s_id refined = design_id /\
                 s_style refined = s_style design /\
                 s_colors refined <> [] /\
                 same_record bot bot')) as Hrun.
  { unfold refine_design. apply ensures_bind, ensures_get_context. rewrite Hfind.
    apply ensures_bind.
    eapply ensures_draw_returns; [by apply returns_refine_suggestion|].
    intros refined bot1 (Hrid & _ & Hrstyle & _ & _ & _ & Hrcolors & _) H1.
    apply ensures_bind, ensures_get_context, ensures_bind, ensures_put_context.
    apply ensures_ret. eexists _, refined. split; [done|]. simpl.
    split_and!; try done; [congruence|record_solve]. }
  destruct (ensures_elim _ _ _ Hrun) as (o & bot' & -> & HQ). clear Hrun.
  destruct HQ as (response & refined & -> & Htype & Hcards & Hlast & Hrid & Hrstyle
                    & Hrcolors & Hsame).
  exists response, bot', refined. split_and!; try done.
  intros other. rewrite Hlast. by apply find_design_single.
Qed.

(** X24.  With any other feedback, on a design that is found, has a
    style of the database and a colour, [refine_design] returns a
    response of type "design_refinement" with one card, for the refined
    design; the refined design keeps the id and replaces the whole of
    [last_suggestions]: it can be refined again under the same id, and no
    other design of the earlier suggestions can be found any more. *)
Theorem refine_design_replaces (design_id feedback : string) (bot : StyleBot)
    (design : Suggestion) :
  find_design design_id (last_suggestions (context bot)) = Some design ->
  s_style design ∈ art_styles.*1 ->
  s_colors design <> [] ->
  ~ occurs_in "simpler" (py_lower feedback) ->
  ~ occurs_in "cleaner" (py_lower feedback) ->
  exists (response : Response) (bot' : StyleBot) (refined : Suggestion),
    refine_design design_id feedback bot = (Return response, bot') /\
    r_type response = "design_refinement" /\
    r_suggestions response = [refined_card refined] /\
    last_suggestions (context bot') = [refined] /\
    s_id refined = design_id /\
    s_style refined = s_style design /\
    s_colors refined <> [] /\
    (forall other : string,
       find_design other (last_suggestions (context bot'))
       = if String.eqb design_id other then Some refined else None) /\
    same_record bot bot'.
Proof. apply refine_design_replaces_gen. Qed.

Lemma chat_design_consultation (user_input id : string) (bot : StyleBot) (c : Q) :
  classify_intent IntentClassifier_init user_input = Return (DESIGN_CONSULTATION, c) ->
  ensures (chat_body user_input id) bot
          (fun o bot' =>
             exists (response : Response) (suggestions : list Suggestion),
               o = Return response /\
               r_type response = "design_consultation" /\
               r_suggestions response = design_card <$> suggestions /\
               last_suggestions (context bot') = suggestions /\
               s_id <$> suggestions = ["design_1"; "design_2"; "design_3"] /\
               Forall well_formed_suggestion suggestions).
Proof.
  intros Hclassify. unfold chat_body.
  apply ensures_bind, ensures_get_context, ensures_bind, ensures_put_context.
  apply ensures_bind. unfold ensures at 1. rewrite Hclassify. cbn [fst snd handler].
  apply ensures_bind.
  eapply ensures_weaken; [apply handle_design_consultation_ensures|].
  intros o bot1 (response & suggestions & -> & Htype & Hcards & Hlast & Hids & Hwf & _).
  unfold _update_conversation_history.
  apply ensures_bind, ensures_bind, ensures_service. intros now w _.
  apply ensures_bind, ensures_get_context, ensures_put_context.
  apply ensures_bind, ensures_add_message, ensures_bind, ensures_add_message.
  apply ensures_ret. by exists response, suggestions.
Qed.

(** X25.  The flow of the demonstration, for any input that the
    classifier takes for a design consultation: [chat] answers with a
    response of type "design_consultation" whose three cards carry the
    three designs it stores, and [refine_design] then finds each of them
    under its id.  With feedback containing "simpler" or "cleaner" the
    refinement raises KeyError("minimalist"); with any other feedback it
    returns a response of type "design_refinement" for a design of the
    same id, which becomes the only stored design. *)
Theorem chat_design_then_refine (user_input id : string) (bot bot' : StyleBot)
    (response : Response) (c : Q) :
  classify_intent IntentClassifier_init user_input = Return (DESIGN_CONSULTATION, c) ->
  chat user_input id bot = (response, bot') ->
  r_type response = "design_consultation" /\
  r_suggestions response = design_card <$> last_suggestions (context bot') /\
  s_id <$> last_suggestions (context bot') = ["design_1"; "design_2"; "design_3"] /\
  forall (design : Suggestion) (feedback : string),
    design ∈ last_suggestions (context bot') ->
    if bool_decide (occurs_in "simpler" (py_lower feedback)
                    \/ occurs_in "cleaner" (py_lower feedback))
    then exists bot'' : StyleBot,
           refine_design (s_id design) feedback bot'
           = (Throw (KeyError "minimalist"), bot'')
    else exists (refinement : Response) (bot'' : StyleBot) (refined : Suggestion),
           refine_design (s_id design) feedback bot' = (Return refinement, bot'') /\
           r_type refinement = "design_refinement" /\
           r_suggestions refinement = [refined_card refined] /\
           last_suggestions (context bot'') = [refined] /\
           s_id refined = s_id design.
Proof.
  intros Hclassify Hchat.
  destruct (ensures_elim _ _ _ (chat_design_consultation user_input id bot c Hclassify))
    as (o & bot1 & Hbody & r & suggestions & -> & Htype & Hcards & Hlast & Hids & Hwf).
  rewrite (chat_of_body _ _ _ _ _ Hbody) in Hchat. injection Hchat as <- <-.
  rewrite Hlast. split_and!; try done.
  intros design feedback Hin.
  pose proof (consultation_ids suggestions Hids design Hin) as Hfind.
  rewrite <- Hlast in Hfind.
  rewrite Forall_forall in Hwf.
  destruct (well_formed_refinable design (Hwf design Hin)) as [Hstyle Hcolors].
  case_bool_decide as Hfeedback.
  - destruct (refine_design_simpler_raises_gen _ feedback _ _ Hfind Hcolors Hfeedback)
      as (bot'' & Hrun & _).
    by exists bot''.
  - destruct (refine_design_replaces_gen _ feedback _ _ Hfind Hstyle Hcolors)
      as (refinement & bot'' & refined & Hrun & Hrtype & Hrcards & Hrlast & Hrid & _);
      [tauto|tauto|].
    by exists refinement, bot'', refined.
Qed.

(** ** An empty knowledge base *)

Lemma ensures_rag_outcome_run {A}
    (method : gmap string File -> RAGSystem -> outcome A * (gmap string File * RAGSystem))
    (bot : StyleBot) (Q : outcome A -> StyleBot -> Prop) :
  Q (rag_outcome method bot).1 (rag_outcome method bot).2 ->
  ensures (rag_outcome method) bot Q.
Proof. done. Qed.

Lemma get_relevant_context_empty (query : string) (max_context_length : Z)
    (fs : gmap string File) (self : RAGSystem) :
  is_initialized self = false ->
  read_index fs (index_path +:+ ".index") = None ->
  split_documents (load_markdown_files fs (kb_path self)
                   ++ load_json_files fs (kb_path self)) = [] ->
  exists self' : RAGSystem,
    get_relevant_context query max_context_length fs self
    = (Raise IndexError, (fs, self')) /\
    is_initialized self' = false /\ kb_path self' = kb_path self.
Proof.
  intros Hinit Hindex Hdocs.
  unfold get_relevant_context, ensure_initialized, initialize, load_index.
  rewrite Hinit, Hindex, Hdocs. cbn. by eexists.
Qed.

(** X26.  On a bot whose retrieval engine is not initialised, with no
    saved index and a knowledge base that yields no document, [chat]
    answers every input classified as a product inquiry, an FAQ or a
    shipping question with the error response: the attempt to initialise
    the engine raises IndexError in [build_index].  The bot is left in
    the same situation, so the next such question fails in the same
    way. *)
Theorem chat_empty_knowledge_base (user_input id : string) (bot bot' : StyleBot)
    (response : Response) (t : QueryType) (c : Q) :
  empty_knowledge_base bot ->
  classify_intent IntentClassifier_init user_input = Return (t, c) ->
  t = PRODUCT_INQUIRY \/ t = FAQ \/ t = SHIPPING ->
  chat user_input id bot = (response, bot') ->
  response = error_response /\ empty_knowledge_base bot'.
Proof.
  intros (Hinit & Hindex & Hdocs) Hclassify Ht Hchat.
  assert (ensures (chat_body user_input id) bot
            (fun o bot' => (exists e, o = Throw e) /\ empty_knowledge_base bot'))
    as Hrun.
  { unfold chat_body.
    apply ensures_bind, ensures_get_context, ensures_bind, ensures_put_context.
    apply ensures_bind. unfold ensures at 1. rewrite Hclassify. cbn [fst snd].
    apply ensures_bind.
    set (bot1 := (put_context _ bot).2).
    destruct (get_relevant_context_empty user_input 2000 (files bot1) (rag_system bot1))
      as (self' & Hcontext & Hinit' & Hkb); [done..|].
    assert (ensures (rag_result (get_relevant_context user_input 2000)) bot1
              (fun o bot' => (exists e, o = Throw e) /\ empty_knowledge_base bot'))
      as Hfirst.
    { apply ensures_rag_outcome_run. unfold rag_outcome. rewrite Hcontext. cbn.
      split; [by eexists|]. unfold empty_knowledge_base. cbn.
      rewrite Hinit', Hkb. done. }
    destruct Ht as [->| [->| ->]]; cbn [handler];
      [unfold _handle_product_inquiry|unfold _handle_faq
      |unfold _handle_shipping_inquiry];
      apply ensures_bind; (eapply ensures_weaken; [exact Hfirst|]);
      intros o b [[e ->] Hb]; (split; [by eexists|done]). }
  destruct (ensures_elim _ _ _ Hrun) as (o & b & Hbody & [e ->] & Hb).
  rewrite (chat_of_body _ _ _ _ _ Hbody) in Hchat. by injection Hchat as <- <-.
Qed.

End AgentProperties.

Lemma chat_error_leaves_no_trace_witness :
  let run := @chat Desk.empty_env Desk.desk_services "what is the price?" "ada" Desk.fresh in
  run.1 = error_response /\
  (exists (t : QueryType) (c : Q),
     classify_intent IntentClassifier_init "what is the price?" = Return (t, c) /\
     (t = PRODUCT_INQUIRY \/ t = FAQ \/ t = SHIPPING)) /\
  memory run.2 = memory Desk.fresh /\
  conversation_history (context run.2) = conversation_history (context Desk.fresh) /\
  interaction_count (context run.2) = interaction_count (context Desk.fresh) + 1 /\
  user_id (context run.2) = "ada".
Proof.
  apply (@chat_error_leaves_no_trace Desk.empty_env Desk.desk_services
           "what is the price?" "ada" Desk.fresh).
  - apply surjective_pairing.
  - vm_compute. reflexivity.
Defined.

Lemma chat_answer_recorded_witness :
  let run := @chat Desk.empty_env Desk.desk_services "I want a design" "ada" Desk.fresh in
  exists (t : QueryType) (c : Q) (now : string),
    classify_intent IntentClassifier_init "I want a design" = Return (t, c) /\
    r_type run.1 = query_type_value t /\
    memory run.2
    = memory Desk.fresh ++ [HumanMessage "I want a design"; AIMessage (r_message run.1)] /\
    last (conversation_history (context run.2))
    = Some (interaction_of now "I want a design" run.1) /\
    (exists dropped,
       conversation_history (context Desk.fresh)
       ++ [interaction_of now "I want a design" run.1]
       = dropped ++ conversation_history (context run.2)) /\
    length (conversation_history (context run.2))
    = Nat.min (S (length (conversation_history (context Desk.fresh)))) 20 /\
    interaction_count (context run.2) = interaction_count (context Desk.fresh) + 1 /\
    user_id (context run.2) = "ada".
Proof.
  apply (@chat_answer_recorded Desk.empty_env Desk.desk_services
           "I want a design" "ada" Desk.fresh).
  - apply surjective_pairing.
  - vm_compute. discriminate.
Defined.

Lemma chats_record_witness :
  let inputs := [("what is the price?", "ada"); ("I want a design", "ada");
                 ("hello", "bob")] in
  let run := @chats Desk.empty_env Desk.desk_services inputs Desk.fresh in
  length run.1 = length inputs /\
  interaction_count (context run.2)
  = interaction_count (context Desk.fresh) + Z.of_nat (length inputs) /\
  length (memory run.2) = (length (memory Desk.fresh) + 2 * answered run.1)%nat /\
  length (conversation_history (context run.2))
  = Nat.min (length (conversation_history (context Desk.fresh)) + answered run.1) 20.
Proof.
  apply (@chats_record Desk.empty_env Desk.desk_services).
  - vm_compute. lia.
  - apply surjective_pairing.
Defined.

Lemma refine_design_unknown_witness :
  @refine_design Desk.desk_services "design_2" "make it brighter" Desk.with_rocket
  = (Return design_not_found, Desk.with_rocket).
Proof.
  apply (@refine_design_unknown Desk.desk_services "design_2" "make it brighter"
           Desk.with_rocket).
  apply (bool_decide_unpack _). vm_compute. reflexivity.
Defined.

Lemma refine_design_simpler_raises_witness :
  exists bot' : @StyleBot Desk.desk_services,
    refine_design "design_1" "Make it SIMPLER please" Desk.with_rocket
    = (Throw (KeyError "minimalist"), bot') /\
    same_but_rng Desk.with_rocket bot'.
Proof.
  apply (@refine_design_simpler_raises Desk.desk_services "design_1"
           "Make it SIMPLER please" Desk.with_rocket Studio.rocket).
  - reflexivity.
  - discriminate.
  - left. apply (bool_decide_unpack _). vm_compute. reflexivity.
Defined.

Lemma refine_design_replaces_witness :
  exists (response : Response) (bot' : @StyleBot Desk.desk_services)
         (refined : Suggestion),
    refine_design "design_1" "brighter and more colorful" Desk.with_rocket
    = (Return response, bot') /\
    r_type response = "design_refinement" /\
    r_suggestions response = [refined_card refined] /\
    last_suggestions (context bot') = [refined] /\
    s_id refined = "design_1" /\
    s_style refined = s_style Studio.rocket /\
    s_colors refined <> [] /\
    (forall other : string,
       find_design other (last_suggestions (context bot'))
       = if String.eqb "design_1" other then Some refined else None) /\
    same_record Desk.with_rocket bot'.
Proof.
  apply (@refine_design_replaces Desk.desk_services "design_1"
           "brighter and more colorful" Desk.with_rocket Studio.rocket).
  - reflexivity.
  - apply (bool_decide_unpack _). vm_compute. reflexivity.
  - discriminate.
  - apply (bool_decide_unpack _). vm_compute. reflexivity.
  - apply (bool_decide_unpack _). vm_compute. reflexivity.
Defined.

Lemma chat_design_then_refine_witness :
  let run := @chat Desk.empty_env Desk.desk_services
               "I want a space-themed t-shirt design" "refinement_user" Desk.fresh in
  r_type run.1 = "design_consultation" /\
  r_suggestions run.1 = design_card <$> last_suggestions (context run.2) /\
  s_id <$> last_suggestions (context run.2) = ["design_1"; "design_2"; "design_3"] /\
  forall (design : Suggestion) (feedback : string),
    design ∈ last_suggestions (context run.2) ->
    if bool_decide (occurs_in "simpler" (py_lower feedback)
                    \/ occurs_in "cleaner" (py_lower feedback))
    then exists bot'' : StyleBot,
           refine_design (s_id design) feedback run.2
           = (Throw (KeyError "minimalist"), bot'')
    else exists (refinement : Response) (bot'' : StyleBot) (refined : Suggestion),
           refine_design (s_id design) feedback run.2 = (Return refinement, bot'') /\
           r_type refinement = "design_refinement" /\
           r_suggestions refinement = [refined_card refined] /\
           last_suggestions (context bot'') = [refined] /\
           s_id refined = s_id design.
Proof.
  apply (@chat_design_then_refine Desk.empty_env Desk.desk_services
           "I want a space-themed t-shirt design" "refinement_user" Desk.fresh
           _ _ (3 # 17)%Q).
  - vm_compute. reflexivity.
  - apply surjective_pairing.
Defined.

Lemma chat_empty_knowledge_base_witness :
  let run := @chat Desk.empty_env Desk.desk_services "what is the price?" "ada" Desk.fresh in
  run.1 = error_response /\ @empty_knowledge_base Desk.empty_env Desk.desk_services run.2.
Proof.
  apply (@chat_empty_knowledge_base Desk.empty_env Desk.desk_services
           "what is the price?" "ada" Desk.fresh _ _ PRODUCT_INQUIRY (1 # 18)%Q).
  - repeat split.
  - vm_compute. reflexivity.
  - left. reflexivity.
  - apply surjective_pairing.
Defined.
